(** * Bayesian-NN inference: a shallow embedding of [predict_impl],
    [Console] and the [bnn_geotech] experiment script.

  Sources embedded here:
  - [src/bnn_inference/tools/console.py]  ([BColors], [Console])
  - [src/bnn_inference/predict.py]        ([predict_impl])
  - [bnn_geotech.py]                      ([load_dataset],
    [BayesianRegressor], [evaluate_regression], [main])

  Numbers are kept abstract (class [Float]): the development is about
  the control flow, the data flow and the shapes of the program, not
  about rounding.  Randomness is explicit state passing: every
  stochastic forward pass takes the generator state and returns the
  next one. *)

From Stdlib Require Import ZArith QArith String List Bool Lia Ascii.
From stdpp Require Import gmap strings list pretty.

Open Scope string_scope.
Open Scope Z_scope.

(* ================================================================== *)
(** ** Numbers *)
(* ================================================================== *)

(** The operations of Python floats / numpy / torch scalars that the
  program uses. No law is assumed about them. *)
Class Float (F : Type) := {
fzero : F;
fadd : F -> F -> F;
fsub : F -> F -> F;
fmul : F -> F -> F;
fdiv : F -> F -> F;
fsqrt : F -> F;
fof_Z : Z -> F;          (* int -> float *)
fleb : F -> F -> bool;   (* a <= b *)
fis_zero : F -> bool;    (* x == 0, the test behind bool(x) *)
fstr : F -> string;      (* str(x) *)
}.

Definition fof_nat `{Float F} (n : nat) : F := fof_Z (Z.of_nat n).
Definition fsum `{Float F} (l : list F) : F := foldl fadd fzero l.

(** A Python number as the command line hands it over: [int] or [float]. *)
Inductive PyNum (F : Type) :=
| PyInt (z : Z)
| PyFloat (x : F).
Arguments PyInt {F} z.
Arguments PyFloat {F} x.

(** [bool(x)] for a number. *)
Definition num_truthy `{Float F} (x : PyNum F) : bool :=
match x with
| PyInt z => negb (z =? 0)
| PyFloat x => negb (fis_zero x)
end.

(** The float a number becomes when it multiplies a float array. *)
Definition num_to_float `{Float F} (x : PyNum F) : F :=
match x with
| PyInt z => fof_Z z
| PyFloat x => x
end.

Definition num_str `{Float F} (x : PyNum F) : string :=
match x with
| PyInt z => pretty z
| PyFloat x => fstr x
end.

Definition str_truthy (s : string) : bool := negb (String.eqb s "").
Definition int_truthy (n : Z) : bool := negb (n =? 0).

(** The value the pattern [if x: v = x else: v = d] leaves in [v]. *)
Definition py_or {A} (truthy : A -> bool) (x : option A) (d : A) : A :=
match x with
| Some a => if truthy a then a else d
| None => d
end.

(* ================================================================== *)
(** ** Strings *)
(* ================================================================== *)

Definition NL : string := String (ascii_of_nat 10) "".
Definition CR : string := String (ascii_of_nat 13) "".
Definition TAB : string := String (ascii_of_nat 9) "".
Definition ESC : string := String (ascii_of_nat 27) "".

(** [" ".join(args)] *)
Definition join_args (args : list string) : string := String.concat " " args.

(** [c * n] for a one-character string [c]. *)
Fixpoint str_repeat (c : string) (n : nat) : string :=
match n with
| O => ""
| S n' => c +:+ str_repeat c n'
end.

(** [s] ends with [suffix]. *)
Definition str_ends_with (suffix s : string) : Prop :=
exists front, s = front +:+ suffix.

(* ================================================================== *)
(** ** console.py *)
(* ================================================================== *)

Module BColors.
Definition HEADER : string := ESC +:+ "[95m".
Definition OKBLUE : string := ESC +:+ "[94m".
Definition OKGREEN : string := ESC +:+ "[92m".
Definition WARNING : string := ESC +:+ "[93m".
Definition FAIL : string := ESC +:+ "[91m".
Definition ENDC : string := ESC +:+ "[0m".
Definition BOLD : string := ESC +:+ "[1m".
Definition UNDERLINE : string := ESC +:+ "[4m".
End BColors.

(** How a Python call ends: it returns, the process exits ([sys.exit]),
  or an exception propagates. *)
Inductive PyError :=
| FileNotFoundError (path : string)
| KeyError (key : string)
| TypeError (what : string)
| ValueError (what : string)
| RuntimeError (what : string)
| ZeroDivisionError
| ReError (pattern : string).

Inductive Outcome (A : Type) :=
| Ret (a : A)
| Exit
| Raise (e : PyError).
Arguments Ret {A} a.
Arguments Exit {A}.
Arguments Raise {A} e.

(** The call returned. *)
Definition is_ret {A} (o : Outcome A) : bool :=
  match o with
  | Ret _ => true
  | _ => false
  end.

(** The state-and-outcome monad over a state type [W]. *)
Definition M (W A : Type) : Type := W -> Outcome A * W.

Definition ret {W A} (a : A) : M W A := fun w => (Ret a, w).
Definition exit_ {W A} : M W A := fun w => (Exit, w).
Definition raise {W A} (e : PyError) : M W A := fun w => (Raise e, w).
Definition bind {W A B} (m : M W A) (k : A -> M W B) : M W B :=
fun w =>
  match m w with
  | (Ret a, w') => k a w'
  | (Exit, w') => (Exit, w')
  | (Raise e, w') => (Raise e, w')
  end.

Notation "x <- m ;; k" := (bind m (fun x => k))
(at level 100, m at next level, right associativity).
Notation "m ;;; k" := (bind m (fun _ => k))
(at level 100, right associativity).

(** What the console needs from the state: the text written so far, one
  entry per [print] call, oldest first, each with its line end. *)
Class HasConsole (W : Type) := {
get_console : W -> list string;
set_console : list string -> W -> W;
}.

Section Console.
Context {W : Type} `{HasConsole W}.

(** [print] with an explicit [end]. *)
Definition print_end (args : list string) (e : string) : M W unit :=
  fun w => (Ret tt, set_console (get_console w ++ [join_args args +:+ e]) w).

(** [print] with the default line end. *)
Definition print (args : list string) : M W unit := print_end args NL.

Definition warn_text (args : list string) : string :=
  BColors.WARNING +:+ " WARN ▸ " +:+ BColors.ENDC +:+ join_args args.
Definition error_text (args : list string) : string :=
  BColors.FAIL +:+ " ERROR ▸ " +:+ BColors.ENDC +:+ join_args args.
Definition info_text (args : list string) : string :=
  BColors.OKBLUE +:+ " INFO ▸ " +:+ BColors.ENDC +:+ join_args args.
Definition quit_text (args : list string) : string :=
  BColors.FAIL +:+ "**** " +:+ BColors.ENDC +:+ "Reason: " +:+ join_args args.

(** [Console.warn]: prints, returns. *)
Definition Console_warn (args : list string) : M W unit :=
  print [warn_text args].

(** [Console.error]: prints, returns. *)
Definition Console_error (args : list string) : M W unit :=
  print [error_text args].

(** [Console.info]: prints, returns. *)
Definition Console_info (args : list string) : M W unit :=
  print [info_text args].

(** [Console.quit]: prints three times, then [sys.exit()]. *)
Definition Console_quit {A} (args : list string) : M W A :=
  print [NL] ;;;
  print [BColors.FAIL +:+ "**** " +:+ BColors.ENDC +:+ "Exiting."] ;;;
  print [quit_text args] ;;;
  exit_.

(** [Console.progress(iteration, total)] with the default prefix,
    suffix, length, decimals and fill. [percent] is the text of
    [100 * (iteration / float(total))] with one decimal. *)
Definition Console_progress (percent : nat -> nat -> string)
    (iteration total : nat) : M W unit :=
  if (total =? 0)%nat then raise ZeroDivisionError else
  let length := 50%nat in
  let filledLength := (length * iteration / total)%nat in
  let bar := str_repeat "*" filledLength
             +:+ str_repeat "-" (length - filledLength) in
  print_end [CR +:+ "Progress:" +:+ " |" +:+ bar +:+ "| "
             +:+ percent iteration total +:+ "% " +:+ "Complete"] CR ;;;
  if (total - 1 <=? iteration)%nat then print [] else ret tt.
End Console.

(* ================================================================== *)
(** ** numpy arrays *)
(* ================================================================== *)

(** An n-dimensional array: its shape and its elements in row-major
  order. A tensor moved to numpy ([.detach().cpu().numpy()]) or back is
  the same value. *)
Record ndarray (F : Type) := mk_ndarray {
shape : list nat;
data : list F;
}.
Arguments mk_ndarray {F} shape data.
Arguments shape {F} n.
Arguments data {F} n.

Definition shape_eqb (s t : list nat) : bool := bool_decide (s = t).

Definition prod_shape (s : list nat) : nat := foldr Nat.mul 1%nat s.

Section Numpy.
Context {F : Type} `{Float F}.

(** [x.unsqueeze(0)] for a one-dimensional [x]. *)
Definition unsqueeze0 (x : list F) : ndarray F :=
  mk_ndarray [1%nat; length x] x.

(** The arrays of a Python list all have the shape of the first. *)
Definition same_shapes (l : list (ndarray F)) : bool :=
  match l with
  | [] => true
  | a :: r => forallb (fun b => shape_eqb (shape b) (shape a)) r
  end.

(** Shape of the elements of [np.array(l)]: of the first array, and
    [()] for an empty list, whose array has shape [(0,)]. *)
Definition elem_shape (l : list (ndarray F)) : list nat :=
  match l with
  | [] => []
  | a :: _ => shape a
  end.

(** [np.array(l)] for a list of arrays; [None] when the shapes differ
    (numpy raises [ValueError]). *)
Definition np_array (l : list (ndarray F)) : option (ndarray F) :=
  if same_shapes l
  then Some (mk_ndarray
               (match l with
                | [] => [0%nat]
                | a :: _ => length l :: shape a
                end)
               (concat (map data l)))
  else None.

(** The [j]-th element of every array of the list. *)
Definition along0 (l : list (ndarray F)) (j : nat) : list F :=
  map (fun a => nth j (data a) fzero) l.

(** Arithmetic mean: sum over count. On no element this is [0/0], the
    [nan] numpy returns. *)
Definition mean (xs : list F) : F := fdiv (fsum xs) (fof_nat (length xs)).

(** numpy's standard deviation (no Bessel correction):
    [sqrt(mean((x - x.mean())**2))]. *)
Definition std (xs : list F) : F :=
  let m := mean xs in
  fsqrt (mean (map (fun x => fmul (fsub x m) (fsub x m)) xs)).

(** A reduction of [np.array(l)] along axis 0. *)
Definition reduce0 (f : list F -> F) (l : list (ndarray F))
  : option (ndarray F) :=
  if same_shapes l
  then Some (mk_ndarray (elem_shape l)
               (map (fun j => f (along0 l j))
                    (seq 0 (prod_shape (elem_shape l)))))
  else None.

(** [np.mean(l, axis=0)] *)
Definition np_mean0 (l : list (ndarray F)) : option (ndarray F) :=
  reduce0 mean l.

(** [np.std(l, axis=0)] *)
Definition np_std0 (l : list (ndarray F)) : option (ndarray F) :=
  reduce0 std l.

(** [a * c] for an array and a scalar. *)
Definition np_scale (a : ndarray F) (c : F) : ndarray F :=
  mk_ndarray (shape a) (map (fun v => fmul v c) (data a)).

(** [np.squeeze(l)]: the array of the list without its axes of
    length one. *)
Definition np_squeeze (l : list (ndarray F)) : option (ndarray F) :=
  match np_array l with
  | Some a =>
      Some (mk_ndarray (List.filter (fun d => negb (d =? 1)%nat) (shape a))
              (data a))
  | None => None
  end.

Definition fmin (a b : F) : F := if fleb a b then a else b.
Definition fmax (a b : F) : F := if fleb a b then b else a.

(** [np.amin] / [np.amax] of all the elements of a matrix given by its
    rows; [None] on a zero-size array (numpy raises [ValueError]). *)
Definition np_amin (X : list (list F)) : option F :=
  match concat X with
  | [] => None
  | x :: r => Some (foldl fmin x r)
  end.
Definition np_amax (X : list (list F)) : option F :=
  match concat X with
  | [] => None
  | x :: r => Some (foldl fmax x r)
  end.
End Numpy.

(* ================================================================== *)
(** ** pandas data frames *)
(* ================================================================== *)

Inductive Cell (F : Type) :=
| CNum (x : F)
| CInt (z : Z)
| CStr (s : string)
| CNaN.
Arguments CNum {F} x.
Arguments CInt {F} z.
Arguments CStr {F} s.
Arguments CNaN {F}.

(** A frame: its index (with the index name) and its columns in order,
  each a label with one cell per row. Labels may repeat. *)
Record DataFrame (F : Type) := mk_df {
df_index_name : option string;
df_index : list (Cell F);
df_columns : list (string * list (Cell F));
}.
Arguments mk_df {F} _ _ _.
Arguments df_index_name {F} d.
Arguments df_index {F} d.
Arguments df_columns {F} d.

Definition str_in (s : string) (l : list string) : bool :=
existsb (String.eqb s) l.

Section Pandas.
Context {F : Type} `{Float F}.

Definition nrows (df : DataFrame F) : nat := length (df_index df).
Definition column_names (df : DataFrame F) : list string :=
  map fst (df_columns df).

(** A [RangeIndex] of [n] rows. *)
Definition range_index (n : nat) : list (Cell F) :=
  map (fun i => CInt (Z.of_nat i)) (seq 0 n).

(** The [j]-th column of a row-major [n x m] block. *)
Definition block_column (m : nat) (n : nat) (d : list F) (j : nat)
  : list (Cell F) :=
  map (fun i => match nth_error d (i * m + j) with
                | Some v => CNum v
                | None => CNaN
                end) (seq 0 n).

(** [pd.DataFrame(a, columns=names)]: a one-dimensional array is one
    column, a two-dimensional one a column per second-axis entry; any
    other rank, or a number of names different from the number of
    columns, raises [ValueError]. *)
Definition DataFrame_of_array (a : ndarray F) (names : list string)
  : Outcome (DataFrame F) :=
  match shape a with
  | [n] =>
      if (length names =? 1)%nat
      then Ret (mk_df None (range_index n)
                  (map (fun name => (name, map CNum (data a))) names))
      else Raise (ValueError "Shape of passed values")
  | [n; m] =>
      if (length names =? m)%nat
      then Ret (mk_df None (range_index n)
                  (imap (fun j name => (name, block_column m n (data a) j))
                        names))
      else Raise (ValueError "Shape of passed values")
  | _ => Raise (ValueError "Must pass 2-d input")
  end.

(** [df.reset_index(drop=True)] *)
Definition reset_index_drop (df : DataFrame F) : DataFrame F :=
  mk_df None (range_index (nrows df)) (df_columns df).

(** [df.reset_index(drop=False)]: the index becomes the first column,
    under the index name, or [index] ([level_0] when [index] is taken)
    for an unnamed index; a name already among the columns raises
    [ValueError]. *)
Definition reset_index_keep (df : DataFrame F) : Outcome (DataFrame F) :=
  let name :=
    match df_index_name df with
    | Some n => n
    | None => if str_in "index" (column_names df) then "level_0" else "index"
    end in
  if str_in name (column_names df)
  then Raise (ValueError "cannot insert, already exists")
  else Ret (mk_df None (range_index (nrows df))
              ((name, df_index df) :: df_columns df)).

(** A column brought to [n] rows, missing cells being NaN. *)
Definition pad_column (n : nat) (c : string * list (Cell F))
  : string * list (Cell F) :=
  (fst c, (snd c ++ replicate (n - length (snd c)) CNaN)%list).

(** [pd.concat([a, b], axis=1)] for two frames with a [RangeIndex]:
    the columns of [a] then those of [b], over the longer index. *)
Definition concat_columns (a b : DataFrame F) : DataFrame F :=
  let n := Nat.max (nrows a) (nrows b) in
  mk_df None (range_index n)
    (map (pad_column n) (df_columns a) ++ map (pad_column n) (df_columns b)).

(** [list(df.filter(regex=pattern))]: the labels [re.search] finds the
    pattern in. *)
Definition filter_regex (search : string -> bool) (df : DataFrame F)
  : list string :=
  List.filter search (column_names df).

(** [df.drop(labels, axis=1)]: every column under one of the labels
    goes. *)
Definition drop_columns (labels : list string) (df : DataFrame F)
  : DataFrame F :=
  mk_df (df_index_name df) (df_index df)
    (List.filter (fun c => negb (str_in (fst c) labels)) (df_columns df)).

Definition cell_is_nan (c : Cell F) : bool :=
  match c with
  | CNaN => true
  | _ => false
  end.

(** [df.dropna()]: the rows without a missing cell. *)
Definition dropna (df : DataFrame F) : DataFrame F :=
  let keep := List.filter
    (fun i => forallb (fun c => negb (cell_is_nan (nth i (snd c) CNaN)))
                      (df_columns df))
    (seq 0 (nrows df)) in
  mk_df (df_index_name df)
    (map (fun i => nth i (df_index df) CNaN) keep)
    (map (fun c => (fst c, map (fun i => nth i (snd c) CNaN) keep))
         (df_columns df)).

Definition cell_to_float (c : Cell F) : option F :=
  match c with
  | CNum x => Some x
  | CInt z => Some (fof_Z z)
  | CNaN => Some (fdiv fzero fzero)
  | CStr _ => None
  end.

(** [to_numpy(dtype=float)] of some columns: one row per frame row;
    [None] when a cell is no number. *)
Definition to_numpy_float (n : nat) (cols : list (string * list (Cell F)))
  : option (list (list F)) :=
  mapM (fun i => mapM (fun c => cell_to_float (nth i (snd c) CNaN)) cols)
       (seq 0 n).
End Pandas.

(* ================================================================== *)
(** ** The world [predict_impl] runs in *)
(* ================================================================== *)

(** A value stored in a checkpoint dictionary: a number (epochs, batch
  size, learning rate, ...) or a state dictionary of named tensors. *)
Inductive CkVal (F : Type) :=
| CkNum (n : PyNum F)
| CkStateDict (sd : gmap string (ndarray F)).
Arguments CkNum {F} n.
Arguments CkStateDict {F} sd.

(** What a path of the file system holds: a CSV (as the frame
  [pd.read_csv(path, index_col=0)] yields), a serialized checkpoint
  (as the dictionary [torch.load] yields) or anything else. *)
Inductive File (F : Type) :=
| FCsv (df : DataFrame F)
| FCheckpoint (ck : gmap string (CkVal F))
| FOther.
Arguments FCsv {F} df.
Arguments FCheckpoint {F} ck.
Arguments FOther {F}.

Record DateTime := mk_datetime {
year : nat; month : nat; day : nat;
hour : nat; minute : nat; second : nat;
}.

(** A number in decimal, zero-padded on the left to [width] digits. *)
Definition zero_pad (width : nat) (n : nat) : string :=
let s := pretty n in
str_repeat "0" (width - String.length s) +:+ s.

(** [datetime.strftime(t, "%Y%m%d_%H%M%S")] *)
Definition strftime_Ymd_HMS (t : DateTime) : string :=
zero_pad 4 (year t) +:+ zero_pad 2 (month t) +:+ zero_pad 2 (day t)
+:+ "_" +:+ zero_pad 2 (hour t) +:+ zero_pad 2 (minute t)
+:+ zero_pad 2 (second t).

Record World (F Rng : Type) := mk_world {
w_files : gmap string (File F);   (* the regular files, by path *)
w_console : list string;          (* standard output *)
w_now : DateTime;                 (* what datetime.now() reads *)
w_cuda : bool;                    (* torch.cuda.is_available() *)
w_rng : Rng;                      (* torch's random generator *)
}.
Arguments mk_world {F Rng} _ _ _ _ _.
Arguments w_files {F Rng} w.
Arguments w_console {F Rng} w.
Arguments w_now {F Rng} w.
Arguments w_cuda {F Rng} w.
Arguments w_rng {F Rng} w.

#[export] Instance world_console {F Rng} : HasConsole (World F Rng) := {
get_console := w_console;
set_console c w := mk_world (w_files w) c (w_now w) (w_cuda w) (w_rng w);
}.

(** Modelled from the spec: the class [BayesianRegressor] of
  [bnn_inference.tools.bnn_model] is not among the sources. The spec's
  data model gives the network a declared input dimension and a
  declared output dimension; the constructor call of [predict_impl]
  passes both, with the output layer type. The weights are a state
  dictionary; how they are initialised and what a forward pass computes
  are parameters of the development. *)
Record Regressor (F : Type) := mk_regressor {
input_dim : nat;
output_dim : nat;
output_type : string;
state_dict : gmap string (ndarray F);
training : bool;
}.
Arguments mk_regressor {F} _ _ _ _ _.
Arguments input_dim {F} r.
Arguments output_dim {F} r.
Arguments output_type {F} r.
Arguments state_dict {F} r.
Arguments training {F} r.

Section World.
Context {F Rng : Type} `{Float F}.
Local Abbreviation W := (World F Rng).

(** [os.path.isfile(path)] *)
Definition isfile (path : string) : M W bool :=
  fun w => (Ret (bool_decide (is_Some (w_files w !! path))), w).

(** [datetime.now()] *)
Definition now : M W DateTime := fun w => (Ret (w_now w), w).

(** [torch.cuda.is_available()] *)
Definition cuda_is_available : M W bool := fun w => (Ret (w_cuda w), w).

(** [pd.read_csv(path, index_col=0)] *)
Definition read_csv (path : string) : M W (DataFrame F) :=
  fun w =>
    match w_files w !! path with
    | Some (FCsv df) => (Ret df, w)
    | Some _ => (Raise (ValueError "not a CSV file"), w)
    | None => (Raise (FileNotFoundError path), w)
    end.

(** [torch.load(path)] *)
Definition torch_load (path : string) : M W (gmap string (CkVal F)) :=
  fun w =>
    match w_files w !! path with
    | Some (FCheckpoint ck) => (Ret ck, w)
    | Some _ => (Raise (RuntimeError "not a checkpoint"), w)
    | None => (Raise (FileNotFoundError path), w)
    end.

(** [df.to_csv(path)] *)
Definition to_csv (path : string) (df : DataFrame F) : M W unit :=
  fun w =>
    (Ret tt,
     mk_world (<[path := FCsv df]> (w_files w)) (w_console w) (w_now w)
       (w_cuda w) (w_rng w)).

(** A computation that reads and advances the random generator. *)
Definition with_rng {A} (f : Rng -> A * Rng) : M W A :=
  fun w =>
    let (a, g) := f (w_rng w) in
    (Ret a, mk_world (w_files w) (w_console w) (w_now w) (w_cuda w) g).

(** An optional value, [None] raising [e]. *)
Definition or_raise {A} (o : option A) (e : PyError) : M W A :=
  match o with
  | Some a => ret a
  | None => raise e
  end.

(** The outcome of a pure step. *)
Definition lift {A} (o : Outcome A) : M W A := fun w => (o, w).

(** Modelled from the spec: [PredictiveEngine.loadData] of
    [bnn_inference.tools.predictor] is not among the sources. The
    spec's dataset loader "reads a CSV, isolates latent-feature columns
    by name prefix, validates/cleans rows"; [predict_impl] takes from
    it the latent matrix, the number of latent columns and the frame. *)
Definition loadData (input_filename input_key_prefix : string)
  : M W (list (list F) * nat * DataFrame F) :=
  df <- read_csv input_filename ;;
  let df := dropna df in
  let latent :=
    List.filter (fun c => String.prefix input_key_prefix (fst c))
                (df_columns df) in
  let n_latents := length latent in
  np_latent <- or_raise (to_numpy_float (nrows df) latent)
                 (ValueError "could not convert string to float") ;;
  ret (np_latent, n_latents, df).
End World.

(* ================================================================== *)
(** ** predict.py *)
(* ================================================================== *)

(** The local variables of [predict_impl] once the inputs are checked,
  the defaults resolved, the data loaded and the network rebuilt
  (line 133). *)
Record Locals (F : Type) := mk_locals {
l_output_csv : string;
l_k_samples : Z;
l_output_key : string;
l_input_key : string;
l_scaling_factor : PyNum F;
l_np_latent : list (list F);
l_n_latents : nat;
l_df : DataFrame F;
l_trained_network : gmap string (CkVal F);
l_output_size : nat;
l_regressor : Regressor F;
}.
Arguments mk_locals {F} _ _ _ _ _ _ _ _ _ _ _.
Arguments l_output_csv {F} l.
Arguments l_k_samples {F} l.
Arguments l_output_key {F} l.
Arguments l_input_key {F} l.
Arguments l_scaling_factor {F} l.
Arguments l_np_latent {F} l.
Arguments l_n_latents {F} l.
Arguments l_df {F} l.
Arguments l_trained_network {F} l.
Arguments l_output_size {F} l.
Arguments l_regressor {F} l.

(** The parts of the third-party libraries and of the missing modules
    that [predict_impl] calls and that are not modelled above. *)
Class PredictLibs (F Rng : Type) := {
  (** [re.search(pattern, label) is not None]; [None] for a pattern
      [re] rejects. *)
  re_compile : string -> option (string -> bool);
  (** [get_torch_device(gpu_index, cpu_only)] of [bnn_inference.train],
      given whether CUDA is available. *)
  get_torch_device : Z -> bool -> bool -> string;
  (** The random initial weights the constructor of the regressor draws. *)
  init_state_dict :
    nat -> nat -> string -> Rng -> gmap string (ndarray F) * Rng;
  (** Whether [load_state_dict] accepts a state dictionary (its keys and
      shapes are those of the network). *)
  state_dict_fits :
    nat -> nat -> string -> gmap string (ndarray F) -> bool;
  (** One stochastic forward pass. *)
  regressor_forward :
    Regressor F -> ndarray F -> Rng -> ndarray F * Rng;
  (** Text of [100 * (iteration / float(total))] with one decimal. *)
  percent_text : nat -> nat -> string;
  (** [str] of a state dictionary and of the head of a frame. *)
  str_state_dict : gmap string (ndarray F) -> string;
  str_df_head : DataFrame F -> string;
}.

Section Predict.
Context {F Rng : Type} `{Float F} `{PredictLibs F Rng}.
Local Abbreviation W := (World F Rng).

(** [BayesianRegressor(input_dim=.., output_dim=.., output_type=..)] *)
Definition BayesianRegressor_new (input_dim output_dim : nat)
    (output_type : string) : M W (Regressor F) :=
  sd <- with_rng (init_state_dict input_dim output_dim output_type) ;;
  ret (mk_regressor input_dim output_dim output_type sd true).

(** [regressor.to(device)]: the same network. *)
Definition to_device (r : Regressor F) (device : string) : Regressor F := r.

(** [regressor.load_state_dict(sd)] *)
Definition load_state_dict (r : Regressor F) (sd : gmap string (ndarray F))
  : M W (Regressor F) :=
  if state_dict_fits (input_dim r) (output_dim r) (output_type r) sd
  then ret (mk_regressor (input_dim r) (output_dim r) (output_type r) sd
              (training r))
  else raise (RuntimeError "Error(s) in loading state_dict").

(** [regressor.eval()] *)
Definition eval_mode (r : Regressor F) : Regressor F :=
  mk_regressor (input_dim r) (output_dim r) (output_type r) (state_dict r)
    false.

(** [regressor(x)] *)
Definition forward (r : Regressor F) (x : ndarray F) : M W (ndarray F) :=
  with_rng (regressor_forward r x).

(** [d[key]] on a checkpoint dictionary. *)
Definition ck_get (d : gmap string (CkVal F)) (key : string)
  : M W (CkVal F) :=
  or_raise (d !! key) (KeyError key).

(** [d[key]] when [d] should be a state dictionary. *)
Definition sd_get (d : CkVal F) (key : string) : M W (ndarray F) :=
  match d with
  | CkStateDict sd => or_raise (sd !! key) (KeyError key)
  | CkNum _ => raise (TypeError "object is not subscriptable")
  end.

(** [len(a)] of an array: its first dimension. *)
Definition np_len (a : ndarray F) : M W nat :=
  match shape a with
  | n :: _ => ret n
  | [] => raise (TypeError "len() of unsized object")
  end.

(** [str(v)] of a checkpoint value. *)
Definition ck_str (v : CkVal F) : string :=
  match v with
  | CkNum n => num_str n
  | CkStateDict sd => str_state_dict sd
  end.

(** Lines 102-128: the checkpoint is loaded, the output size read off
    [linear_output.weight] and the regressor built. Both branches do
    the same but for the console line and [map_location]. *)
Definition load_network (output_network_filename output_layer_type : string)
    (n_latents : nat) (device : string)
  : M W (gmap string (CkVal F) * nat * Regressor F) :=
  cuda <- cuda_is_available ;;
  if cuda then
    Console_info ["Using CUDA"] ;;;
    trained_network <- torch_load output_network_filename ;;
    msd <- ck_get trained_network "model_state_dict" ;;
    weight <- sd_get msd "linear_output.weight" ;;
    output_size <- np_len weight ;;
    regressor <- BayesianRegressor_new n_latents output_size
                   output_layer_type ;;
    ret (trained_network, output_size, to_device regressor device)
  else
    Console_warn ["Using CPU"] ;;;
    trained_network <- torch_load output_network_filename ;;
    msd <- ck_get trained_network "model_state_dict" ;;
    weight <- sd_get msd "linear_output.weight" ;;
    output_size <- np_len weight ;;
    regressor <- BayesianRegressor_new n_latents output_size
                   output_layer_type ;;
    ret (trained_network, output_size, to_device regressor device).

(** Lines 35-133 of [predict_impl]. *)
Definition predict_setup
    (latent_csv : string) (latent_key target_key : option string)
    (output_csv output_network_filename output_layer_type : string)
    (num_samples : option Z) (scale_factor : option (PyNum F))
    (gpu_index : Z) (cpu_only : bool) : M W (Locals F) :=
  Console_info ["Bayesian NN inference module. Predicting hi-res terrain maps from lo-res features"] ;;;
  Console_info ["Prediction mode enabled. Looking for pretained network and input latent vectors"] ;;;
  (* Looking for CSV with latent vectors (input) *)
  found <- isfile latent_csv ;;
  (if found then Console_info ["Latent input file: "; latent_csv]
   else Console_error ["Latent input file [" +:+ latent_csv
          +:+ "] not found. Please check the provided input path (-l, --latent)"]) ;;;
  (* check for pre-trained network *)
  found <- isfile output_network_filename ;;
  (if found
   then Console_info ["Pre-trained network file ["; output_network_filename;
                      "] found"]
   else Console_quit ["No pre-trained network found at: ";
                      output_network_filename]) ;;;
  output_csv <-
    (if String.eqb output_csv "" then
       t <- now ;;
       let date_str := strftime_Ymd_HMS t in
       ret (date_str +:+ "_bnn_predictions.csv")
     else ret output_csv) ;;
  (* if output file exists, warn user *)
  found <- isfile output_csv ;;
  (if found
   then Console_warn ["Output file ["; output_csv;
          "] already exists. It will be overwritten (default action)"]
   else Console_info ["Output file: "; output_csv]) ;;;
  let k_samples := py_or int_truthy num_samples 20 in
  let output_key := py_or str_truthy target_key "predicted" in
  let input_key := py_or str_truthy latent_key "latent_" in
  let scaling_factor := py_or num_truthy scale_factor (PyFloat (fof_Z 1)) in
  Console_info ["Loading latent input ["; latent_csv; "]"] ;;;
  loaded <- loadData latent_csv "latent_" ;;
  let '(np_latent, n_latents, df) := loaded in
  Console_info ["Loading pretrained network ["; output_network_filename;
                "]"] ;;;
  cuda <- cuda_is_available ;;
  let device := get_torch_device gpu_index cpu_only cuda in
  net <- load_network output_network_filename output_layer_type n_latents
           device ;;
  let '(trained_network, output_size, regressor) := net in
  msd <- ck_get trained_network "model_state_dict" ;;
  regressor <-
    match msd with
    | CkStateDict sd => load_state_dict regressor sd
    | CkNum _ => raise (TypeError "state_dict is not a dictionary")
    end ;;
  let regressor := eval_mode regressor in
  ret (mk_locals output_csv k_samples output_key input_key scaling_factor
         np_latent n_latents df trained_network output_size regressor).

(** Lines 169-174: the inner loop, [k] forward passes on one input,
    their outputs appended in order. *)
Fixpoint draw_predictions (regressor : Regressor F) (x : list F) (k : nat)
  : M W (list (ndarray F)) :=
  match k with
  | O => ret []
  | S k' =>
      let x_ := unsqueeze0 x in
      y_ <- forward regressor x_ ;;
      rest <- draw_predictions regressor x k' ;;
      ret (y_ :: rest)
  end.

(** Lines 168-182: the loop over the rows, with its accumulators. *)
Fixpoint predict_rows (regressor : Regressor F) (k_samples : Z)
    (scaling_factor : PyNum F) (total : nat) (rows : list (list F))
    (idx : nat) (predicted uncertainty : list (ndarray F))
  : M W (list (ndarray F) * list (ndarray F)) :=
  match rows with
  | [] => ret (predicted, uncertainty)
  | x :: rows' =>
      predictions <- draw_predictions regressor x (Z.to_nat k_samples) ;;
      m <- or_raise (np_mean0 predictions)
             (ValueError "inhomogeneous shape") ;;
      let p_mean := np_scale m (num_to_float scaling_factor) in
      s <- or_raise (np_std0 predictions)
             (ValueError "inhomogeneous shape") ;;
      let p_stdv := np_scale s (num_to_float scaling_factor) in
      let predicted := (predicted ++ [p_mean])%list in
      let uncertainty := (uncertainty ++ [p_stdv])%list in
      let idx := S idx in
      Console_progress percent_text idx total ;;;
      predict_rows regressor k_samples scaling_factor total rows' idx
        predicted uncertainty
  end.

(** Lines 144-186 of [predict_impl]. *)
Definition predict_infer (l : Locals F)
  : M W (list (ndarray F) * list (ndarray F)) :=
  let trained_network := l_trained_network l in
  print ["Model dictionary loaded network ||"] ;;;
  v <- ck_get trained_network "epochs" ;;
  print [TAB +:+ "Epochs: "; ck_str v] ;;;
  v <- ck_get trained_network "batch_size" ;;
  print [TAB +:+ "Batch size: "; ck_str v] ;;;
  v <- ck_get trained_network "learning_rate" ;;
  print [TAB +:+ "Learning rate: "; ck_str v] ;;;
  v <- ck_get trained_network "lambda_fit_loss" ;;
  print [TAB +:+ "Lambda fit loss: "; ck_str v] ;;;
  v <- ck_get trained_network "elbo_kld" ;;
  print [TAB +:+ "ELBO k-samples: "; ck_str v] ;;;
  let X_norm := l_np_latent l in
  lo <- or_raise (np_amin X_norm) (ValueError "zero-size array") ;;
  hi <- or_raise (np_amax X_norm) (ValueError "zero-size array") ;;
  print ["X_norm [min,max]"; fstr lo; "/"; fstr hi] ;;;
  let Xp_ := X_norm in
  r <- predict_rows (l_regressor l) (l_k_samples l) (l_scaling_factor l)
         (length Xp_) Xp_ 0%nat [] [] ;;
  print ["Total predicted rows: "; pretty (length (fst r))] ;;;
  ret r.

(** The column labels [prefix + output_key + "_" + str(i)] for [i] in
    [range(output_size)]. *)
Definition result_columns (prefix output_key : string) (output_size : nat)
  : list string :=
  map (fun i => prefix +:+ output_key +:+ "_" +:+ pretty i)
      (seq 0 output_size).

(** Lines 188-241: the frame that is exported. *)
Definition output_frame (df : DataFrame F)
    (predicted uncertainty : list (ndarray F))
    (output_size : nat) (output_key input_key : string)
  : Outcome (DataFrame F) :=
  match np_squeeze predicted with
  | None => Raise (ValueError "inhomogeneous shape")
  | Some predicted =>
  let column_names := result_columns "pred_" output_key output_size in
  match DataFrame_of_array predicted column_names with
  | Exit => Exit
  | Raise e => Raise e
  | Ret _pdf =>
  let column_names := result_columns "std_" output_key output_size in
  match np_squeeze uncertainty with
  | None => Raise (ValueError "inhomogeneous shape")
  | Some uncertainty =>
  match DataFrame_of_array uncertainty column_names with
  | Exit => Exit
  | Raise e => Raise e
  | Ret _udf =>
  let output_df := df in
  match reset_index_keep output_df with
  | Exit => Exit
  | Raise e => Raise e
  | Ret output_df =>
  let pred_df :=
    concat_columns (reset_index_drop _pdf) (reset_index_drop _udf) in
  let output_df :=
    concat_columns (reset_index_drop output_df) (reset_index_drop pred_df) in
  match re_compile input_key with
  | None => Raise (ReError input_key)
  | Some search =>
      Ret (drop_columns (filter_regex search output_df) output_df)
  end end end end end end.

(** Lines 186-249 of [predict_impl]. *)
Definition predict_export (l : Locals F)
    (predicted uncertainty : list (ndarray F)) : M W Z :=
  output_df <- lift (output_frame (l_df l) predicted uncertainty
                       (l_output_size l) (l_output_key l) (l_input_key l)) ;;
  print ["Output dataframe columns: "; str_df_head output_df] ;;;
  let output_name := l_output_csv l in
  Console_info ["Exporting predictions to:"; output_name] ;;;
  let output_df :=
    mk_df (Some "index") (df_index output_df) (df_columns output_df) in
  to_csv output_name output_df ;;;
  Console_info ["Done!"] ;;;
  ret 0.

Definition predict_impl
    (latent_csv : string) (latent_key target_key : option string)
    (output_csv output_network_filename output_layer_type : string)
    (num_samples : option Z) (scale_factor : option (PyNum F))
    (gpu_index : Z) (cpu_only : bool) : M W Z :=
  l <- predict_setup latent_csv latent_key target_key output_csv
         output_network_filename output_layer_type num_samples scale_factor
         gpu_index cpu_only ;;
  r <- predict_infer l ;;
  predict_export l (fst r) (snd r).
End Predict.

(* ================================================================== *)
(** ** torch tensors: broadcasting and reductions *)
(* ================================================================== *)

(** Broadcast of two shapes, both given last axis first. *)
Fixpoint broadcast_rev (s t : list nat) : option (list nat) :=
match s, t with
| [], _ => Some t
| _, [] => Some s
| a :: s', b :: t' =>
    match broadcast_rev s' t' with
    | None => None
    | Some r =>
        if (a =? b)%nat then Some (a :: r)
        else if (a =? 1)%nat then Some (b :: r)
        else if (b =? 1)%nat then Some (a :: r)
        else None
    end
end.

Definition broadcast_shapes (s t : list nat) : option (list nat) :=
match broadcast_rev (rev s) (rev t) with
| Some r => Some (rev r)
| None => None
end.

(** Flat index, in an array of shape [s], of the element that sits at
  flat index [i] of the broadcast result of shape [r] (both shapes
  last axis first). *)
Fixpoint broadcast_index (r s : list nat) (i : nat) : nat :=
match r, s with
| d :: r', a :: s' =>
    ((if (a =? 1)%nat then 0 else i mod d)
     + a * broadcast_index r' s' (i / d))%nat
| _, _ => 0%nat
end.

Section Torch.
Context {F : Type} `{Float F}.

(** [torch.stack(l)]: raises on an empty list and on different shapes. *)
Definition torch_stack (l : list (ndarray F)) : Outcome (list (ndarray F)) :=
  match l with
  | [] => Raise (RuntimeError "stack expects a non-empty TensorList")
  | _ => if same_shapes l then Ret l
         else Raise (RuntimeError "stack expects each tensor to be equal size")
  end.

(** torch's standard deviation: Bessel's correction, divisor [N - 1]. *)
Definition std_unbiased (xs : list F) : F :=
  let m := mean xs in
  fsqrt (fdiv (fsum (map (fun x => fmul (fsub x m) (fsub x m)) xs))
              (fof_Z (Z.of_nat (length xs) - 1))).

(** Reduction of a stacked list of equal-shape tensors along axis 0. *)
Definition stacked_reduce0 (f : list F -> F) (l : list (ndarray F))
  : ndarray F :=
  mk_ndarray (elem_shape l)
    (map (fun j => f (along0 l j)) (seq 0 (prod_shape (elem_shape l)))).

(** Element-wise binary operation on two tensors of the same shape. *)
Definition tensor_zip (f : F -> F -> F) (a b : ndarray F) : ndarray F :=
  mk_ndarray (shape a) (zip_with f (data a) (data b)).

(** [c * a] for a scalar and a tensor. *)
Definition tensor_rmul (c : F) (a : ndarray F) : ndarray F :=
  mk_ndarray (shape a) (map (fun v => fmul c v) (data a)).

(** [a <= b] on tensors, with broadcasting; the result is a tensor of
    booleans. *)
Definition tensor_le (a b : ndarray F) : Outcome (list nat * list bool) :=
  match broadcast_shapes (shape a) (shape b) with
  | None => Raise (RuntimeError "The size of tensor a must match the size of tensor b")
  | Some r =>
      Ret (r,
           map (fun i =>
                  fleb (nth (broadcast_index (rev r) (rev (shape a)) i)
                            (data a) fzero)
                       (nth (broadcast_index (rev r) (rev (shape b)) i)
                            (data b) fzero))
               (seq 0 (prod_shape r)))
  end.

(** [t.float()] of one boolean. *)
Definition float_of_bool (b : bool) : F := if b then fof_Z 1 else fof_Z 0.

(** [t.float().mean()] of a tensor of booleans. *)
Definition bool_mean (t : list nat * list bool) : F :=
  mean (map float_of_bool (snd t)).
End Torch.

(* ================================================================== *)
(** ** bnn_geotech.py *)
(* ================================================================== *)

Module Geotech.

Record BayesianLinear (Params : Type) := mk_blinear {
  in_features : nat;
  out_features : nat;
  bl_params : Params;
}.
Arguments mk_blinear {Params} _ _ _.
Arguments in_features {Params} b.
Arguments out_features {Params} b.
Arguments bl_params {Params} b.

Record BayesianRegressor (Params : Type) := mk_regressor {
  blinear1 : BayesianLinear Params;
  blinear2 : BayesianLinear Params;
}.
Arguments mk_regressor {Params} _ _.
Arguments blinear1 {Params} b.
Arguments blinear2 {Params} b.

(** What the script takes from blitz, torch, sklearn and [re]. *)
Class ScriptLibs (F Rng : Type) := {
  (** [re.search(pattern, label) is not None]; [None] for a pattern
      [re] rejects. *)
  re_compile : string -> option (string -> bool);
  (** The weight-distribution parameters of a Bayesian layer (blitz). *)
  Params : Type;
  (** The random initial parameters of a layer of the given sizes. *)
  init_params : nat -> nat -> Rng -> Params * Rng;
  (** One stochastic pass through a layer: weights are sampled from the
      layer's distribution and applied; with the output comes the
      complexity cost of the sample, which the layer records for the KL
      term. *)
  blinear_pass :
    BayesianLinear Params -> ndarray F -> Rng -> (ndarray F * F) * Rng;
  (** The exponential function on floats. *)
  fexp : F -> F;
  (** Gradients of the parameters of a network. *)
  Grads : Type;
  zero_grads : Grads;
  add_grads : Grads -> Grads -> Grads;
  (** Gradient, at a network, of a loss given as a function of the
      network. *)
  gradient :
    (BayesianRegressor Params -> F) -> BayesianRegressor Params -> Grads;
  OptState : Type;
  (** [optim.Adam(regressor.parameters(), lr=lr)] and one update of it. *)
  adam_init : BayesianRegressor Params -> F -> OptState;
  adam_update :
    OptState -> BayesianRegressor Params -> Grads
    -> BayesianRegressor Params * OptState;
  (** [torch.nn.MSELoss()] *)
  MSELoss : ndarray F -> ndarray F -> F;
  (** [load_boston(return_X_y=True)] *)
  load_boston : ndarray F * ndarray F;
  (** [StandardScaler().fit_transform] *)
  standard_scale : ndarray F -> ndarray F;
  (** [train_test_split(X, y, test_size=.25, random_state=42)]:
      [X_train, X_test, y_train, y_test]. *)
  train_test_split :
    ndarray F -> ndarray F -> ndarray F * ndarray F * ndarray F * ndarray F;
  (** One pass over a shuffling [DataLoader] with the given batch size. *)
  dataloader_iter :
    ndarray F -> ndarray F -> nat -> Rng
    -> list (ndarray F * ndarray F) * Rng;
  (** [str] of a shape, and the formats [{:.2f}] and [{:.4f}]. *)
  str_shape : list nat -> string;
  fmt2 : F -> string;
  fmt4 : F -> string;
}.

Section Geotech.
Context {F Rng : Type} `{Float F} `{ScriptLibs F Rng}.
Local Abbreviation W := (World F Rng).
Local Abbreviation BayesianLinear := (BayesianLinear Params).
Local Abbreviation BayesianRegressor := (BayesianRegressor Params).

(** [load_dataset]. Line 32 of the source lacks the comma between the
    two arguments of [Console.info]; it is read with the comma. *)
Definition load_dataset (filename : string) (summary : bool)
    (latent_name_prefix : string) : M W (Z * nat) :=
  Console_info ["load_dataset called for: "; filename] ;;;
  df <- read_csv filename ;;
  (* 1) Let's determine number of latent-space dimensions *)
  search <- or_raise (re_compile latent_name_prefix)
              (ReError latent_name_prefix) ;;
  let df_latent := filter_regex search df in
  let n_latents := length df_latent in
  Console_info ["Latent dimensions: "; pretty n_latents] ;;;
  (* 2) Dtaa alidation, remove invalid entries (e.g. NaN) *)
  ret (1, n_latents).

(** [BayesianLinear(in_features, out_features)] *)
Definition BayesianLinear_new (in_features out_features : nat) (g : Rng)
  : BayesianLinear * Rng :=
  let (p, g') := init_params in_features out_features g in
  (mk_blinear in_features out_features p, g').

(** [layer(x)] *)
Definition blinear_forward (l : BayesianLinear) (x : ndarray F) (g : Rng)
  : ndarray F * Rng :=
  let (r, g') := blinear_pass l x g in (fst r, g').

(** [nn.Sigmoid()] on one value: [1 / (1 + exp(-v))]. *)
Definition fsigmoid (v : F) : F :=
  fdiv (fof_Z 1) (fadd (fof_Z 1) (fexp (fsub fzero v))).

(** [nn.Sigmoid()(x)] *)
Definition sigmoid (x : ndarray F) : ndarray F :=
  mk_ndarray (shape x) (map fsigmoid (data x)).

(** [BayesianRegressor.__init__] *)
Definition BayesianRegressor_new (input_dim output_dim : nat) (g : Rng)
  : BayesianRegressor * Rng :=
  let (l1, g1) := BayesianLinear_new input_dim 128 g in
  let (l2, g2) := BayesianLinear_new 128 output_dim g1 in
  (mk_regressor l1 l2, g2).

(** [BayesianRegressor.forward] *)
Definition forward (self : BayesianRegressor) (x : ndarray F) (g : Rng)
  : ndarray F * Rng :=
  let (x_, g1) := blinear_forward (blinear1 self) x g in
  let x_ := sigmoid x_ in
  blinear_forward (blinear2 self) x_ g1.

(** [[regressor(X) for i in range(samples)]] *)
Fixpoint sample_preds (regressor : BayesianRegressor) (X : ndarray F)
    (samples : nat) (g : Rng) : list (ndarray F) * Rng :=
  match samples with
  | O => ([], g)
  | S n =>
      let (p, g1) := forward regressor X g in
      let (ps, g2) := sample_preds regressor X n g1 in
      (p :: ps, g2)
  end.

(** [evaluate_regression] *)
Definition evaluate_regression (regressor : BayesianRegressor)
    (X y : ndarray F) (samples : Z) (std_multiplier : F) (g : Rng)
  : Outcome (F * F * F) * Rng :=
  let (preds, g') := sample_preds regressor X (Z.to_nat samples) g in
  (match torch_stack preds with
   | Exit => Exit
   | Raise e => Raise e
   | Ret preds =>
       let means := stacked_reduce0 mean preds in
       let stds := stacked_reduce0 std_unbiased preds in
       let ci_upper :=
         tensor_zip fadd means (tensor_rmul std_multiplier stds) in
       let ci_lower :=
         tensor_zip fsub means (tensor_rmul std_multiplier stds) in
       match tensor_le ci_lower y, tensor_le y ci_upper with
       | Ret lo, Ret up =>
           let ic_acc := (fst lo, zip_with andb (snd lo) (snd up)) in
           let ic_acc := bool_mean ic_acc in
           Ret (ic_acc, bool_mean up, bool_mean lo)
       | Raise e, _ => Raise e
       | _, Raise e => Raise e
       | _, _ => Exit
       end
   end, g').

(** *** The training script *)

(** One stochastic pass through the network, as [forward], keeping the
    complexity cost the two layers record. *)
Definition forward_kl (self : BayesianRegressor) (x : ndarray F) (g : Rng)
  : (ndarray F * F) * Rng :=
  let (r1, g1) := blinear_pass (blinear1 self) x g in
  let x_ := sigmoid (fst r1) in
  let (r2, g2) := blinear_pass (blinear2 self) x_ g1 in
  ((fst r2, fadd (snd r1) (snd r2)), g2).

(** The loss of each of [sample_nbr] passes: fit to the labels plus
    weighted complexity cost. *)
Fixpoint elbo_terms (self : BayesianRegressor) (inputs labels : ndarray F)
    (criterion : ndarray F -> ndarray F -> F) (sample_nbr : nat)
    (complexity_cost_weight : F) (g : Rng) : list F * Rng :=
  match sample_nbr with
  | O => ([], g)
  | S n =>
      let (r, g1) := forward_kl self inputs g in
      let (ts, g2) := elbo_terms self inputs labels criterion n
                        complexity_cost_weight g1 in
      (fadd (criterion (fst r) labels)
            (fmul (snd r) complexity_cost_weight) :: ts, g2)
  end.

(** Modelled from the spec: [sample_elbo] is given to the class by the
    decorator [variational_estimator] of the blitz library and is not
    among the sources. The spec's training loop "computes sampled ELBO
    loss (multiple stochastic forward passes averaged, weighted by a
    complexity-cost coefficient scaled by training-set size)", the loss
    being "reconstruction + KL complexity term". *)
Definition sample_elbo (self : BayesianRegressor) (inputs labels : ndarray F)
    (criterion : ndarray F -> ndarray F -> F) (sample_nbr : nat)
    (complexity_cost_weight : F) (g : Rng) : F * Rng :=
  let (ts, g') := elbo_terms self inputs labels criterion sample_nbr
                    complexity_cost_weight g in
  (mean ts, g').

(** The network, the gradients held by its parameters, the optimizer
    and the number of updates the optimizer has applied. *)
Record TrainState := mk_train {
  ts_regressor : BayesianRegressor;
  ts_grads : Grads;
  ts_opt : OptState;
  ts_steps : nat;
}.

(** [optimizer.zero_grad()] *)
Definition zero_grad (st : TrainState) : TrainState :=
  mk_train (ts_regressor st) zero_grads (ts_opt st) (ts_steps st).

(** [loss.backward()]: the gradient of the loss is added to the
    gradients held. *)
Definition backward (loss : BayesianRegressor -> F) (st : TrainState)
  : TrainState :=
  mk_train (ts_regressor st)
    (add_grads (ts_grads st) (gradient loss (ts_regressor st)))
    (ts_opt st) (ts_steps st).

(** [optimizer.step()] *)
Definition optimizer_step (st : TrainState) : TrainState :=
  let (r, o) := adam_update (ts_opt st) (ts_regressor st) (ts_grads st) in
  mk_train r (ts_grads st) o (S (ts_steps st)).

Definition get_rng : M W Rng := fun w => (Ret (w_rng w), w).

(** [1/n] on Python integers. *)
Definition one_over (n : nat) : M W F :=
  if (n =? 0)%nat then raise ZeroDivisionError
  else ret (fdiv (fof_Z 1) (fof_nat n)).

(** Lines 115-123: one mini-batch. Returns the loss with the state. *)
Definition batch_step (n_train : nat) (st : TrainState)
    (datapoints labels : ndarray F) : M W (TrainState * F) :=
  let st := zero_grad st in
  w <- one_over n_train ;;
  g <- get_rng ;;
  loss <- with_rng (sample_elbo (ts_regressor st) datapoints labels
                      MSELoss 3 w) ;;
  let st :=
    backward (fun r => fst (sample_elbo r datapoints labels MSELoss 3 w g))
             st in
  let st := optimizer_step st in
  ret (st, loss).

(** [evaluate_regression] as a step of the script. *)
Definition evaluate (regressor : BayesianRegressor) (X y : ndarray F)
    (samples : Z) (std_multiplier : F) : M W (F * F * F) :=
  fun w =>
    let (o, g) := evaluate_regression regressor X y samples std_multiplier
                    (w_rng w) in
    (o, mk_world (w_files w) (w_console w) (w_now w) (w_cuda w) g).

(** Lines 114-134: the loop over the mini-batches of one epoch. *)
Fixpoint train_batches (n_train : nat) (X_test y_test : ndarray F)
    (batches : list (ndarray F * ndarray F)) (st : TrainState)
    (iteration : nat) : M W (TrainState * nat) :=
  match batches with
  | [] => ret (st, iteration)
  | (datapoints, labels) :: rest =>
      r <- batch_step n_train st datapoints labels ;;
      let st := fst r in
      let loss := snd r in
      let iteration := S iteration in
      (if (iteration mod 100 =? 0)%nat then
         e <- evaluate (ts_regressor st) X_test y_test 25 (fof_Z 3) ;;
         print ["CI acc: " +:+ fmt2 (fst (fst e)) +:+ ", CI upper acc: "
                +:+ fmt2 (snd (fst e)) +:+ ", CI lower acc: "
                +:+ fmt2 (snd e)] ;;;
         print ["Loss: " +:+ fmt4 loss]
       else ret tt) ;;;
      train_batches n_train X_test y_test rest st iteration
  end.

(** Lines 112-134: the loop over the epochs. *)
Fixpoint train_epochs (epochs : nat) (X_train y_train X_test y_test : ndarray F)
    (st : TrainState) (iteration : nat) : M W (TrainState * nat) :=
  match epochs with
  | O => ret (st, iteration)
  | S n =>
      batches <- with_rng (dataloader_iter X_train y_train 16) ;;
      r <- train_batches (hd 0%nat (shape X_train)) X_test y_test batches
             st iteration ;;
      train_epochs n X_train y_train X_test y_test (fst r) (snd r)
  end.

(** [np.expand_dims(y, -1)] *)
Definition expand_dims_last (y : ndarray F) : ndarray F :=
  mk_ndarray (shape y ++ [1%nat])%list (data y).

(** Lines 84-134 of [main]: what follows [sys.exit(0)]. *)
Definition main_training : M W unit :=
  let (X, y) := load_boston in
  print ["X.len:"; str_shape (shape X)] ;;;
  print ["y.len:"; str_shape (shape y)] ;;;
  let X := standard_scale X in
  let y := standard_scale (expand_dims_last y) in
  let '(X_train, X_test, y_train, y_test) := train_test_split X y in
  regressor <- with_rng (BayesianRegressor_new 13 1) ;;
  let optimizer := adam_init regressor (fdiv (fof_Z 1) (fof_Z 100)) in
  let st := mk_train regressor zero_grads optimizer 0 in
  train_epochs 100 X_train y_train X_test y_test st 0 ;;;
  ret tt.

(** [main] *)
Definition main : M W unit :=
  Console_info ["Geotech landability/measurability predictor from low-res acoustics. Uses Bayesian Neural Networks as predictive engine"] ;;;
  let dataset_filename := "data/koyo-20181121-model-21-output.xls" in
  Console_info ["Loading dataset: " +:+ dataset_filename] ;;;
  d <- load_dataset dataset_filename false "latent_" ;;
  (exit_ : M W unit) ;;;
  main_training.
End Geotech.
End Geotech.

(* ================================================================== *)
(** ** A concrete instance, for running the definitions *)
(* ================================================================== *)

(** [p] occurs in [s]: what [re.search] decides for a pattern made of
    literal characters. *)
Fixpoint str_contains (p s : string) : bool :=
  String.prefix p s ||
  match s with
  | EmptyString => false
  | String _ s' => str_contains p s'
  end.

Module Demo.

(** Exact rationals stand in for floats; the square root is exact on
    squares of rationals and rounds down otherwise. *)
Definition Qsqrt (q : Q) : Q :=
  Qred (Z.sqrt (Qnum q * Zpos (Qden q)) # Qden q).

#[export] Instance float_Q : Float Q := {
  fzero := 0%Q;
  fadd a b := Qred (a + b);
  fsub a b := Qred (a - b);
  fmul a b := Qred (a * b);
  fdiv a b := Qred (a / b);
  fsqrt := Qsqrt;
  fof_Z := inject_Z;
  fleb := Qle_bool;
  fis_zero q := Qeq_bool q 0;
  fstr q := pretty (Qnum q) +:+ "/" +:+ pretty (Zpos (Qden q));
}.

(** A generator that counts the draws, and a network whose output is
    the sum of its input plus the count, in every output position. *)
Definition toy_forward (r : Regressor Q) (x : ndarray Q) (g : nat)
  : ndarray Q * nat :=
  (mk_ndarray [1%nat; output_dim r]
     (map (fun j => Qred (fsum (data x) + inject_Z (Z.of_nat (g + j))))
          (seq 0 (output_dim r))),
   S g).

#[export] Instance libs : PredictLibs Q nat := {
  re_compile p := Some (str_contains p);
  get_torch_device gpu_index cpu_only cuda :=
    if cuda && negb cpu_only then "cuda:" +:+ pretty gpu_index else "cpu";
  init_state_dict _ _ _ g := (∅, S g);
  state_dict_fits _ _ _ _ := true;
  regressor_forward := toy_forward;
  percent_text i n := pretty (100 * i / n)%nat +:+ ".0";
  str_state_dict _ := "OrderedDict";
  str_df_head df := join_args (column_names df);
}.

(** Three survey locations with two latent features each. *)
Definition latents : DataFrame Q :=
  mk_df (Some "id") [CInt 10; CInt 11; CInt 12]
    [("northing", [CNum 5%Q; CNum 6%Q; CNum 7%Q]);
     ("latent_0", [CNum 1%Q; CNum 2%Q; CNum 3%Q]);
     ("latent_1", [CNum 0%Q; CNum 1%Q; CNum 0%Q])].

(** The same with a column that holds the word latent without starting
    with it, and one location only. *)
Definition latents_extra : DataFrame Q :=
  mk_df (Some "id") [CInt 10; CInt 11; CInt 12]
    [("northing", [CNum 5%Q; CNum 6%Q; CNum 7%Q]);
     ("n_latent_dims", [CInt 2; CInt 2; CInt 2]);
     ("latent_0", [CNum 1%Q; CNum 2%Q; CNum 3%Q]);
     ("latent_1", [CNum 0%Q; CNum 1%Q; CNum 0%Q])].

Definition latents_nan : DataFrame Q :=
  mk_df (Some "id") [CInt 10; CInt 11; CInt 12]
    [("northing", [CNum 5%Q; CNaN; CNum 7%Q]);
     ("latent_0", [CNum 1%Q; CNum 2%Q; CNum 3%Q]);
     ("latent_1", [CNum 0%Q; CNum 1%Q; CNum 0%Q])].

(** A checkpoint of a network with two outputs. *)
Definition checkpoint : gmap string (CkVal Q) :=
  <["epochs" := CkNum (PyInt 100)]>
  (<["batch_size" := CkNum (PyInt 16)]>
  (<["learning_rate" := CkNum (PyFloat (1 # 100)%Q)]>
  (<["lambda_fit_loss" := CkNum (PyFloat 10%Q)]>
  (<["elbo_kld" := CkNum (PyFloat 1%Q)]>
  (<["model_state_dict" :=
       CkStateDict
         (<["linear_output.weight" :=
              mk_ndarray [2%nat; 3%nat] [1%Q; 0%Q; 0%Q; 0%Q; 1%Q; 0%Q]]> ∅)]>
   ∅))))).

Definition clock : DateTime := mk_datetime 2023 3 7 9 5 42.

Definition world : World Q nat :=
  mk_world
    (<["latents.csv" := FCsv latents]>
     (<["extra.csv" := FCsv latents_extra]>
     (<["nan.csv" := FCsv latents_nan]>
     (<["net.pt" := FCheckpoint checkpoint]> ∅))))
    [] clock false 0%nat.


End Demo.

(* ================================================================== *)
(** ** Vocabulary of the statements *)
(* ================================================================== *)

(** The statistics the statements speak of, written out. *)
Section Statistics.
Context {F : Type} `{Float F}.

(** The mean of the values: their sum over their number. *)
Definition sample_mean (xs : list F) : F :=
  fdiv (foldl fadd fzero xs) (fof_Z (Z.of_nat (length xs))).

(** The squared deviations of the values from their mean. *)
Definition squared_deviations (xs : list F) : list F :=
  map (fun x => fmul (fsub x (sample_mean xs)) (fsub x (sample_mean xs))) xs.


(** The standard deviation with Bessel's correction: the divisor is
    one less than the number of values. *)
Definition sample_std_unbiased (xs : list F) : F :=
  fsqrt (fdiv (foldl fadd fzero (squared_deviations xs))
              (fof_Z (Z.of_nat (length xs) - 1))).

(** What the arrays of a list hold at position [j], in order. *)
Definition values_at (j : nat) (ys : list (ndarray F)) : list F :=
  map (fun y => nth j (data y) fzero) ys.

(** The fraction of true entries among booleans. *)
Definition fraction_true (bs : list bool) : F :=
  sample_mean (map (fun b : bool => if b then fof_Z 1 else fof_Z 0) bs).
End Statistics.

Section Vocabulary.
Context {F Rng : Type} `{Float F} `{PredictLibs F Rng}.

(** The outputs of [k] successive forward passes on one input, from the
    generator state [g], with the state they leave. *)
Fixpoint forward_passes (r : Regressor F) (x_ : ndarray F) (k : nat) (g : Rng)
  : list (ndarray F) * Rng :=
  match k with
  | O => ([], g)
  | S k' =>
      let (y, g1) := regressor_forward r x_ g in
      let (ys, g2) := forward_passes r x_ k' g1 in
      (y :: ys, g2)
  end.

(** For each row in turn, the outputs of [k] passes on it. *)
Fixpoint row_passes (r : Regressor F) (k : nat) (rows : list (list F))
    (g : Rng) : list (list (ndarray F)) :=
  match rows with
  | [] => []
  | x :: rows' =>
      let (ys, g') := forward_passes r (unsqueeze0 x) k g in
      ys :: row_passes r k rows' g'
  end.



(** Every column of the frame has one cell per row. *)
Definition wf_df (df : DataFrame F) : Prop :=
  Forall (fun c => length (snd c) = nrows df) (df_columns df).

(** A forward pass on one row yields one row of [output_dim] values. *)
Definition forward_shape_ok : Prop :=
  forall (r : Regressor F) x g,
    shape (fst (regressor_forward r x g)) = [1%nat; output_dim r].

(** [w1] differs from [w] in the console at most. *)
Definition console_only (w w1 : World F Rng) : Prop :=
  w_files w1 = w_files w /\ w_now w1 = w_now w
  /\ w_cuda w1 = w_cuda w /\ w_rng w1 = w_rng w.

(** The name the predictions are written under. *)
Definition resolved_output_csv (output_csv : string) (t : DateTime) : string :=
  if String.eqb output_csv ""
  then strftime_Ymd_HMS t +:+ "_bnn_predictions.csv"
  else output_csv.

(** The shape of what one row contributes: one row of outputs, or a
    scalar when no pass is drawn. *)
Definition row_shape (r : Regressor F) (K : nat) : list nat :=
  match K with
  | O => []
  | S _ => [1%nat; output_dim r]
  end.
End Vocabulary.

Section ScriptVocabulary.
Context {F Rng : Type} `{Float F} `{Geotech.ScriptLibs F Rng}.
Local Abbreviation BayesianRegressor :=
  (Geotech.BayesianRegressor Geotech.Params).

(** The logistic function, [1 / (1 + exp(-v))]. *)
Definition logistic (v : F) : F :=
  fdiv (fof_Z 1) (fadd (fof_Z 1) (Geotech.fexp (fsub fzero v))).

(** A Bayesian linear layer maps [n] rows of [in_features] values to
    [n] rows of [out_features] values. *)
Definition layer_shape_ok : Prop :=
  forall (l : Geotech.BayesianLinear Geotech.Params) x g n,
    shape x = [n; Geotech.in_features l] ->
    shape (fst (fst (Geotech.blinear_pass l x g)))
    = [n; Geotech.out_features l].

(** For every target, in order: whether it is at or above the lower
    bound [mean - m * std] and whether it is at or below the upper bound
    [mean + m * std] of the predictions made for it, the deviation being
    taken with Bessel's correction. *)
Definition coverage (preds : list (ndarray F)) (y : ndarray F) (m : F)
  : list (bool * bool) :=
  map (fun j =>
         let xs := values_at j preds in
         let target := nth j (data y) fzero in
         (fleb (fsub (sample_mean xs) (fmul m (sample_std_unbiased xs)))
               target,
          fleb target
               (fadd (sample_mean xs) (fmul m (sample_std_unbiased xs)))))
      (seq 0 (prod_shape (shape y))).

(** The output and the complexity cost of each of [n] successive passes
    through the network, with the generator state they leave. *)
Fixpoint kl_passes (self : BayesianRegressor)
    (x : ndarray F) (n : nat) (g : Rng) : list (ndarray F * F) * Rng :=
  match n with
  | O => ([], g)
  | S n' =>
      let (r, g1) := Geotech.forward_kl self x g in
      let (rs, g2) := kl_passes self x n' g1 in
      (r :: rs, g2)
  end.

(** The sampled ELBO loss of a batch: the average, over [n] stochastic
    forward passes, of the fit of the pass to the labels plus the
    complexity cost of the pass times [weight]. *)
Definition elbo_loss (self : BayesianRegressor) (x labels : ndarray F)
    (n : nat) (weight : F) (g : Rng) : F :=
  sample_mean
    (map (fun pass => fadd (Geotech.MSELoss (fst pass) labels)
                           (fmul (snd pass) weight))
         (fst (kl_passes self x n g))).

(** One step on a mini-batch, for a training set of [N] examples, from
    the state [st] and the generator state [g] to the state [st1]: the
    loss is the sampled ELBO over three passes, its complexity cost
    weighted by [1 / N]; the gradient of that loss is back-propagated
    onto cleared gradients; the optimizer is updated once. *)
Definition batch_trained (N : nat) (st : Geotech.TrainState)
    (x labels : ndarray F) (g : Rng) (st1 : Geotech.TrainState) : Prop :=
  N <> 0%nat
  /\ exists L : BayesianRegressor -> F,
       (forall r, L r = elbo_loss r x labels 3
                          (fdiv (fof_Z 1) (fof_Z (Z.of_nat N))) g)
       /\ Geotech.ts_grads st1
          = Geotech.add_grads Geotech.zero_grads
              (Geotech.gradient L (Geotech.ts_regressor st))
       /\ (Geotech.ts_regressor st1, Geotech.ts_opt st1)
          = Geotech.adam_update (Geotech.ts_opt st) (Geotech.ts_regressor st)
              (Geotech.ts_grads st1)
       /\ Geotech.ts_steps st1 = S (Geotech.ts_steps st).

(** A pass over the mini-batches in order, every one a step as above,
    from the state [st] at iteration count [it] and the generator state
    [g] to the state [st']. Between two steps the generator moves past
    the three passes of the step, and past an evaluation when the
    iteration count is a multiple of 100. *)
Fixpoint batches_trained (N : nat) (batches : list (ndarray F * ndarray F))
    (st : Geotech.TrainState) (it : nat) (g : Rng)
    (st' : Geotech.TrainState) : Prop :=
  match batches with
  | [] => st' = st
  | (x, labels) :: rest =>
      exists st1 g1,
        batch_trained N st x labels g st1
        /\ (S it mod 100 <> 0 ->
            g1 = snd (kl_passes (Geotech.ts_regressor st) x 3 g))%nat
        /\ batches_trained N rest st1 (S it) g1 st'
  end.
End ScriptVocabulary.

(** A concrete instance of what the script needs. *)
Module GeoDemo.
Import Demo.

(** A layer pass whose output holds the first input value plus the count
    of draws so far plus the position, and reports complexity cost one;
    a positive rational function stands in for the exponential. *)
Definition toy_pass (l : Geotech.BayesianLinear unit) (x : ndarray Q) (g : nat)
  : (ndarray Q * Q) * nat :=
  let n := hd 0%nat (shape x) in
  ((mk_ndarray [n; Geotech.out_features l]
      (map (fun j => Qred (nth 0 (data x) 0%Q + inject_Z (Z.of_nat (g + j))))
           (seq 0 (n * Geotech.out_features l))),
    1%Q),
   S g).

#[export] Instance script_libs : Geotech.ScriptLibs Q nat := {
  Geotech.re_compile p := Some (str_contains p);
  Geotech.Params := unit;
  Geotech.init_params _ _ g := (tt, S g);
  Geotech.blinear_pass := toy_pass;
  Geotech.fexp q := Qred (1 + q * q);
  Geotech.Grads := Q;
  Geotech.zero_grads := 0%Q;
  Geotech.add_grads a b := Qred (a + b);
  Geotech.gradient loss r := loss r;
  Geotech.OptState := nat;
  Geotech.adam_init _ _ := 0%nat;
  Geotech.adam_update o r _ := (r, S o);
  Geotech.MSELoss a b :=
    mean (zip_with (fun x y => fmul (fsub x y) (fsub x y)) (data a) (data b));
  Geotech.load_boston := (mk_ndarray [2; 1]%nat [1%Q; 2%Q],
                          mk_ndarray [2%nat] [3%Q; 4%Q]);
  Geotech.standard_scale a := a;
  Geotech.train_test_split X y := (X, X, y, y);
  Geotech.dataloader_iter X y _ g := ([(X, y)], S g);
  Geotech.str_shape s := join_args (map pretty s);
  Geotech.fmt2 := fstr;
  Geotech.fmt4 := fstr;
}.

Definition regressor : Geotech.BayesianRegressor unit :=
  fst (Geotech.BayesianRegressor_new 1 1 0%nat).

Definition X : ndarray Q := mk_ndarray [2; 1]%nat [1%Q; 2%Q].
Definition y : ndarray Q := mk_ndarray [2; 1]%nat [5%Q; 20%Q].

(** Two targets given as a flat vector, not as a column. *)
Definition y_flat : ndarray Q := mk_ndarray [2%nat] [4%Q; 15%Q].

Definition state : Geotech.TrainState :=
  Geotech.mk_train regressor 7%Q 0%nat 0%nat.

End GeoDemo.

(* ================================================================== *)
(** ** Further vocabulary *)
(* ================================================================== *)

Section FrameVocabulary.
Context {F Rng : Type}.

(** A step that touches the console at most, however it ends. *)
Definition quiet {A} (m : M (World F Rng) A) : Prop :=
  forall w o w', m w = (o, w') -> console_only w w'.

(** A step that leaves the files as they are, however it ends. *)
Definition keeps_files {A} (m : M (World F Rng) A) : Prop :=
  forall w o w', m w = (o, w') -> w_files w' = w_files w.
End FrameVocabulary.

(** The bar [Console.progress] draws with its default length and fill. *)
Definition progress_bar (iteration total : nat) : string :=
  str_repeat "*" (50 * iteration / total)
  +:+ str_repeat "-" (50 - 50 * iteration / total).

(** The line [Console.progress] writes with its default prefix and
    suffix. *)
Definition progress_line (percent : nat -> nat -> string)
    (iteration total : nat) : string :=
  (CR +:+ "Progress:" +:+ " |" +:+ progress_bar iteration total +:+ "| "
   +:+ percent iteration total +:+ "% " +:+ "Complete") +:+ CR.

(** A survey with a single location. *)
Module DemoOne.
Import Demo.

Definition latents1 : DataFrame Q :=
  mk_df (Some "id") [CInt 10]
    [("northing", [CNum 5%Q]);
     ("latent_0", [CNum 1%Q]);
     ("latent_1", [CNum 0%Q])].

Definition world1 : World Q nat :=
  mk_world
    (<["one.csv" := FCsv latents1]>
     (<["net.pt" := FCheckpoint checkpoint]> ∅))
    [] clock false 0%nat.

(** A checkpoint that lacks the learning rate. *)
Definition locals_no_rate : Locals Q :=
  mk_locals "out.csv" 2 "predicted" "latent_" (PyInt 2)
    [[1%Q; 0%Q]; [2%Q; 1%Q]] 2 latents (delete "learning_rate" checkpoint) 2
    (mk_regressor 2 2 "gaussian" ∅ false).

(** Local variables with an empty latent matrix. *)
Definition locals_empty : Locals Q :=
  mk_locals "out.csv" 2 "predicted" "latent_" (PyInt 2)
    [[]; []] 0 latents checkpoint 2
    (mk_regressor 0 2 "gaussian" ∅ false).

(** Local variables with a negative sample count. *)
Definition locals_negative : Locals Q :=
  mk_locals "out.csv" (-3) "predicted" "latent_" (PyInt 2)
    [[1%Q; 0%Q]; [2%Q; 1%Q]] 2 latents checkpoint 2
    (mk_regressor 2 2 "gaussian" ∅ false).
End DemoOne.

(* ================================================================== *)
(** ** Facts about the monad and the world *)
(* ================================================================== *)

Section MonadFacts.
Context {W A B : Type}.

Lemma bind_ret_inv (m : M W A) (k : A -> M W B) w b w' :
  bind m k w = (Ret b, w') ->
  exists a w1, m w = (Ret a, w1) /\ k a w1 = (Ret b, w').
Proof.
  unfold bind. destruct (m w) as [[a| |e] w1]; intros E; try discriminate.
  exists a, w1. split; [reflexivity | exact E].
Qed.

Lemma bind_ret_intro (m : M W A) (k : A -> M W B) w a w1 :
  m w = (Ret a, w1) -> bind m k w = k a w1.
Proof. unfold bind. intros ->. reflexivity. Qed.

Lemma bind_exit (m : M W A) (k : A -> M W B) w w1 :
  m w = (Exit, w1) -> bind m k w = (Exit, w1).
Proof. unfold bind. intros ->. reflexivity. Qed.

End MonadFacts.

Tactic Notation "bind_inv" hyp(E) :=
  let a := fresh "a" in
  let w := fresh "w" in
  let S := fresh "S" in
  apply bind_ret_inv in E as (a & w & S & E).

Tactic Notation "bind_inv" hyp(E) "as" ident(a) ident(w) ident(S) :=
  apply bind_ret_inv in E as (a & w & S & E).

Section WorldFacts.
Context {F Rng : Type} `{Float F}.
Local Abbreviation W := (World F Rng).

Lemma console_only_refl (w : W) : console_only w w.
Proof. repeat split. Qed.

Lemma console_only_trans (w w1 w2 : W) :
  console_only w w1 -> console_only w1 w2 -> console_only w w2.
Proof.
  intros (a & b & c & d) (a' & b' & c' & d').
  repeat split; congruence.
Qed.

Lemma print_end_spec args e (w : W) :
  print_end args e w
  = (Ret tt, set_console (get_console w ++ [join_args args +:+ e]) w).
Proof. reflexivity. Qed.

Lemma print_end_frame args e (w w1 : W) o :
  print_end args e w = (o, w1) -> o = Ret tt /\ console_only w w1.
Proof.
  rewrite print_end_spec. intros [= <- <-]. split; [reflexivity|].
  repeat split.
Qed.

Lemma print_frame args (w w1 : W) o :
  print args w = (o, w1) -> o = Ret tt /\ console_only w w1.
Proof. apply print_end_frame. Qed.

Lemma Console_info_frame args (w w1 : W) o :
  Console_info args w = (o, w1) -> o = Ret tt /\ console_only w w1.
Proof. apply print_frame. Qed.

Lemma Console_warn_frame args (w w1 : W) o :
  Console_warn args w = (o, w1) -> o = Ret tt /\ console_only w w1.
Proof. apply print_frame. Qed.

Lemma Console_error_frame args (w w1 : W) o :
  Console_error args w = (o, w1) -> o = Ret tt /\ console_only w w1.
Proof. apply print_frame. Qed.

(** [Console.error] returns to its caller. *)
Lemma Console_error_returns args (w : W) :
  fst (Console_error args w) = Ret tt.
Proof. reflexivity. Qed.

(** [Console.quit] ends the process. *)
Lemma Console_quit_exits {A} args (w : W) :
  fst (Console_quit (A := A) args w) = Exit.
Proof. reflexivity. Qed.

Lemma Console_quit_not_ret {A} args (w w1 : W) (a : A) :
  Console_quit args w <> (Ret a, w1).
Proof.
  intros E. pose proof (Console_quit_exits (A := A) args w) as Q.
  rewrite E in Q. discriminate.
Qed.

Lemma Console_progress_frame pct i n (w w1 : W) u :
  Console_progress pct i n w = (Ret u, w1) -> console_only w w1.
Proof.
  unfold Console_progress. destruct (n =? 0)%nat; [discriminate|].
  intros E. bind_inv E. apply print_end_frame in S as [_ S].
  destruct (n - 1 <=? i)%nat.
  - apply print_frame in E as [_ E]. eapply console_only_trans; eauto.
  - injection E as _ <-. exact S.
Qed.

Lemma isfile_inv path (w w1 : W) b :
  isfile path w = (Ret b, w1) ->
  w1 = w /\ b = bool_decide (is_Some (w_files w !! path)).
Proof. intros [= <- <-]. split; reflexivity. Qed.

Lemma or_raise_inv {A} (o : option A) e (w w1 : W) a :
  or_raise o e w = (Ret a, w1) -> o = Some a /\ w1 = w.
Proof.
  destruct o; simpl; [intros [= <- <-] | intros [=]]. split; reflexivity.
Qed.

Lemma lift_inv {A} (o : Outcome A) (w w1 : W) a :
  lift o w = (Ret a, w1) -> o = Ret a /\ w1 = w.
Proof. intros [= <- <-]. split; reflexivity. Qed.

Lemma with_rng_inv {A} (f : Rng -> A * Rng) (w w1 : W) a :
  with_rng f w = (Ret a, w1) ->
  a = fst (f (w_rng w)) /\ w_rng w1 = snd (f (w_rng w))
  /\ w_files w1 = w_files w /\ w_now w1 = w_now w /\ w_cuda w1 = w_cuda w
  /\ w_console w1 = w_console w.
Proof.
  unfold with_rng. destruct (f (w_rng w)) as [a' g]. intros [= <- <-].
  repeat split.
Qed.

Lemma read_csv_inv path (w w1 : W) df :
  read_csv path w = (Ret df, w1) ->
  w_files w !! path = Some (FCsv df) /\ w1 = w.
Proof.
  unfold read_csv. destruct (w_files w !! path) as [[d|c|]|];
    intros [= <- <-]. split; reflexivity.
Qed.

Lemma torch_load_inv path (w w1 : W) ck :
  torch_load path w = (Ret ck, w1) ->
  w_files w !! path = Some (FCheckpoint ck) /\ w1 = w.
Proof.
  unfold torch_load. destruct (w_files w !! path) as [[d|c|]|];
    intros [= <- <-]. split; reflexivity.
Qed.

(** What a successful [loadData] returns. *)
Lemma loadData_inv path prefix (w w1 : W) X n df :
  loadData path prefix w = (Ret (X, n, df), w1) ->
  exists df0,
    w_files w !! path = Some (FCsv df0) /\ df = dropna df0
    /\ n = length (List.filter (fun c => String.prefix prefix (fst c))
                               (df_columns df))
    /\ to_numpy_float (nrows df)
         (List.filter (fun c => String.prefix prefix (fst c)) (df_columns df))
       = Some X
    /\ w1 = w.
Proof.
  unfold loadData. intros E. bind_inv E.
  apply read_csv_inv in S as [S ->].
  bind_inv E. apply or_raise_inv in S0 as [S0 ->].
  injection E as <- <- <- <-. exists a. repeat split; assumption.
Qed.
End WorldFacts.

Section SetupFacts.
Context {F Rng : Type} `{Float F} `{PredictLibs F Rng}.
Local Abbreviation W := (World F Rng).

Lemma ck_get_inv (d : gmap string (CkVal F)) key (w w1 : W) v :
  ck_get d key w = (Ret v, w1) -> d !! key = Some v /\ w1 = w.
Proof. apply or_raise_inv. Qed.

Lemma sd_get_inv (d : CkVal F) key (w w1 : W) t :
  sd_get d key w = (Ret t, w1) ->
  exists sd, d = CkStateDict sd /\ sd !! key = Some t /\ w1 = w.
Proof.
  destruct d as [n|sd]; simpl; [intros [=]|].
  intros E. apply or_raise_inv in E as [E ->]. eauto.
Qed.

Lemma np_len_inv (a : ndarray F) (w w1 : W) n :
  np_len a w = (Ret n, w1) -> exists rest, shape a = n :: rest /\ w1 = w.
Proof.
  unfold np_len. destruct (shape a) as [|d rest]; [intros [=]|].
  intros [= <- <-]. eauto.
Qed.

Lemma BayesianRegressor_new_inv i o t (w w1 : W) r :
  BayesianRegressor_new i o t w = (Ret r, w1) ->
  input_dim r = i /\ output_dim r = o /\ output_type r = t
  /\ w_files w1 = w_files w /\ w_now w1 = w_now w.
Proof.
  unfold BayesianRegressor_new. intros E. bind_inv E.
  apply with_rng_inv in S as (_ & _ & Sf & Sn & _).
  injection E as <- <-. repeat split; assumption.
Qed.

Lemma load_state_dict_inv (r r' : Regressor F) sd (w w1 : W) :
  load_state_dict r sd w = (Ret r', w1) ->
  input_dim r' = input_dim r /\ output_dim r' = output_dim r
  /\ output_type r' = output_type r /\ state_dict r' = sd /\ w1 = w.
Proof.
  unfold load_state_dict.
  destruct (state_dict_fits _ _ _ _); [|intros [=]].
  intros [= <- <-]. repeat split.
Qed.

(** What a successful [load_network] has read and built. *)
Lemma load_network_inv net olt n dev (w w1 : W) ck osz reg :
  load_network net olt n dev w = (Ret (ck, osz, reg), w1) ->
  exists sd wt rest,
    w_files w !! net = Some (FCheckpoint ck)
    /\ ck !! "model_state_dict" = Some (CkStateDict sd)
    /\ sd !! "linear_output.weight" = Some wt
    /\ shape wt = osz :: rest
    /\ input_dim reg = n /\ output_dim reg = osz /\ output_type reg = olt
    /\ w_files w1 = w_files w /\ w_now w1 = w_now w.
Proof.
  unfold load_network. intros E. bind_inv E.
  injection S as <- <-.
  assert (exists (w0 : W),
    w_files w0 = w_files w /\ w_now w0 = w_now w /\
    (tn <- torch_load net ;;
     msd <- ck_get tn "model_state_dict" ;;
     weight <- sd_get msd "linear_output.weight" ;;
     output_size <- np_len weight ;;
     regressor <- BayesianRegressor_new n output_size olt ;;
     ret (tn, output_size, to_device regressor dev)) w0
    = (Ret (ck, osz, reg), w1)) as (w0 & Sf & Sn & E').
  { destruct (w_cuda w); bind_inv E.
    - apply Console_info_frame in S as (_ & Sf & Sn & _). eauto.
    - apply Console_warn_frame in S as (_ & Sf & Sn & _). eauto. }
  clear E. rename E' into E.
  bind_inv E. apply torch_load_inv in S as [S ->].
  bind_inv E. apply ck_get_inv in S0 as [S0 ->].
  bind_inv E. apply sd_get_inv in S1 as (sd & -> & S1 & ->).
  bind_inv E. apply np_len_inv in S2 as (rest & S2 & ->).
  bind_inv E. apply BayesianRegressor_new_inv in S3 as (I & O & T & Rf & Rn).
  injection E as <- <- <- <-. exists sd. do 2 eexists.
  unfold to_device. rewrite Sf in S.
  repeat split; eauto; congruence.
Qed.

(** What a successful run of lines 35-133 leaves in the local variables. *)
Lemma predict_setup_inv latent_csv latent_key target_key output_csv net olt
    num_samples scale_factor gpu cpu (w w' : W) (l : Locals F) :
  predict_setup latent_csv latent_key target_key output_csv net olt
    num_samples scale_factor gpu cpu w = (Ret l, w') ->
  l_output_csv l = resolved_output_csv output_csv (w_now w)
  /\ l_k_samples l = py_or int_truthy num_samples 20
  /\ l_output_key l = py_or str_truthy target_key "predicted"
  /\ l_input_key l = py_or str_truthy latent_key "latent_"
  /\ l_scaling_factor l = py_or num_truthy scale_factor (PyFloat (fof_Z 1))
  /\ (exists df0,
        w_files w !! latent_csv = Some (FCsv df0)
        /\ l_df l = dropna df0
        /\ l_n_latents l
           = length (List.filter (fun c => String.prefix "latent_" (fst c))
                                 (df_columns (dropna df0)))
        /\ to_numpy_float (nrows (dropna df0))
             (List.filter (fun c => String.prefix "latent_" (fst c))
                          (df_columns (dropna df0)))
           = Some (l_np_latent l))
  /\ (exists sd wt rest,
        w_files w !! net = Some (FCheckpoint (l_trained_network l))
        /\ l_trained_network l !! "model_state_dict" = Some (CkStateDict sd)
        /\ sd !! "linear_output.weight" = Some wt
        /\ shape wt = l_output_size l :: rest
        /\ state_dict (l_regressor l) = sd)
  /\ input_dim (l_regressor l) = l_n_latents l
  /\ output_dim (l_regressor l) = l_output_size l
  /\ output_type (l_regressor l) = olt
  /\ training (l_regressor l) = false
  /\ w_files w' = w_files w /\ w_now w' = w_now w.
Proof.
  intros E. unfold predict_setup in E.
  bind_inv E as u0 wa S. apply Console_info_frame in S as (_ & f0 & n0 & _).
  bind_inv E as u1 wb S. apply Console_info_frame in S as (_ & f1 & n1 & _).
  bind_inv E as found1 wc S. apply isfile_inv in S as [-> _].
  bind_inv E as u2 wd S.
  assert (w_files wd = w_files wb /\ w_now wd = w_now wb) as [f2 n2].
  { destruct found1.
    - apply Console_info_frame in S as (_ & ? & ? & _). auto.
    - apply Console_error_frame in S as (_ & ? & ? & _). auto. }
  clear S. bind_inv E as found2 we S. apply isfile_inv in S as [-> _].
  bind_inv E as u3 wf S.
  assert (w_files wf = w_files wd /\ w_now wf = w_now wd) as [f3 n3].
  { destruct found2.
    - apply Console_info_frame in S as (_ & ? & ? & _). auto.
    - apply Console_quit_not_ret in S. destruct S. }
  clear S. bind_inv E as out wg S.
  assert (out = resolved_output_csv output_csv (w_now wf) /\ wg = wf)
    as [-> ->].
  { unfold resolved_output_csv. destruct (String.eqb output_csv "").
    - bind_inv S as t wt T. injection T as <- <-. injection S as <- <-. auto.
    - injection S as <- <-. auto. }
  clear S. bind_inv E as found3 wh S. apply isfile_inv in S as [-> _].
  bind_inv E as u4 wi S.
  assert (w_files wi = w_files wf /\ w_now wi = w_now wf) as [f4 n4].
  { destruct found3.
    - apply Console_warn_frame in S as (_ & ? & ? & _). auto.
    - apply Console_info_frame in S as (_ & ? & ? & _). auto. }
  clear S. bind_inv E as u5 wj S.
  apply Console_info_frame in S as (_ & f5 & n5 & _).
  bind_inv E as loaded wk S. destruct loaded as [[np_latent n_latents] df].
  apply loadData_inv in S as (df0 & Lf & -> & -> & LX & ->).
  bind_inv E as u6 wl S. apply Console_info_frame in S as (_ & f6 & n6 & _).
  bind_inv E as cuda wm S. injection S as <- <-.
  bind_inv E as loadednet wn S.
  destruct loadednet as [[trained_network output_size] regressor].
  apply load_network_inv in S
    as (sd & wt & rest & Nf & Nm & Nw & Ns & Ni & No & Nt & f7 & n7).
  bind_inv E as msd wo S. apply ck_get_inv in S as [S ->].
  rewrite Nm in S. injection S as <-.
  bind_inv E as reg wp S.
  apply load_state_dict_inv in S as (Li & Lo & Lt & Ls & ->).
  injection E as <- <-.
  cbv [l_output_csv l_k_samples l_output_key l_input_key l_scaling_factor
       l_np_latent l_n_latents l_df l_trained_network l_output_size
       l_regressor].
  assert (w_now wf = w_now w) as na by congruence.
  rewrite na.
  split_and!;
    try first [ exact (eq_trans Li Ni) | exact (eq_trans Lo No)
              | exact (eq_trans Lt Nt) | reflexivity | congruence ].
  - exists df0. rewrite <- Lf.
    split_and!; [congruence | reflexivity | reflexivity | assumption].
  - exists sd, wt, rest. rewrite <- Nf.
    split_and!; try assumption; congruence.
Qed.
End SetupFacts.

Section InferFacts.
Context {F Rng : Type} `{Float F} `{PredictLibs F Rng}.
Local Abbreviation W := (World F Rng).

Lemma forward_passes_length (r : Regressor F) x_ k g :
  length (fst (forward_passes r x_ k g)) = k.
Proof.
  revert g. induction k as [|k IH]; intros g; simpl; [reflexivity|].
  destruct (regressor_forward r x_ g) as [y g1].
  specialize (IH g1). destruct (forward_passes r x_ k g1) as [ys g2].
  simpl in *. congruence.
Qed.

Lemma row_passes_length (r : Regressor F) k rows g :
  length (row_passes r k rows g) = length rows.
Proof.
  revert g. induction rows as [|x rows IH]; intros g; simpl; [reflexivity|].
  destruct (forward_passes r (unsqueeze0 x) k g) as [ys g1].
  simpl. rewrite IH. reflexivity.
Qed.


(** The inner loop always returns: it draws the [k] passes in order and
    touches the generator only. *)
Lemma draw_predictions_spec (r : Regressor F) x k (w : W) :
  draw_predictions r x k w
  = (Ret (fst (forward_passes r (unsqueeze0 x) k (w_rng w))),
     mk_world (w_files w) (w_console w) (w_now w) (w_cuda w)
       (snd (forward_passes r (unsqueeze0 x) k (w_rng w)))).
Proof.
  revert w. induction k as [|k IH]; intros w.
  - destruct w; reflexivity.
  - cbn [draw_predictions forward_passes].
    unfold forward at 1. unfold bind at 1. unfold with_rng.
    destruct (regressor_forward r (unsqueeze0 x) (w_rng w)) as [y g1].
    unfold bind at 1. rewrite IH. cbn [w_rng w_files w_console w_now w_cuda].
    destruct (forward_passes r (unsqueeze0 x) k g1) as [ys g2].
    reflexivity.
Qed.

(** The loop over the rows: what it appends to its accumulators. *)
Lemma predict_rows_spec (r : Regressor F) K c total rows :
  forall idx p u (w w' : W) p' u',
    predict_rows r K c total rows idx p u w = (Ret (p', u'), w') ->
    exists ms ss,
      Forall2 (fun ys m => np_mean0 ys = Some m)
              (row_passes r (Z.to_nat K) rows (w_rng w)) ms
      /\ Forall2 (fun ys s => np_std0 ys = Some s)
                 (row_passes r (Z.to_nat K) rows (w_rng w)) ss
      /\ p' = (p ++ map (fun m => np_scale m (num_to_float c)) ms)%list
      /\ u' = (u ++ map (fun s => np_scale s (num_to_float c)) ss)%list
      /\ w_files w' = w_files w /\ w_now w' = w_now w.
Proof.
  induction rows as [|x rows IH]; intros idx p u w w' p' u' E.
  - injection E as <- <- <-. exists [], [].
    rewrite !app_nil_r. split_and!; try reflexivity; constructor.
  - cbn [predict_rows] in E.
    bind_inv E as predictions wa S. rewrite draw_predictions_spec in S.
    injection S as <- <-.
    bind_inv E as m wb S. apply or_raise_inv in S as [Sm ->].
    bind_inv E as s wc S. apply or_raise_inv in S as [Ss ->].
    bind_inv E as u0 wd S.
    apply Console_progress_frame in S as (Pf & Pn & _ & Pr).
    apply IH in E as (ms & ss & Fm & Fs & -> & -> & Ef & En).
    cbn [w_rng w_files w_now] in *. rewrite Pr in Fm, Fs.
    cbn [row_passes].
    destruct (forward_passes r (unsqueeze0 x) (Z.to_nat K) (w_rng w))
      as [ys g1] eqn:P.
    cbn [fst snd] in *.
    exists (m :: ms), (s :: ss).
    split_and!.
    + constructor; assumption.
    + constructor; assumption.
    + rewrite <- app_assoc. reflexivity.
    + rewrite <- app_assoc. reflexivity.
    + congruence.
    + congruence.
Qed.

(** What a successful run of lines 144-186 returns. *)
Lemma predict_infer_inv (l : Locals F) (w w' : W) p u :
  predict_infer l w = (Ret (p, u), w') ->
  exists ms ss,
    Forall2 (fun ys m => np_mean0 ys = Some m)
      (row_passes (l_regressor l) (Z.to_nat (l_k_samples l)) (l_np_latent l)
         (w_rng w)) ms
    /\ Forall2 (fun ys s => np_std0 ys = Some s)
      (row_passes (l_regressor l) (Z.to_nat (l_k_samples l)) (l_np_latent l)
         (w_rng w)) ss
    /\ p = map (fun m => np_scale m (num_to_float (l_scaling_factor l))) ms
    /\ u = map (fun s => np_scale s (num_to_float (l_scaling_factor l))) ss
    /\ w_files w' = w_files w /\ w_now w' = w_now w.
Proof.
  intros E. unfold predict_infer in E.
  bind_inv E as u0 w0 S. apply print_frame in S as (_ & f0 & n0 & _ & r0).
  bind_inv E as v1 w1 S. apply ck_get_inv in S as [_ ->].
  bind_inv E as u1 w1 S. apply print_frame in S as (_ & f1 & n1 & _ & r1).
  bind_inv E as v2 w2 S. apply ck_get_inv in S as [_ ->].
  bind_inv E as u2 w2 S. apply print_frame in S as (_ & f2 & n2 & _ & r2).
  bind_inv E as v3 w3 S. apply ck_get_inv in S as [_ ->].
  bind_inv E as u3 w3 S. apply print_frame in S as (_ & f3 & n3 & _ & r3).
  bind_inv E as v4 w4 S. apply ck_get_inv in S as [_ ->].
  bind_inv E as u4 w4 S. apply print_frame in S as (_ & f4 & n4 & _ & r4).
  bind_inv E as v5 w5 S. apply ck_get_inv in S as [_ ->].
  bind_inv E as u5 w5 S. apply print_frame in S as (_ & f5 & n5 & _ & r5).
  bind_inv E as lo w6 S. apply or_raise_inv in S as [_ ->].
  bind_inv E as hi w6 S. apply or_raise_inv in S as [_ ->].
  bind_inv E as u6 w6 S. apply print_frame in S as (_ & f6 & n6 & _ & r6).
  bind_inv E as res w7 S. destruct res as [p0 u'].
  apply predict_rows_spec in S as (ms & ss & Fm & Fs & -> & -> & f7 & n7).
  bind_inv E as u7 w8 S. apply print_frame in S as (_ & f8 & n8 & _ & r8).
  injection E as <- <- <-.
  assert (w_rng w6 = w_rng w) as R by congruence.
  rewrite R in Fm, Fs.
  exists ms, ss. split_and!; try assumption; try reflexivity; congruence.
Qed.
End InferFacts.

Section DefaultsFacts.
Context {F Rng : Type} `{Float F} `{PredictLibs F Rng}.
Local Abbreviation W := (World F Rng).

Lemma bind_ext {A B} (m : M W A) (k k' : A -> M W B) (w : W) :
  (forall a w1, m w = (Ret a, w1) -> k a w1 = k' a w1) ->
  bind m k w = bind m k' w.
Proof.
  intros E. unfold bind. destruct (m w) as [[a| |e] w1]; auto.
Qed.

Lemma py_or_idem {A} (truthy : A -> bool) x d :
  py_or truthy (Some (py_or truthy x d)) d = py_or truthy x d.
Proof.
  destruct x as [a|]; simpl.
  - destruct (truthy a) eqn:T; [rewrite T; reflexivity|].
    destruct (truthy d); reflexivity.
  - destruct (truthy d); reflexivity.
Qed.

Lemma append_nonempty s t : t <> "" -> s +:+ t <> "".
Proof. destruct s; simpl; [auto | discriminate]. Qed.

Lemma resolved_output_csv_nonempty oc t :
  oc = "" -> String.eqb (resolved_output_csv oc t) "" = false.
Proof.
  intros ->. unfold resolved_output_csv. simpl String.eqb at 2.
  cbv iota. apply String.eqb_neq. apply append_nonempty. discriminate.
Qed.

Lemma resolved_output_csv_idem oc t t' :
  resolved_output_csv (resolved_output_csv oc t) t' = resolved_output_csv oc t.
Proof.
  destruct (String.eqb oc "") eqn:E.
  - apply String.eqb_eq in E.
    unfold resolved_output_csv at 1.
    rewrite resolved_output_csv_nonempty by assumption. reflexivity.
  - unfold resolved_output_csv. rewrite E, E. reflexivity.
Qed.

Lemma resolve_step oc (w : W) :
  (if String.eqb oc ""
   then t <- now ;; ret (strftime_Ymd_HMS t +:+ "_bnn_predictions.csv")
   else ret oc) w
  = (Ret (resolved_output_csv oc (w_now w)), w).
Proof. unfold resolved_output_csv. destruct (String.eqb oc ""); reflexivity. Qed.

(** Handing the resolved values over in place of the raw arguments
    changes neither the outcome nor the console. *)
Lemma predict_setup_resolved latent_csv latent_key target_key output_csv net
    olt num_samples scale_factor gpu cpu (w : W) :
  predict_setup latent_csv latent_key target_key output_csv net olt
    num_samples scale_factor gpu cpu w
  = predict_setup latent_csv
      (Some (py_or str_truthy latent_key "latent_"))
      (Some (py_or str_truthy target_key "predicted"))
      (resolved_output_csv output_csv (w_now w)) net olt
      (Some (py_or int_truthy num_samples 20))
      (Some (py_or num_truthy scale_factor (PyFloat (fof_Z 1))))
      gpu cpu w.
Proof.
  unfold predict_setup. rewrite !py_or_idem.
  apply bind_ext. intros u0 wa S.
  apply Console_info_frame in S as (_ & _ & n0 & _).
  apply bind_ext. intros u1 wb S.
  apply Console_info_frame in S as (_ & _ & n1 & _).
  apply bind_ext. intros found1 wc S. apply isfile_inv in S as [-> _].
  apply bind_ext. intros u2 wd S.
  assert (w_now wd = w_now wb) as n2.
  { destruct found1.
    - apply Console_info_frame in S as (_ & _ & ? & _). auto.
    - apply Console_error_frame in S as (_ & _ & ? & _). auto. }
  clear S. apply bind_ext. intros found2 we S. apply isfile_inv in S as [-> _].
  apply bind_ext. intros u3 wf S.
  assert (w_now wf = w_now wd) as n3.
  { destruct found2.
    - apply Console_info_frame in S as (_ & _ & ? & _). auto.
    - apply Console_quit_not_ret in S. destruct S. }
  clear S.
  etransitivity; [apply bind_ret_intro; apply resolve_step|].
  symmetry.
  etransitivity; [apply bind_ret_intro; apply resolve_step|].
  rewrite resolved_output_csv_idem.
  replace (w_now wf) with (w_now w) by congruence.
  reflexivity.
Qed.

(** C9. Every falsy configuration value is replaced by its built-in
    default before use, and silently: no sample count (or 0) gives 20
    samples, no scale factor (or 0, or 0.0) gives the factor 1.0, no or
    an empty target key gives [predicted], no or an empty latent key
    gives [latent_], an empty output name gives the timestamp followed by
    [_bnn_predictions.csv]; and a run that is handed the defaults
    themselves ends in the same state with the same console. *)
Theorem predict_impl_falsy_defaults latent_csv latent_key target_key
    output_csv net olt num_samples scale_factor gpu cpu (w w' : W)
    (l : Locals F) :
  predict_setup latent_csv latent_key target_key output_csv net olt
    num_samples scale_factor gpu cpu w = (Ret l, w') ->
  (num_samples = None \/ num_samples = Some 0 -> l_k_samples l = 20)
  /\ (scale_factor = None \/ scale_factor = Some (PyInt 0)
      \/ (exists x, scale_factor = Some (PyFloat x) /\ fis_zero x = true) ->
      l_scaling_factor l = PyFloat (fof_Z 1))
  /\ (target_key = None \/ target_key = Some "" ->
      l_output_key l = "predicted")
  /\ (latent_key = None \/ latent_key = Some "" -> l_input_key l = "latent_")
  /\ (output_csv = "" ->
      l_output_csv l
      = strftime_Ymd_HMS (w_now w) +:+ "_bnn_predictions.csv"
      /\ str_ends_with "_bnn_predictions.csv" (l_output_csv l))
  /\ predict_setup latent_csv (Some (l_input_key l)) (Some (l_output_key l))
       (l_output_csv l) net olt (Some (l_k_samples l))
       (Some (l_scaling_factor l)) gpu cpu w = (Ret l, w').
Proof.
  intros E.
  pose proof (predict_setup_inv _ _ _ _ _ _ _ _ _ _ _ _ _ E)
    as (Ec & Ek & Eo & Ei & Es & _).
  split_and!.
  - rewrite Ek. intros [-> | ->]; reflexivity.
  - rewrite Es. intros [-> | [-> | (x & -> & Z)]]; simpl;
      [reflexivity | reflexivity | rewrite Z; reflexivity].
  - rewrite Eo. intros [-> | ->]; reflexivity.
  - rewrite Ei. intros [-> | ->]; reflexivity.
  - intros ->. rewrite Ec. unfold resolved_output_csv. simpl.
    split; [reflexivity|]. eexists. reflexivity.
  - rewrite Ec, Ek, Eo, Ei, Es. rewrite <- predict_setup_resolved. exact E.
Qed.

Lemma filter_names_map {A B} (p : string -> bool) (g g' : string * A -> B)
    (cols : list (string * A)) :
  length (List.filter (fun c : string * B => p (fst c))
            (map (fun c => (fst c, g c)) cols))
  = length (List.filter p (map fst cols)).
Proof.
  induction cols as [|c cols IH]; simpl; [reflexivity|].
  destruct (p (fst c)); simpl; rewrite IH; reflexivity.
Qed.

Lemma to_numpy_float_rows n (cols : list (string * list (Cell F))) X :
  to_numpy_float n cols = Some X ->
  length X = n /\ Forall (fun row => length row = length cols) X.
Proof.
  unfold to_numpy_float. intros E. split.
  - apply length_mapM in E. rewrite length_seq in E. auto.
  - apply mapM_Some in E. induction E as [|i row ixs rows Hi _ IH];
      constructor; [|exact IH].
    apply length_mapM in Hi. auto.
Qed.

(** C7. The regressor rebuilt for inference meets both invariants of
    the data model: its declared input dimension is the number of latent
    columns of the input CSV, which is also the length of every latent
    vector it is fed, and its declared output dimension is the length of
    the [linear_output.weight] entry of the loaded checkpoint, whose
    weights it carries. *)
Theorem predict_impl_regressor_dimensions latent_csv latent_key target_key
    output_csv net olt num_samples scale_factor gpu cpu (w w' : W)
    (l : Locals F) :
  predict_setup latent_csv latent_key target_key output_csv net olt
    num_samples scale_factor gpu cpu w = (Ret l, w') ->
  exists df0 ck sd wt rest,
    w_files w !! latent_csv = Some (FCsv df0)
    /\ w_files w !! net = Some (FCheckpoint ck)
    /\ ck !! "model_state_dict" = Some (CkStateDict sd)
    /\ sd !! "linear_output.weight" = Some wt
    /\ input_dim (l_regressor l)
       = length (List.filter (String.prefix "latent_") (column_names df0))
    /\ Forall (fun x => length x = input_dim (l_regressor l)) (l_np_latent l)
    /\ shape wt = output_dim (l_regressor l) :: rest
    /\ l_output_size l = output_dim (l_regressor l)
    /\ state_dict (l_regressor l) = sd.
Proof.
  intros E.
  pose proof (predict_setup_inv _ _ _ _ _ _ _ _ _ _ _ _ _ E)
    as (_ & _ & _ & _ & _ & (df0 & Lf & Ld & Ln & LX)
        & (sd & wt & rest & Nf & Nm & Nw & Ns & Nd) & Di & Do & _).
  exists df0, (l_trained_network l), sd, wt, rest.
  apply to_numpy_float_rows in LX as [_ LX].
  split_and!; try assumption.
  - rewrite Di, Ln. unfold dropna, column_names. cbn [df_columns].
    apply (filter_names_map (String.prefix "latent_")). exact (fun c => snd c).
  - rewrite Di, Ln. exact LX.
  - rewrite Do. exact Ns.
  - symmetry. exact Do.
Qed.









End DefaultsFacts.

Section ExportFacts.
Context {F Rng : Type} `{Float F} `{PredictLibs F Rng}.
Local Abbreviation W := (World F Rng).

Lemma str_in_In s l : str_in s l = true <-> In s l.
Proof.
  unfold str_in. rewrite existsb_exists. split.
  - intros (x & I & E). apply String.eqb_eq in E. congruence.
  - intros I. exists s. split; [exact I | apply String.eqb_refl].
Qed.

(** Dropping the labels a search finds keeps exactly the columns the
    search does not find. *)
Lemma drop_filter_regex_columns search (d : DataFrame F) :
  df_columns (drop_columns (filter_regex search d) d)
  = List.filter (fun c => negb (search (fst c))) (df_columns d).
Proof.
  unfold drop_columns, filter_regex, column_names. cbn [df_columns].
  apply List.filter_ext_in. intros c I. f_equal.
  destruct (search (fst c)) eqn:S.
  - apply str_in_In. apply List.filter_In. split; [|exact S].
    apply List.in_map. exact I.
  - destruct (str_in _ _) eqn:Q; [|reflexivity].
    apply str_in_In in Q. apply List.filter_In in Q as [_ Q]. congruence.
Qed.

Lemma range_index_length n : length (range_index (F := F) n) = n.
Proof. unfold range_index. rewrite length_map, length_seq. reflexivity. Qed.

Lemma result_columns_length prefix key n :
  length (result_columns prefix key n) = n.
Proof. unfold result_columns. rewrite length_map, length_seq. reflexivity. Qed.

Lemma DataFrame_of_array_rows (a : ndarray F) names f :
  DataFrame_of_array a names = Ret f ->
  (shape a = [nrows f] /\ length names = 1%nat)
  \/ (exists m, shape a = [nrows f; m] /\ length names = m).
Proof.
  unfold DataFrame_of_array.
  destruct (shape a) as [|n [|m [|]]]; try discriminate.
  - destruct (length names =? 1)%nat eqn:L; [|discriminate].
    intros [= <-]. left. unfold nrows. cbn [df_index].
    rewrite range_index_length. apply Nat.eqb_eq in L. auto.
  - destruct (length names =? m)%nat eqn:L; [|discriminate].
    intros [= <-]. right. exists m. unfold nrows. cbn [df_index].
    rewrite range_index_length. apply Nat.eqb_eq in L. auto.
Qed.

Lemma np_squeeze_shape (l : list (ndarray F)) a :
  np_squeeze l = Some a ->
  shape a = List.filter (fun d => negb (d =? 1)%nat)
              (match l with
               | [] => [0%nat]
               | x :: _ => length l :: shape x
               end).
Proof.
  unfold np_squeeze, np_array. destruct (same_shapes l); [|discriminate].
  intros [= <-]. reflexivity.
Qed.

Lemma reduce0_shape f (l : list (ndarray F)) m :
  reduce0 f l = Some m -> shape m = elem_shape l.
Proof.
  unfold reduce0. destruct (same_shapes l); [|discriminate].
  intros [= <-]. reflexivity.
Qed.

Lemma forward_passes_shapes (r : Regressor F) x_ k g :
  forward_shape_ok ->
  Forall (fun y => shape y = [1%nat; output_dim r])
         (fst (forward_passes r x_ k g)).
Proof.
  intros OK. revert g. induction k as [|k IH]; intros g; simpl;
    [constructor|].
  pose proof (OK r x_ g) as S.
  destruct (regressor_forward r x_ g) as [y g1].
  specialize (IH g1). destruct (forward_passes r x_ k g1) as [ys g2].
  simpl in *. constructor; assumption.
Qed.

Lemma row_passes_shapes (r : Regressor F) K rows g :
  forward_shape_ok ->
  Forall (fun ys => elem_shape ys = row_shape r K) (row_passes r K rows g).
Proof.
  intros OK. revert g. induction rows as [|x rows IH]; intros g; simpl;
    [constructor|].
  pose proof (forward_passes_shapes r (unsqueeze0 x) K g OK) as S.
  pose proof (forward_passes_length r (unsqueeze0 x) K g) as L.
  destruct (forward_passes r (unsqueeze0 x) K g) as [ys g1].
  simpl in *. constructor; [|apply IH].
  destruct ys as [|y ys]; destruct K; simpl in *; try discriminate;
    [reflexivity|].
  inversion S; assumption.
Qed.

(** A frame built from the squeezed results has one row per result. *)
Lemma result_frame_rows (r : Regressor F) K (l : list (ndarray F)) a
    prefix key f :
  Forall (fun x => shape x = row_shape r K) l ->
  np_squeeze l = Some a ->
  DataFrame_of_array a (result_columns prefix key (output_dim r)) = Ret f ->
  nrows f = length l.
Proof.
  intros S Q D. apply np_squeeze_shape in Q.
  apply DataFrame_of_array_rows in D.
  rewrite result_columns_length in D.
  destruct l as [|x l]; simpl in Q.
  - destruct D as [[D _] | (m & D & _)]; rewrite Q in D;
      [injection D as D; simpl; congruence | discriminate].
  - inversion S as [|? ? Sx _]; subst. rewrite Sx in Q.
    destruct l as [|x' l]; cbn [length] in *.
    + exfalso. destruct K; cbn [row_shape] in Q; simpl in Q.
      * destruct D as [[D _] | (m & D & _)]; rewrite Q in D; discriminate.
      * destruct (output_dim r =? 1)%nat eqn:O; simpl in Q.
        -- destruct D as [[D _] | (m & D & _)]; rewrite Q in D; discriminate.
        -- apply Nat.eqb_neq in O.
           destruct D as [[D L] | (m & D & _)]; rewrite Q in D;
             [contradiction | discriminate].
    + cbn [List.filter] in Q. simpl negb in Q. cbn iota in Q.
      destruct D as [[D _] | (m & D & _)]; rewrite Q in D;
        injection D; intros; congruence.
Qed.

Lemma pad_column_id n (c : string * list (Cell F)) :
  length (snd c) = n -> pad_column n c = c.
Proof.
  intros L. unfold pad_column. rewrite L, Nat.sub_diag. simpl.
  rewrite app_nil_r. destruct c; reflexivity.
Qed.

Lemma dropna_wf (df : DataFrame F) : wf_df (dropna df).
Proof.
  unfold wf_df, dropna, nrows. cbn [df_columns df_index].
  apply List.Forall_forall. intros c I. apply in_map_iff in I as (c0 & <- & _).
  cbn [snd]. rewrite !length_map. reflexivity.
Qed.

Lemma concat_after_reset (a b : DataFrame F) :
  concat_columns (reset_index_drop a) (reset_index_drop b)
  = mk_df None (range_index (Nat.max (nrows a) (nrows b)))
      (map (pad_column (Nat.max (nrows a) (nrows b))) (df_columns a)
       ++ map (pad_column (Nat.max (nrows a) (nrows b))) (df_columns b)).
Proof.
  unfold concat_columns, reset_index_drop, nrows. cbn [df_index df_columns].
  rewrite !range_index_length. reflexivity.
Qed.

Lemma nrows_mk_df n i (cols : list (string * list (Cell F))) :
  nrows (mk_df n i cols) = length i.
Proof. reflexivity. Qed.

(** What the exported frame is made of: the index turned into a column,
    the columns of the loaded frame, then the result columns, less those
    the latent key is found in. *)
Lemma output_frame_columns (r : Regressor F) K df p u key ikey out :
  wf_df df ->
  Forall (fun x => shape x = row_shape r K) p ->
  Forall (fun x => shape x = row_shape r K) u ->
  length p = nrows df -> length u = nrows df ->
  output_frame df p u (output_dim r) key ikey = Ret out ->
  exists search name results,
    re_compile ikey = Some search
    /\ df_columns out
       = List.filter (fun c => negb (search (fst c)))
           ((name, df_index df) :: df_columns df ++ results).
Proof.
  intros WF Sp Su Lp Lu E. unfold output_frame in E.
  destruct (np_squeeze p) as [pa|] eqn:Qp; [|discriminate].
  destruct (DataFrame_of_array pa _) as [pdf| |] eqn:Dp; try discriminate.
  destruct (np_squeeze u) as [ua|] eqn:Qu; [|discriminate].
  destruct (DataFrame_of_array ua _) as [udf| |] eqn:Du; try discriminate.
  destruct (reset_index_keep df) as [odf| |] eqn:R; try discriminate.
  destruct (re_compile ikey) as [search|] eqn:C; [|discriminate].
  injection E as <-.
  pose proof (result_frame_rows _ _ _ _ _ _ _ Sp Qp Dp) as Np.
  pose proof (result_frame_rows _ _ _ _ _ _ _ Su Qu Du) as Nu.
  unfold reset_index_keep in R.
  destruct (str_in _ (column_names df)); [discriminate|].
  injection R as <-.
  rewrite drop_filter_regex_columns.
  eexists search, _, _. split; [reflexivity|]. f_equal.
  rewrite !concat_after_reset. cbn [df_columns].
  rewrite !nrows_mk_df, !range_index_length.
  rewrite Np, Nu, Lp, Lu. rewrite !Nat.max_id.
  rewrite map_cons. rewrite pad_column_id by reflexivity.
  rewrite <- app_comm_cons. f_equal. f_equal.
  rewrite <- (map_id (df_columns df)) at 2.
  apply map_ext_in. intros c I. apply pad_column_id.
  unfold wf_df in WF. rewrite List.Forall_forall in WF. apply WF. exact I.
Qed.

Lemma predict_export_inv (l : Locals F) p u (w w' : W) z :
  predict_export l p u w = (Ret z, w') ->
  exists out,
    output_frame (l_df l) p u (l_output_size l) (l_output_key l)
      (l_input_key l) = Ret out
    /\ w_files w'
       = <[l_output_csv l :=
             FCsv (mk_df (Some "index") (df_index out) (df_columns out))]>
           (w_files w).
Proof.
  intros E. unfold predict_export in E.
  bind_inv E as out wa S. apply lift_inv in S as [S ->].
  bind_inv E as u0 wb P. apply print_frame in P as (_ & f0 & _).
  bind_inv E as u1 wc P. apply Console_info_frame in P as (_ & f1 & _).
  bind_inv E as u2 wd P. injection P as _ <-.
  bind_inv E as u3 we P. apply Console_info_frame in P as (_ & f2 & _).
  injection E as _ <-. exists out. split; [exact S|].
  rewrite f2. cbn [w_files]. congruence.
Qed.
End ExportFacts.

Section FrameEffect.
Context {F Rng : Type} `{Float F} `{PredictLibs F Rng}.
Local Abbreviation W := (World F Rng).

Lemma scaled_results_shapes (r : Regressor F) K rows g f c
    (ms : list (ndarray F)) :
  forward_shape_ok ->
  Forall2 (fun ys m => reduce0 f ys = Some m) (row_passes r K rows g) ms ->
  Forall (fun x => shape x = row_shape r K)
         (map (fun m => np_scale m c) ms)
  /\ length (map (fun m => np_scale m c) ms) = length rows.
Proof.
  intros OK F2. split.
  - pose proof (row_passes_shapes r K rows g OK) as S.
    induction F2 as [|ys m yss ms' E _ IH]; simpl; constructor.
    + inversion S; subst. apply reduce0_shape in E. cbn [np_scale shape].
      congruence.
    + apply IH. inversion S; assumption.
  - rewrite length_map. apply Forall2_length in F2. rewrite <- F2.
    apply row_passes_length.
Qed.

(** C10, amended. The frame written by [predict_impl] holds no column
    whose name the latent key, read as a regular expression, is found
    in, wherever in the name: every such column of the loaded frame is
    dropped, and every other column of the loaded frame is carried over
    with its cells unchanged. *)
Theorem predict_impl_drops_latent_columns latent_csv latent_key target_key
    output_csv net olt num_samples scale_factor gpu cpu (w w' : W) z :
  forward_shape_ok ->
  predict_impl latent_csv latent_key target_key output_csv net olt
    num_samples scale_factor gpu cpu w = (Ret z, w') ->
  exists df0 search out,
    w_files w !! latent_csv = Some (FCsv df0)
    /\ re_compile (py_or str_truthy latent_key "latent_") = Some search
    /\ w_files w' !! resolved_output_csv output_csv (w_now w)
       = Some (FCsv out)
    /\ (forall c, In c (df_columns out) -> search (fst c) = false)
    /\ (forall c, In c (df_columns (dropna df0)) ->
                  search (fst c) = true -> ~ In (fst c) (column_names out))
    /\ (forall c, In c (df_columns (dropna df0)) ->
                  search (fst c) = false -> In c (df_columns out)).
Proof.
  intros OK E. unfold predict_impl in E.
  bind_inv E as l wa S. bind_inv E as r wb I.
  destruct r as [p u]. cbn [fst snd] in E.
  pose proof (predict_setup_inv _ _ _ _ _ _ _ _ _ _ _ _ _ S)
    as (Ec & _ & _ & Ei & _ & (df0 & Lf & Ld & _ & LX) & _ & _ & Do & _).
  apply to_numpy_float_rows in LX as [LX _].
  apply predict_infer_inv in I as (ms & ss & Fm & Fs & -> & -> & _).
  destruct (scaled_results_shapes _ _ _ _ _
              (num_to_float (l_scaling_factor l)) _ OK Fm) as [Sp Lp].
  destruct (scaled_results_shapes _ _ _ _ _
              (num_to_float (l_scaling_factor l)) _ OK Fs) as [Su Lu].
  apply predict_export_inv in E as (out & O & Wf).
  rewrite <- Do in O. rewrite Ld in O.
  apply (output_frame_columns _ (Z.to_nat (l_k_samples l))) in O
    as (search & name & results & C & Cols);
    [| apply dropna_wf | assumption | assumption | congruence | congruence].
  exists df0, search,
    (mk_df (Some "index") (df_index out) (df_columns out)).
  rewrite <- Ei, <- Ec. rewrite Wf, lookup_insert_eq. cbn [df_columns].
  split_and!; try assumption; try reflexivity.
  - intros c Ic. rewrite Cols in Ic. apply List.filter_In in Ic as [_ Ic].
    destruct (search (fst c)); [discriminate | reflexivity].
  - intros c _ T Ic. unfold column_names in Ic. cbn [df_columns] in Ic.
    apply in_map_iff in Ic as (c' & En & Ic).
    rewrite Cols in Ic. apply List.filter_In in Ic as [_ Ic].
    rewrite En, T in Ic. discriminate.
  - intros c Ic Fc. rewrite Cols. apply List.filter_In. split.
    + right. apply in_or_app. left. exact Ic.
    + rewrite Fc. reflexivity.
Qed.
End FrameEffect.

(* ================================================================== *)
(** ** Facts about the script *)
(* ================================================================== *)

Lemma broadcast_rev_same s : broadcast_rev s s = Some s.
Proof.
  induction s as [|a s IH]; simpl; [reflexivity|].
  rewrite IH, Nat.eqb_refl. reflexivity.
Qed.

Lemma broadcast_shapes_same s : broadcast_shapes s s = Some s.
Proof.
  unfold broadcast_shapes. rewrite broadcast_rev_same, rev_involutive.
  reflexivity.
Qed.

Lemma prod_shape_app s t : prod_shape (s ++ t) = (prod_shape s * prod_shape t)%nat.
Proof.
  induction s as [|a s IH]; simpl; [lia|].
  unfold prod_shape in *. simpl. rewrite IH. lia.
Qed.

Lemma prod_shape_rev s : prod_shape (rev s) = prod_shape s.
Proof.
  induction s as [|a s IH]; simpl; [reflexivity|].
  rewrite prod_shape_app, IH. unfold prod_shape. simpl. lia.
Qed.

(** Without broadcasting every element is compared with the element at
    the same place. *)
Lemma broadcast_index_same r i :
  (i < prod_shape r)%nat -> broadcast_index r r i = i.
Proof.
  revert i. induction r as [|d r IH]; intros i L.
  - unfold prod_shape in L. simpl in L. simpl. lia.
  - cbn [broadcast_index]. change (prod_shape (d :: r)) with (d * prod_shape r)%nat in L.
    assert (d <> 0)%nat as Dz by (intros ->; lia).
    rewrite IH.
    + destruct (d =? 1)%nat eqn:D.
      * apply Nat.eqb_eq in D. subst d. rewrite Nat.div_1_r. lia.
      * pose proof (Nat.div_mod_eq i d). lia.
    + apply Nat.Div0.div_lt_upper_bound. lia.
Qed.

Section ScriptFacts.
Context {F Rng : Type} `{Float F} `{Geotech.ScriptLibs F Rng}.
Local Abbreviation W := (World F Rng).
Local Abbreviation BayesianRegressor :=
  (Geotech.BayesianRegressor Geotech.Params).

Lemma zip_with_map_seq {A B C} (f : A -> B -> C) (g : nat -> A)
    (h : nat -> B) l :
  zip_with f (map g l) (map h l) = map (fun x => f (g x) (h x)) l.
Proof. induction l as [|x l IH]; simpl; [reflexivity | rewrite IH; reflexivity]. Qed.

Lemma nth_map_seq {A} (k : nat -> A) n i d :
  (i < n)%nat -> nth i (map k (seq 0 n)) d = k i.
Proof.
  intros L. rewrite (nth_indep _ d (k 0%nat)) by (rewrite length_map, length_seq; lia).
  rewrite (List.map_nth k (seq 0 n) 0%nat i). rewrite seq_nth by lia. reflexivity.
Qed.

(** Comparison of tensors of one shape is element by element. *)
Lemma tensor_le_same_shape (a b : ndarray F) :
  shape a = shape b ->
  tensor_le a b
  = Ret (shape b,
         map (fun i => fleb (nth i (data a) fzero) (nth i (data b) fzero))
             (seq 0 (prod_shape (shape b)))).
Proof.
  intros E. unfold tensor_le. rewrite E, broadcast_shapes_same.
  f_equal. f_equal. apply map_ext_in. intros i I.
  apply in_seq in I. rewrite broadcast_index_same; [reflexivity|].
  rewrite prod_shape_rev. lia.
Qed.

Lemma sample_preds_length (r : BayesianRegressor) X n g :
  length (fst (Geotech.sample_preds r X n g)) = n.
Proof.
  revert g. induction n as [|n IH]; intros g; simpl; [reflexivity|].
  destruct (Geotech.forward r X g) as [p g1]. specialize (IH g1).
  destruct (Geotech.sample_preds r X n g1) as [ps g2]. simpl in *. congruence.
Qed.

(** C2. The forward pass of [BayesianRegressor] is the composition of
    its two Bayesian layers with the logistic function applied to every
    value in between, the second layer sampling after the first; in a
    regressor as the constructor builds it the first layer maps the input
    dimension to the hidden width 128 and the second the hidden width to
    the output dimension, so that [n] rows of [input_dim] values become
    [n] rows of 128 values and then [n] rows of [output_dim] values. *)
Theorem BayesianRegressor_forward_composition :
  (forall (self : BayesianRegressor) x g,
      let p1 := Geotech.blinear_pass (Geotech.blinear1 self) x g in
      let h := fst (fst p1) in
      let a := mk_ndarray (shape h) (map logistic (data h)) in
      let p2 := Geotech.blinear_pass (Geotech.blinear2 self) a (snd p1) in
      Geotech.forward self x g = (fst (fst p2), snd p2))
  /\ (layer_shape_ok ->
      forall input_dim output_dim g0 (x : ndarray F) g n,
        shape x = [n; input_dim] ->
        let self := fst (Geotech.BayesianRegressor_new input_dim output_dim g0) in
        let h := fst (fst (Geotech.blinear_pass (Geotech.blinear1 self) x g)) in
        Geotech.in_features (Geotech.blinear1 self) = input_dim
        /\ Geotech.out_features (Geotech.blinear1 self) = 128%nat
        /\ Geotech.in_features (Geotech.blinear2 self) = 128%nat
        /\ Geotech.out_features (Geotech.blinear2 self) = output_dim
        /\ shape h = [n; 128%nat]
        /\ shape (fst (Geotech.forward self x g)) = [n; output_dim]).
Proof.
  split.
  - intros self x g. cbv zeta.
    unfold Geotech.forward, Geotech.blinear_forward.
    destruct (Geotech.blinear_pass (Geotech.blinear1 self) x g)
      as [[h k1] g1]. cbn [fst snd].
    change (Geotech.sigmoid h)
      with (mk_ndarray (shape h) (map logistic (data h))).
    destruct (Geotech.blinear_pass (Geotech.blinear2 self) _ g1)
      as [[o k2] g2]. reflexivity.
  - intros OK input_dim output_dim g0 x g n S. cbv zeta.
    unfold Geotech.BayesianRegressor_new, Geotech.BayesianLinear_new.
    destruct (Geotech.init_params input_dim 128 g0) as [p1 g1].
    destruct (Geotech.init_params 128 output_dim g1) as [p2 g2].
    cbn [fst Geotech.blinear1 Geotech.blinear2 Geotech.in_features
         Geotech.out_features].
    split_and!; try reflexivity.
    + apply (OK (Geotech.mk_blinear input_dim 128 p1)). exact S.
    + unfold Geotech.forward, Geotech.blinear_forward.
      cbn [Geotech.blinear1 Geotech.blinear2].
      pose proof (OK (Geotech.mk_blinear input_dim 128 p1) x g n S) as S1.
      destruct (Geotech.blinear_pass (Geotech.mk_blinear input_dim 128 p1)
                  x g) as [[h k1] g3]. cbn [fst snd] in *.
      pose proof (OK (Geotech.mk_blinear 128 output_dim p2)
                    (Geotech.sigmoid h) g3 n S1) as S2.
      destruct (Geotech.blinear_pass (Geotech.mk_blinear 128 output_dim p2)
                  (Geotech.sigmoid h) g3) as [[o k2] g4].
      exact S2.
Qed.

Lemma zip_with_fst_snd {A B C} (f : A -> B -> C) (l : list (A * B)) :
  zip_with f (map fst l) (map snd l) = map (fun c => f (fst c) (snd c)) l.
Proof. induction l as [|x l IH]; simpl; [reflexivity | rewrite IH; reflexivity]. Qed.

Lemma bounds_data (f : F -> F -> F) ps m j :
  (j < prod_shape (elem_shape ps))%nat ->
  nth j (data (tensor_zip f (stacked_reduce0 mean ps)
                 (tensor_rmul m (stacked_reduce0 std_unbiased ps)))) fzero
  = f (mean (along0 ps j)) (fmul m (std_unbiased (along0 ps j))).
Proof.
  intros L. unfold tensor_zip, tensor_rmul, stacked_reduce0. cbn [data].
  rewrite map_map, zip_with_map_seq. rewrite nth_map_seq by exact L.
  reflexivity.
Qed.

Lemma lower_bounds_met ps (y : ndarray F) m :
  elem_shape ps = shape y ->
  map (fun i => fleb
         (nth i (data (tensor_zip fsub (stacked_reduce0 mean ps)
                         (tensor_rmul m (stacked_reduce0 std_unbiased ps))))
              fzero)
         (nth i (data y) fzero))
      (seq 0 (prod_shape (shape y)))
  = map fst (coverage ps y m).
Proof.
  intros S. unfold coverage. rewrite map_map. apply map_ext_in.
  intros j J. apply in_seq in J. cbn [fst].
  rewrite bounds_data by (rewrite S; lia). reflexivity.
Qed.

Lemma upper_bounds_met ps (y : ndarray F) m :
  elem_shape ps = shape y ->
  map (fun i => fleb
         (nth i (data y) fzero)
         (nth i (data (tensor_zip fadd (stacked_reduce0 mean ps)
                         (tensor_rmul m (stacked_reduce0 std_unbiased ps))))
              fzero))
      (seq 0 (prod_shape (shape y)))
  = map snd (coverage ps y m).
Proof.
  intros S. unfold coverage. rewrite map_map. apply map_ext_in.
  intros j J. apply in_seq in J. cbn [snd].
  rewrite bounds_data by (rewrite S; lia). reflexivity.
Qed.

(** C5, amended. For targets that have the shape of one prediction,
    [evaluate_regression] draws as many forward passes as asked and
    returns, in this order, the fraction of targets inside
    [mean - m*std, mean + m*std], the fraction at or below the upper
    bound and the fraction at or above the lower bound; mean and
    deviation (with Bessel's correction) are those of the predictions
    made for the target. *)
Theorem evaluate_regression_coverage (regressor : BayesianRegressor)
    (X y : ndarray F) (samples : Z) (m : F) (g g' : Rng) ic_acc upper lower :
  let preds := fst (Geotech.sample_preds regressor X (Z.to_nat samples) g) in
  elem_shape preds = shape y ->
  Geotech.evaluate_regression regressor X y samples m g
  = (Ret (ic_acc, upper, lower), g') ->
  length preds = Z.to_nat samples
  /\ g' = snd (Geotech.sample_preds regressor X (Z.to_nat samples) g)
  /\ ic_acc = fraction_true (map (fun c => fst c && snd c) (coverage preds y m))
  /\ upper = fraction_true (map snd (coverage preds y m))
  /\ lower = fraction_true (map fst (coverage preds y m)).
Proof.
  intros preds S E. split; [apply sample_preds_length|].
  unfold Geotech.evaluate_regression in E. subst preds.
  destruct (Geotech.sample_preds regressor X (Z.to_nat samples) g)
    as [preds g1]. cbn [fst snd] in *.
  injection E as E <-. split; [reflexivity|].
  unfold torch_stack in E.
  destruct preds as [|p0 preds]; [discriminate|].
  destruct (same_shapes (p0 :: preds)); [|discriminate].
  set (ps := p0 :: preds) in *.
  remember (tensor_zip fsub (stacked_reduce0 mean ps)
              (tensor_rmul m (stacked_reduce0 std_unbiased ps))) as lo eqn:Hlo.
  remember (tensor_zip fadd (stacked_reduce0 mean ps)
              (tensor_rmul m (stacked_reduce0 std_unbiased ps))) as up eqn:Hup.
  assert (shape lo = shape y) as Sl by (subst lo; exact S).
  assert (shape y = shape up) as Su by (subst up; symmetry; exact S).
  rewrite (tensor_le_same_shape _ _ Sl) in E.
  rewrite (tensor_le_same_shape _ _ Su) in E.
  rewrite <- Su in E. subst lo up.
  rewrite (lower_bounds_met ps y m S), (upper_bounds_met ps y m S) in E.
  unfold bool_mean in E. cbn [fst snd] in E.
  rewrite zip_with_fst_snd in E.
  injection E as <- <- <-. split_and!; reflexivity.
Qed.

Lemma elbo_terms_passes (self : BayesianRegressor) x y criterion n c g :
  Geotech.elbo_terms self x y criterion n c g
  = (map (fun pass => fadd (criterion (fst pass) y) (fmul (snd pass) c))
         (fst (kl_passes self x n g)),
     snd (kl_passes self x n g)).
Proof.
  revert g. induction n as [|n IH]; intros g; simpl; [reflexivity|].
  destruct (Geotech.forward_kl self x g) as [r g1]. rewrite IH.
  destruct (kl_passes self x n g1) as [rs g2]. reflexivity.
Qed.

(** Each pass of [kl_passes] is a forward pass of the network. *)
Lemma kl_passes_forward (self : BayesianRegressor) x n g :
  map fst (fst (kl_passes self x n g)) = fst (Geotech.sample_preds self x n g)
  /\ snd (kl_passes self x n g) = snd (Geotech.sample_preds self x n g).
Proof.
  revert g. induction n as [|n IH]; intros g; simpl; [auto|].
  unfold Geotech.forward_kl, Geotech.forward, Geotech.blinear_forward.
  destruct (Geotech.blinear_pass (Geotech.blinear1 self) x g) as [r1 g1].
  destruct (Geotech.blinear_pass (Geotech.blinear2 self)
              (Geotech.sigmoid (fst r1)) g1) as [r2 g2].
  specialize (IH g2).
  destruct (kl_passes self x n g2) as [rs g3].
  destruct (Geotech.sample_preds self x n g2) as [ps g4].
  simpl in *. destruct IH as [-> ->]. auto.
Qed.

Lemma kl_passes_length (self : BayesianRegressor) x n g :
  length (fst (kl_passes self x n g)) = n.
Proof.
  revert g. induction n as [|n IH]; intros g; simpl; [reflexivity|].
  destruct (Geotech.forward_kl self x g) as [r g1]. specialize (IH g1).
  destruct (kl_passes self x n g1) as [rs g2]. simpl in *. congruence.
Qed.

Lemma batch_step_inv n_train (st st' : Geotech.TrainState) x y (w w' : W)
    loss :
  Geotech.batch_step n_train st x y w = (Ret (st', loss), w') ->
  let c := fdiv (fof_Z 1) (fof_nat n_train) in
  n_train <> 0%nat
  /\ loss = fst (Geotech.sample_elbo (Geotech.ts_regressor st) x y
                   Geotech.MSELoss 3 c (w_rng w))
  /\ w_rng w' = snd (Geotech.sample_elbo (Geotech.ts_regressor st) x y
                       Geotech.MSELoss 3 c (w_rng w))
  /\ Geotech.ts_grads st'
     = Geotech.add_grads Geotech.zero_grads
         (Geotech.gradient
            (fun r => fst (Geotech.sample_elbo r x y Geotech.MSELoss 3 c
                             (w_rng w)))
            (Geotech.ts_regressor st))
  /\ (Geotech.ts_regressor st', Geotech.ts_opt st')
     = Geotech.adam_update (Geotech.ts_opt st) (Geotech.ts_regressor st)
         (Geotech.ts_grads st')
  /\ Geotech.ts_steps st' = S (Geotech.ts_steps st).
Proof.
  intros E c. unfold Geotech.batch_step in E.
  bind_inv E as c' wa S. unfold Geotech.one_over in S.
  destruct (n_train =? 0)%nat eqn:N; [discriminate|].
  apply Nat.eqb_neq in N. injection S as <- <-.
  bind_inv E as g wb S. injection S as <- <-.
  bind_inv E as l wc S.
  apply with_rng_inv in S as (-> & R & _).
  injection E as <- <- <-.
  unfold Geotech.optimizer_step, Geotech.backward, Geotech.zero_grad.
  cbn [Geotech.ts_regressor Geotech.ts_grads Geotech.ts_opt Geotech.ts_steps].
  fold c.
  destruct (Geotech.adam_update _ _ _) as [r o] eqn:A.
  cbn [Geotech.ts_regressor Geotech.ts_grads Geotech.ts_opt Geotech.ts_steps].
  split_and!; auto.
Qed.

Lemma train_batches_steps n_train X_test y_test batches :
  forall (st st' : Geotech.TrainState) it it' (w w' : W),
    Geotech.train_batches n_train X_test y_test batches st it w
    = (Ret (st', it'), w') ->
    Geotech.ts_steps st' = (Geotech.ts_steps st + length batches)%nat
    /\ it' = (it + length batches)%nat.
Proof.
  induction batches as [|[x y] batches IH]; intros st st' it it' w w' E.
  - injection E as <- <- <-. simpl. lia.
  - cbn [Geotech.train_batches] in E.
    bind_inv E as r wa S. destruct r as [st1 loss].
    apply batch_step_inv in S as (_ & _ & _ & _ & _ & St).
    cbn [fst snd] in E. bind_inv E as u wb P. clear P.
    apply IH in E as [E1 E2]. cbn [length]. lia.
Qed.

(** The loss [batch_step] takes is the sampled ELBO of the statements. *)
Lemma sample_elbo_is_elbo_loss (self : BayesianRegressor) x y n c g :
  fst (Geotech.sample_elbo self x y Geotech.MSELoss n c g)
  = elbo_loss self x y n c g
  /\ snd (Geotech.sample_elbo self x y Geotech.MSELoss n c g)
     = snd (kl_passes self x n g).
Proof.
  unfold Geotech.sample_elbo. rewrite elbo_terms_passes. split; reflexivity.
Qed.

(** One mini-batch of the loop is a step in the sense of
    [batch_trained]. *)
Lemma batch_step_trained n_train (st st' : Geotech.TrainState) x y (w w' : W)
    loss :
  Geotech.batch_step n_train st x y w = (Ret (st', loss), w') ->
  batch_trained n_train st x y (w_rng w) st'
  /\ w_rng w' = snd (kl_passes (Geotech.ts_regressor st) x 3 (w_rng w)).
Proof.
  intros E. apply batch_step_inv in E as (N & _ & R & G & A & St).
  split.
  - split; [exact N|].
    exists (fun r => fst (Geotech.sample_elbo r x y Geotech.MSELoss 3
                            (fdiv (fof_Z 1) (fof_nat n_train)) (w_rng w))).
    split_and!; try assumption.
    intros r. apply sample_elbo_is_elbo_loss.
  - rewrite R. apply sample_elbo_is_elbo_loss.
Qed.

(** The loop over the mini-batches of an epoch is a pass in the sense of
    [batches_trained]. *)
Lemma train_batches_trained n_train X_test y_test batches :
  forall (st st' : Geotech.TrainState) it it' (w w' : W),
    Geotech.train_batches n_train X_test y_test batches st it w
    = (Ret (st', it'), w') ->
    batches_trained n_train batches st it (w_rng w) st'.
Proof.
  induction batches as [|[x y] batches IH]; intros st st' it it' w w' E.
  - injection E as <- _ _. reflexivity.
  - cbn [Geotech.train_batches] in E.
    bind_inv E as r wa S. destruct r as [st1 loss].
    apply batch_step_trained in S as [T R].
    cbn [fst snd] in E. bind_inv E as u wb P.
    cbn [batches_trained]. exists st1, (w_rng wb).
    split; [exact T|]. split; [|exact (IH _ _ _ _ _ _ E)].
    intros M. apply Nat.eqb_neq in M. rewrite M in P.
    injection P as _ <-. exact R.
Qed.

(** C8. In every epoch of the training loop the mini-batches are those
    the shuffling loader of the training set yields, and for every one
    of them, in order, the loss is the average over three stochastic
    forward passes of the fit of the pass to the labels plus its
    complexity cost weighted by one over the number of training
    examples; the gradient of that loss is back-propagated onto cleared
    gradients and the optimizer is updated exactly once; the epoch thus
    applies as many updates as there are mini-batches, and the loop goes
    on with the epochs that are left. *)
Theorem training_loop_batch_step epochs X_train y_train X_test y_test
    (st st' : Geotech.TrainState) it it' (w w' : W) :
  Geotech.train_epochs (S epochs) X_train y_train X_test y_test st it w
  = (Ret (st', it'), w') ->
  let loader := Geotech.dataloader_iter X_train y_train 16 (w_rng w) in
  let batches := fst loader in
  exists st1 w1,
    batches_trained (hd 0%nat (shape X_train)) batches st it (snd loader) st1
    /\ Geotech.ts_steps st1 = (Geotech.ts_steps st + length batches)%nat
    /\ Geotech.train_epochs epochs X_train y_train X_test y_test st1
         (it + length batches) w1
       = (Ret (st', it'), w').
Proof.
  intros E loader batches. cbn [Geotech.train_epochs] in E.
  bind_inv E as bs wa S. apply with_rng_inv in S as (-> & R & _).
  bind_inv E as r wb T. destruct r as [st1 it1]. cbn [fst snd] in E.
  pose proof (train_batches_steps _ _ _ _ _ _ _ _ _ _ T) as [C1 C2].
  apply train_batches_trained in T. rewrite R in T.
  exists st1, wb. fold loader batches in T, C1, C2.
  split; [exact T|]. split; [exact C1|]. rewrite <- C2. exact E.
Qed.

(** [main] never reaches the training loop: it ends at [sys.exit(0)],
    or earlier on an error of [load_dataset]. *)
Lemma main_never_returns (w : W) u w' : Geotech.main w <> (Ret u, w').
Proof.
  intros E. unfold Geotech.main in E.
  bind_inv E as u0 wa S. clear S. bind_inv E as u1 wb S. clear S.
  bind_inv E as d wc S. clear S. bind_inv E as u2 wd S. discriminate S.
Qed.
End ScriptFacts.

(* ================================================================== *)
(** ** The theorems at concrete inputs *)
(* ================================================================== *)

Section Runs.
Import Demo.

Lemma demo_forward_shape_ok : forward_shape_ok (F := Q) (Rng := nat).
Proof. intros r x g. reflexivity. Defined.

(** A run with every configuration value falsy. *)
Lemma predict_impl_falsy_defaults_witness :
  exists l w',
    predict_setup "latents.csv" (Some "") (Some "") "" "net.pt" "gaussian"
      (Some 0) (Some (PyFloat 0%Q)) 0 false world = (Ret l, w')
    /\ l_k_samples l = 20
    /\ l_scaling_factor l = PyFloat (fof_Z 1)
    /\ l_output_key l = "predicted"
    /\ l_input_key l = "latent_"
    /\ l_output_csv l = "20230307_090542_bnn_predictions.csv".
Proof.
  assert (is_ret (fst (predict_setup "latents.csv" (Some "") (Some "") ""
                         "net.pt" "gaussian" (Some 0) (Some (PyFloat 0%Q)) 0
                         false world)) = true) as R
    by (vm_compute; reflexivity).
  destruct (predict_setup "latents.csv" (Some "") (Some "") "" "net.pt"
              "gaussian" (Some 0) (Some (PyFloat 0%Q)) 0 false world)
    as [[l| |e] w'] eqn:E; [| discriminate R | discriminate R].
  exists l, w'. split; [reflexivity|].
  destruct (predict_impl_falsy_defaults _ _ _ _ _ _ _ _ _ _ _ _ _ E)
    as (K & S & O & I & C & _).
  split; [apply K; right; reflexivity|].
  split; [apply S; right; right; exists 0%Q; split; reflexivity|].
  split; [apply O; right; reflexivity|].
  split; [apply I; right; reflexivity|].
  rewrite (proj1 (C eq_refl)). vm_compute. reflexivity.
Defined.

(** The regressor rebuilt from the demo checkpoint for the demo CSV. *)
Lemma predict_impl_regressor_dimensions_witness :
  exists l w',
    predict_setup "latents.csv" None None "" "net.pt" "gaussian"
      None None 0 false world = (Ret l, w')
    /\ input_dim (l_regressor l) = 2%nat
    /\ output_dim (l_regressor l) = 2%nat
    /\ Forall (fun x => length x = 2%nat) (l_np_latent l).
Proof.
  assert (is_ret (fst (predict_setup "latents.csv" None None "" "net.pt"
                         "gaussian" None None 0 false world)) = true) as R
    by (vm_compute; reflexivity).
  destruct (predict_setup "latents.csv" None None "" "net.pt" "gaussian"
              None None 0 false world)
    as [[l| |e] w'] eqn:E; [| discriminate R | discriminate R].
  exists l, w'. split; [reflexivity|].
  destruct (predict_impl_regressor_dimensions _ _ _ _ _ _ _ _ _ _ _ _ _ E)
    as (df0 & ck & sd & wt & rest & Lf & Nf & Nm & Nw & Di & Dx & Ds & _).
  vm_compute in Lf. injection Lf as <-.
  vm_compute in Nf. injection Nf as <-.
  vm_compute in Nm. injection Nm as <-.
  vm_compute in Nw. injection Nw as <-.
  cbn [shape] in Ds. injection Ds as Ds _.
  assert (input_dim (l_regressor l) = 2%nat) as Di2 by exact Di.
  rewrite Di2 in Dx.
  split; [exact Di2|]. split; [symmetry; exact Ds|]. exact Dx.
Defined.


(** C10 as stated fails: a column that holds the latent key without
    starting with it is an input column whose name does not match the
    latent-key prefix, and it is not carried over. *)
Lemma latent_prefix_claim_fails :
  let run := predict_impl "extra.csv" None None "out.csv" "net.pt"
               "gaussian" None None 0 false world in
  fst run = Ret 0
  /\ exists out,
       w_files (snd run) !! "out.csv" = Some (FCsv out)
       /\ str_in "n_latent_dims" (column_names latents_extra) = true
       /\ String.prefix "latent_" "n_latent_dims" = false
       /\ str_in "n_latent_dims" (column_names out) = false
       /\ str_in "northing" (column_names out) = true.
Proof.
  split; [vm_compute; reflexivity|].
  eexists. split; [vm_compute; reflexivity|].
  split_and!; vm_compute; reflexivity.
Qed.

(** The amended claim on the same input. *)
Lemma predict_impl_drops_latent_columns_witness :
  exists w',
    predict_impl "extra.csv" None None "out.csv" "net.pt" "gaussian"
      None None 0 false world = (Ret 0, w')
    /\ exists out,
         w_files w' !! "out.csv" = Some (FCsv out)
         /\ (forall c, In c (df_columns out) ->
                       str_contains "latent_" (fst c) = false)
         /\ In ("northing", [CNum 5%Q; CNum 6%Q; CNum 7%Q])
               (df_columns out).
Proof.
  assert (fst (predict_impl "extra.csv" None None "out.csv" "net.pt"
                 "gaussian" None None 0 false world) = Ret 0) as R
    by (vm_compute; reflexivity).
  destruct (predict_impl "extra.csv" None None "out.csv" "net.pt" "gaussian"
              None None 0 false world) as [o w'] eqn:E.
  cbn [fst] in R. subst o.
  exists w'. split; [reflexivity|].
  destruct (predict_impl_drops_latent_columns _ _ _ _ _ _ _ _ _ _ _ _ _
              demo_forward_shape_ok E)
    as (df0 & search & out & Lf & C & Wf & No & _ & Keep).
  vm_compute in Lf. injection Lf as <-.
  injection C as <-.
  exists out. split; [exact Wf|]. split; [exact No|].
  apply Keep; [|reflexivity].
  vm_compute. left. reflexivity.
Defined.

(** C3, the code against the claim: with the latent CSV missing,
    [Console.error] prints and the run goes on - the network check, the
    output name and the loading are reported before the loader fails -
    while with the network file missing [Console.quit] ends the process
    right away. *)
Theorem missing_latent_csv_is_not_fatal :
  let run := predict_impl "absent.csv" None None "out.csv" "net.pt"
               "gaussian" None None 0 false world in
  let run' := predict_impl "latents.csv" None None "out.csv" "absent.pt"
                "gaussian" None None 0 false world in
  fst run = Raise (FileNotFoundError "absent.csv")
  /\ drop 2 (w_console (snd run))
     = [error_text ["Latent input file [absent.csv] not found. Please check the provided input path (-l, --latent)"] +:+ NL;
        info_text ["Pre-trained network file ["; "net.pt"; "] found"] +:+ NL;
        info_text ["Output file: "; "out.csv"] +:+ NL;
        info_text ["Loading latent input ["; "absent.csv"; "]"] +:+ NL]
  /\ fst run' = Exit
  /\ last (w_console (snd run'))
     = Some (quit_text ["No pre-trained network found at: "; "absent.pt"]
             +:+ NL).
Proof. split_and!; vm_compute; reflexivity. Qed.

(** C4, the code against the claim: with the latent key [_] the run
    succeeds for a network with two outputs and the exported frame has
    neither prediction nor uncertainty column, the drop of the
    latent columns having taken them too. *)
Theorem prediction_columns_are_dropped :
  let run := predict_impl "latents.csv" (Some "_") None "out.csv" "net.pt"
               "gaussian" None None 0 false world in
  fst run = Ret 0
  /\ exists out,
       w_files (snd run) !! "out.csv" = Some (FCsv out)
       /\ column_names out = ["id"; "northing"]
       /\ result_columns "pred_" "predicted" 2
          = ["pred_predicted_0"; "pred_predicted_1"]
       /\ result_columns "std_" "predicted" 2
          = ["std_predicted_0"; "std_predicted_1"].
Proof.
  split; [vm_compute; reflexivity|].
  eexists. split; [vm_compute; reflexivity|].
  split_and!; vm_compute; reflexivity.
Qed.
End Runs.

Section ScriptRuns.
Import Demo GeoDemo.

(** C6, the code against the claim: on a CSV with a row that holds a
    NaN, [load_dataset] returns the number 1 in place of a dataset, with
    the count of latent columns; no row is removed anywhere, though
    cleaning the frame would remove one. *)
Theorem load_dataset_returns_no_dataset :
  let run := Geotech.load_dataset "nan.csv" false "latent_" world in
  fst run = Ret (1, 2%nat)
  /\ w_files (snd run) = w_files world
  /\ w_files world !! "nan.csv" = Some (FCsv latents_nan)
  /\ nrows latents_nan = 3%nat
  /\ nrows (dropna latents_nan) = 2%nat.
Proof. split_and!; vm_compute; reflexivity. Qed.

Lemma geo_layer_shape_ok : layer_shape_ok (F := Q) (Rng := nat).
Proof. intros l x g n S. cbn. rewrite S. reflexivity. Defined.

(** Two rows of one value through a regressor with one input and one
    output. *)
Lemma BayesianRegressor_forward_composition_witness :
  shape X = [2; 1]%nat
  /\ Geotech.forward regressor X 5%nat
     = (mk_ndarray [2; 1]%nat [229 # 38; 267 # 38]%Q, 7%nat)
  /\ shape (fst (fst (Geotech.blinear_pass (Geotech.blinear1 regressor) X
                        5%nat)))
     = [2; 128]%nat
  /\ shape (fst (Geotech.forward regressor X 5%nat)) = [2; 1]%nat.
Proof.
  destruct (@BayesianRegressor_forward_composition Q nat float_Q script_libs)
    as [C D].
  split; [reflexivity|].
  split; [rewrite C; vm_compute; reflexivity|].
  destruct (D geo_layer_shape_ok 1%nat 1%nat 0%nat X 5%nat 2%nat eq_refl)
    as (_ & _ & _ & _ & Sh & So).
  split; [exact Sh | exact So].
Defined.

(** C5 as stated fails: for two targets given as a flat vector, both
    inside the interval of their predictions, the fraction returned is
    one half, each target having been compared with the intervals of
    both predictions. *)
Lemma coverage_claim_fails :
  let preds := fst (Geotech.sample_preds regressor X 4 5%nat) in
  Geotech.evaluate_regression regressor X y_flat 4 2%Q 5%nat
  = (Ret ((1 # 2)%Q, (3 # 4)%Q, (3 # 4)%Q), 13%nat)
  /\ shape y_flat = [2%nat]
  /\ elem_shape preds = [2; 1]%nat
  /\ coverage preds y_flat 2%Q = [(true, true); (true, true)]
  /\ fraction_true (map (fun c => fst c && snd c) (coverage preds y_flat 2%Q))
     = 1%Q.
Proof. split_and!; vm_compute; reflexivity. Qed.

(** Four samples for two targets given as a column, one of which lies
    above its interval. *)
Lemma evaluate_regression_coverage_witness :
  elem_shape (fst (Geotech.sample_preds regressor X 4 5%nat)) = shape y
  /\ Geotech.evaluate_regression regressor X y 4 2%Q 5%nat
     = (Ret ((1 # 2)%Q, (1 # 2)%Q, 1%Q), 13%nat)
  /\ coverage (fst (Geotech.sample_preds regressor X 4 5%nat)) y 2%Q
     = [(true, true); (true, false)]
  /\ (1 # 2)%Q
     = fraction_true
         (map (fun c => fst c && snd c)
              (coverage (fst (Geotech.sample_preds regressor X 4 5%nat))
                        y 2%Q)).
Proof.
  assert (elem_shape (fst (Geotech.sample_preds regressor X 4 5%nat))
          = shape y) as S by (vm_compute; reflexivity).
  assert (Geotech.evaluate_regression regressor X y 4 2%Q 5%nat
          = (Ret ((1 # 2)%Q, (1 # 2)%Q, 1%Q), 13%nat)) as E
    by (vm_compute; reflexivity).
  split; [exact S|]. split; [exact E|].
  split; [vm_compute; reflexivity|].
  destruct (@evaluate_regression_coverage Q nat float_Q script_libs
              regressor X y 4 2%Q 5%nat 13%nat _ _ _ S E) as (_ & _ & I & _).
  exact I.
Defined.

(** One epoch over a training set of two examples that the loader
    yields as one mini-batch: the gradient held afterwards is that of the
    loss over three passes with the complexity cost weighted by one
    half. *)
Lemma training_loop_batch_step_witness :
  exists st' it' w',
    Geotech.train_epochs 1 X y X y state 0 world = (Ret (st', it'), w')
    /\ fst (Geotech.dataloader_iter X y 16 0%nat) = [(X, y)]
    /\ hd 0%nat (shape X) = 2%nat
    /\ elbo_loss regressor X y 3 (1 # 2)%Q 1%nat = (40410307 # 350892)%Q
    /\ Geotech.ts_grads st' = (40410307 # 350892)%Q
    /\ Geotech.ts_steps st' = 1%nat.
Proof.
  assert (is_ret (fst (Geotech.train_epochs 1 X y X y state 0 world)) = true)
    as R by (vm_compute; reflexivity).
  destruct (Geotech.train_epochs 1 X y X y state 0 world)
    as [[[st' it']| |e] w'] eqn:E; [| discriminate R | discriminate R].
  exists st', it', w'. split; [reflexivity|].
  split; [reflexivity|]. split; [reflexivity|].
  assert (elbo_loss regressor X y 3 (1 # 2)%Q 1%nat
          = (40410307 # 350892)%Q) as V by (vm_compute; reflexivity).
  split; [exact V|].
  destruct (training_loop_batch_step _ _ _ _ _ _ _ _ _ _ _ E)
    as (st1 & w1 & T & C & E').
  cbn [Geotech.train_epochs] in E'. injection E' as <- _ _.
  change (batches_trained 2 [(X, y)] state 0 1%nat st1) in T.
  cbn [batches_trained] in T.
  destruct T as (s1 & g1 & (_ & L & HL & G & _ & _) & _ & ->).
  split; [|exact C].
  rewrite G.
  change (Qred (0 + L regressor) = (40410307 # 350892)%Q).
  rewrite HL.
  change (Qred (0 + elbo_loss regressor X y 3 (1 # 2)%Q 1%nat)
          = (40410307 # 350892)%Q).
  rewrite V. reflexivity.
Defined.
End ScriptRuns.

(* ================================================================== *)
(** ** Further properties of the code *)
(* ================================================================== *)

Lemma string_length_append s t :
  String.length (s +:+ t) = (String.length s + String.length t)%nat.
Proof. induction s as [|c s IH]; simpl; [reflexivity | rewrite IH; reflexivity]. Qed.

Lemma str_repeat_length (c : ascii) n :
  String.length (str_repeat (String c "") n) = n.
Proof.
  induction n as [|n IH]; [reflexivity|].
  cbn [str_repeat]. rewrite string_length_append, IH. reflexivity.
Qed.

Section ProgressFacts.
Context {F Rng : Type}.
Local Abbreviation W := (World F Rng).

(** X1. [Console.progress] fails on a total of zero; for a positive
    total and an iteration up to it, it writes one line whose bar is
    exactly 50 characters wide, stars then dashes, and ends the line
    with a newline at the last iteration and at the one before it. *)
Theorem Console_progress_bar_width pct iteration total (w : W) :
  (total = 0%nat ->
   Console_progress pct iteration total w = (Raise ZeroDivisionError, w))
  /\ ((0 < total)%nat -> (iteration <= total)%nat ->
      String.length (progress_bar iteration total) = 50%nat
      /\ Console_progress pct iteration total w
         = (Ret tt,
            set_console
              (w_console w
               ++ [progress_line pct iteration total]
               ++ (if (total - 1 <=? iteration)%nat then [NL] else []))
              w)).
Proof.
  split.
  - intros ->. reflexivity.
  - intros P L. split.
    + unfold progress_bar. rewrite string_length_append.
      rewrite !str_repeat_length.
      assert (50 * iteration / total <= 50)%nat.
      { apply Nat.Div0.div_le_upper_bound. nia. }
      lia.
    + unfold Console_progress.
      destruct (total =? 0)%nat eqn:Z; [apply Nat.eqb_eq in Z; lia|].
      destruct w as [fs c t cu g].
      unfold bind, print, print_end, progress_line, progress_bar.
      with_strategy opaque [Nat.mul Nat.div Nat.sub str_repeat Nat.leb] cbn.
      destruct (total - 1 <=? iteration)%nat;
        with_strategy opaque [Nat.mul Nat.div Nat.sub str_repeat] cbn.
      * rewrite <- app_assoc. reflexivity.
      * reflexivity.
Qed.
End ProgressFacts.

Lemma Console_progress_bar_width_witness :
  (0 < 3)%nat /\ (2 <= 3)%nat
  /\ String.length (progress_bar 2 3) = 50%nat
  /\ w_console (snd (Console_progress (fun _ _ => "66.7") 2 3 Demo.world))
     = [progress_line (fun _ _ => "66.7") 2 3; NL].
Proof.
  split; [lia|]. split; [lia|].
  destruct (proj2 (Console_progress_bar_width (fun _ _ => "66.7") 2 3
                     Demo.world) ltac:(lia) ltac:(lia)) as [B E].
  split; [exact B|]. rewrite E. reflexivity.
Defined.

Section ColumnFacts.

Lemma result_columns_lookup prefix key n j :
  (j < n)%nat ->
  nth_error (result_columns prefix key n) j
  = Some (prefix +:+ key +:+ "_" +:+ pretty j).
Proof.
  intros L. unfold result_columns.
  rewrite nth_error_map, nth_error_seq.
  destruct (Nat.ltb_spec j n); [reflexivity | lia].
Qed.

Lemma result_columns_NoDup prefix key n :
  List.NoDup (result_columns prefix key n).
Proof.
  unfold result_columns.
  apply Finite.Injective_map_NoDup; [|apply List.seq_NoDup].
  intros i j E.
  apply (inj (String.app prefix)) in E.
  apply (inj (String.app key)) in E.
  apply (inj (String.app "_")) in E.
  apply (inj pretty) in E. exact E.
Qed.

(** X2. The result columns are well named: for [output_size] outputs
    there are [output_size] prediction labels and as many uncertainty
    labels, the label of output [j] ends in the decimal [j], and no two
    of all these labels are equal, whatever the target key. *)
Theorem result_columns_distinct key output_size :
  length (result_columns "pred_" key output_size) = output_size
  /\ length (result_columns "std_" key output_size) = output_size
  /\ (forall j, (j < output_size)%nat ->
        nth_error (result_columns "pred_" key output_size) j
        = Some ("pred_" +:+ key +:+ "_" +:+ pretty j)
        /\ nth_error (result_columns "std_" key output_size) j
           = Some ("std_" +:+ key +:+ "_" +:+ pretty j))
  /\ List.NoDup (result_columns "pred_" key output_size
                 ++ result_columns "std_" key output_size).
Proof.
  split_and!.
  - apply result_columns_length.
  - apply result_columns_length.
  - intros j L. split; apply result_columns_lookup; exact L.
  - apply List.NoDup_app.
    + apply result_columns_NoDup.
    + apply result_columns_NoDup.
    + intros s I J. unfold result_columns in I, J.
      apply in_map_iff in I as (i & <- & _).
      apply in_map_iff in J as (j & E & _). discriminate E.
Qed.
End ColumnFacts.

Section FrameFacts.
Context {F Rng : Type} `{Float F} `{PredictLibs F Rng}.
Local Abbreviation W := (World F Rng).

Lemma quiet_keeps_files {A} (m : M W A) : quiet m -> keeps_files m.
Proof. intros Q w o w' E. apply Q in E as (E & _). exact E. Qed.

Lemma quiet_ret {A} (a : A) : quiet (ret a : M W A).
Proof. intros w o w' [= <- <-]. apply console_only_refl. Qed.

Lemma quiet_raise {A} e : quiet (raise e : M W A).
Proof. intros w o w' [= <- <-]. apply console_only_refl. Qed.

Lemma quiet_exit {A} : quiet (exit_ : M W A).
Proof. intros w o w' [= <- <-]. apply console_only_refl. Qed.

Lemma quiet_bind {A B} (m : M W A) (k : A -> M W B) :
  quiet m -> (forall a, quiet (k a)) -> quiet (bind m k).
Proof.
  intros Qm Qk w o w' E. unfold bind in E.
  destruct (m w) as [[a| |e] w1] eqn:S.
  - eapply console_only_trans; [eapply Qm, S | eapply Qk, E].
  - injection E as <- <-. eapply Qm, S.
  - injection E as <- <-. eapply Qm, S.
Qed.

Lemma keeps_files_bind {A B} (m : M W A) (k : A -> M W B) :
  keeps_files m -> (forall a, keeps_files (k a)) -> keeps_files (bind m k).
Proof.
  intros Qm Qk w o w' E. unfold bind in E.
  destruct (m w) as [[a| |e] w1] eqn:S.
  - rewrite (Qk _ _ _ _ E). eapply Qm, S.
  - injection E as <- <-. eapply Qm, S.
  - injection E as <- <-. eapply Qm, S.
Qed.

Lemma quiet_print_end args e : quiet (print_end args e : M W unit).
Proof. intros w o w' E. apply print_end_frame in E as [_ E]. exact E. Qed.

Lemma quiet_print args : quiet (print args : M W unit).
Proof. apply quiet_print_end. Qed.

Lemma quiet_Console_info args : quiet (Console_info args : M W unit).
Proof. apply quiet_print_end. Qed.

Lemma quiet_Console_warn args : quiet (Console_warn args : M W unit).
Proof. apply quiet_print_end. Qed.

Lemma quiet_Console_error args : quiet (Console_error args : M W unit).
Proof. apply quiet_print_end. Qed.

Lemma quiet_Console_quit {A} args : quiet (Console_quit args : M W A).
Proof.
  unfold Console_quit.
  repeat (apply quiet_bind; [apply quiet_print | intros _]).
  apply quiet_exit.
Qed.

Lemma quiet_Console_progress pct i n : quiet (Console_progress pct i n : M W unit).
Proof.
  unfold Console_progress. destruct (n =? 0)%nat; [apply quiet_raise|].
  apply quiet_bind; [apply quiet_print_end | intros _].
  destruct (n - 1 <=? i)%nat; [apply quiet_print | apply quiet_ret].
Qed.

Lemma quiet_isfile path : quiet (isfile path : M W bool).
Proof. intros w o w' [= <- <-]. apply console_only_refl. Qed.

Lemma quiet_now : quiet (now : M W DateTime).
Proof. intros w o w' [= <- <-]. apply console_only_refl. Qed.

Lemma quiet_cuda_is_available : quiet (cuda_is_available : M W bool).
Proof. intros w o w' [= <- <-]. apply console_only_refl. Qed.

Lemma quiet_read_csv path : quiet (read_csv path : M W (DataFrame F)).
Proof.
  intros w o w'. unfold read_csv.
  destruct (w_files w !! path) as [[d|c|]|]; intros [= <- <-];
    apply console_only_refl.
Qed.

Lemma quiet_torch_load path :
  quiet (torch_load path : M W (gmap string (CkVal F))).
Proof.
  intros w o w'. unfold torch_load.
  destruct (w_files w !! path) as [[d|c|]|]; intros [= <- <-];
    apply console_only_refl.
Qed.

Lemma quiet_or_raise {A} (o : option A) e : quiet (or_raise o e : M W A).
Proof. destruct o; [apply quiet_ret | apply quiet_raise]. Qed.

Lemma quiet_lift {A} (o : Outcome A) : quiet (lift o : M W A).
Proof. intros w o' w' [= <- <-]. apply console_only_refl. Qed.

Lemma keeps_files_with_rng {A} (f : Rng -> A * Rng) :
  keeps_files (with_rng f : M W A).
Proof.
  intros w o w'. unfold with_rng. destruct (f (w_rng w)).
  intros [= <- <-]. reflexivity.
Qed.

(** Steps through a computation made of the steps above. *)
Ltac quiet_step :=
  first
    [ apply quiet_bind; [|intros ?]
    | apply quiet_ret | apply quiet_raise | apply quiet_exit
    | apply quiet_print | apply quiet_print_end
    | apply quiet_Console_info | apply quiet_Console_warn
    | apply quiet_Console_error | apply quiet_Console_quit
    | apply quiet_Console_progress
    | apply quiet_isfile | apply quiet_now | apply quiet_cuda_is_available
    | apply quiet_read_csv | apply quiet_torch_load
    | apply quiet_or_raise | apply quiet_lift
    | match goal with
      | |- quiet (if ?b then _ else _) => destruct b
      | |- quiet (match ?x with _ => _ end) => destruct x
      | |- quiet (let '(_, _) := ?x in _) => destruct x
      end ].

Ltac keeps_step :=
  first
    [ apply keeps_files_bind; [|intros ?]
    | apply keeps_files_with_rng
    | apply quiet_keeps_files; solve [repeat quiet_step]
    | match goal with
      | |- keeps_files (if ?b then _ else _) => destruct b
      | |- keeps_files (match ?x with _ => _ end) => destruct x
      | |- keeps_files (let '(_, _) := ?x in _) => destruct x
      end ].

Lemma quiet_loadData path prefix :
  quiet (loadData path prefix : M W _).
Proof. unfold loadData. repeat quiet_step. Qed.

Lemma quiet_ck_get (d : gmap string (CkVal F)) key :
  quiet (ck_get d key : M W _).
Proof. apply quiet_or_raise. Qed.

Lemma quiet_sd_get (d : CkVal F) key : quiet (sd_get d key : M W _).
Proof. unfold sd_get. repeat quiet_step. Qed.

Lemma quiet_np_len (a : ndarray F) : quiet (np_len a : M W _).
Proof. unfold np_len. repeat quiet_step. Qed.

Lemma keeps_files_load_network net olt n dev :
  keeps_files (load_network net olt n dev : M W _).
Proof.
  unfold load_network, BayesianRegressor_new.
  repeat first [ apply quiet_keeps_files;
                 first [apply quiet_ck_get | apply quiet_sd_get
                       | apply quiet_np_len]
               | keeps_step ].
Qed.

Lemma keeps_files_predict_setup latent_csv latent_key target_key output_csv
    net olt num_samples scale_factor gpu cpu :
  keeps_files (predict_setup latent_csv latent_key target_key output_csv net
                 olt num_samples scale_factor gpu cpu : M W _).
Proof.
  unfold predict_setup, load_state_dict.
  repeat first [ apply keeps_files_load_network
               | apply quiet_keeps_files;
                 first [apply quiet_ck_get | apply quiet_loadData]
               | keeps_step ].
Qed.

Lemma keeps_files_draw_predictions (r : Regressor F) x k :
  keeps_files (draw_predictions r x k : M W _).
Proof.
  intros w o w' E. rewrite draw_predictions_spec in E.
  injection E as _ <-. reflexivity.
Qed.

Lemma keeps_files_predict_rows (r : Regressor F) K c total rows :
  forall idx p u, keeps_files (predict_rows r K c total rows idx p u : M W _).
Proof.
  induction rows as [|x rows IH]; intros idx p u; cbn [predict_rows].
  - apply quiet_keeps_files, quiet_ret.
  - repeat first [ apply IH | apply keeps_files_draw_predictions
                 | keeps_step ].
Qed.

Lemma keeps_files_predict_infer (l : Locals F) :
  keeps_files (predict_infer l : M W _).
Proof.
  unfold predict_infer.
  repeat first [ apply keeps_files_predict_rows
               | apply quiet_keeps_files; apply quiet_ck_get
               | keeps_step ].
Qed.

(** What [predict_export] does to the files, however it ends. *)
Lemma predict_export_files (l : Locals F) p u (w w' : W) o :
  predict_export l p u w = (o, w') ->
  (exists out,
      o = Ret 0 /\ df_index_name out = Some "index"
      /\ w_files w' = <[l_output_csv l := FCsv out]> (w_files w))
  \/ (is_ret o = false /\ w_files w' = w_files w).
Proof.
  unfold predict_export. intros E. unfold bind at 1 in E. unfold lift in E.
  destruct (output_frame _ _ _ _ _ _) as [out| |e].
  - left. destruct w as [fs c t cu g].
    exists (mk_df (Some "index") (df_index out) (df_columns out)).
    unfold bind, print, Console_info, print_end, to_csv, ret in E.
    cbn [get_console set_console world_console w_files w_console w_now
         w_cuda w_rng] in E.
    injection E as <- <-. split_and!; reflexivity.
  - right. injection E as <- <-. auto.
  - right. injection E as <- <-. auto.
Qed.

(** What [predict_impl] does to the files, however it ends. *)
Lemma predict_impl_files latent_csv latent_key target_key
    output_csv net olt num_samples scale_factor gpu cpu (w w' : W) o :
  predict_impl latent_csv latent_key target_key output_csv net olt
    num_samples scale_factor gpu cpu w = (o, w') ->
  (exists out,
      o = Ret 0 /\ df_index_name out = Some "index"
      /\ w_files w'
         = <[resolved_output_csv output_csv (w_now w) := FCsv out]>
             (w_files w))
  \/ (is_ret o = false /\ w_files w' = w_files w).
Proof.
  unfold predict_impl. intros E. unfold bind at 1 in E.
  destruct (predict_setup _ _ _ _ _ _ _ _ _ _ w) as [[l| |e] w1] eqn:S.
  - pose proof (keeps_files_predict_setup _ _ _ _ _ _ _ _ _ _ _ _ _ S) as F1.
    apply predict_setup_inv in S as (Ec & _).
    unfold bind at 1 in E.
    destruct (predict_infer l w1) as [[r| |e] w2] eqn:I.
    + pose proof (keeps_files_predict_infer _ _ _ _ I) as F2.
      apply predict_export_files in E
        as [(out & -> & N & Wf) | (R & Wf)].
      * left. exists out. rewrite Wf, F2, F1, Ec. auto.
      * right. split; [exact R | congruence].
    + injection E as <- <-. right.
      split; [reflexivity|]. rewrite <- F1.
      exact (keeps_files_predict_infer _ _ _ _ I).
    + injection E as <- <-. right.
      split; [reflexivity|]. rewrite <- F1.
      exact (keeps_files_predict_infer _ _ _ _ I).
  - injection E as <- <-. right. split; [reflexivity|].
    exact (keeps_files_predict_setup _ _ _ _ _ _ _ _ _ _ _ _ _ S).
  - injection E as <- <-. right. split; [reflexivity|].
    exact (keeps_files_predict_setup _ _ _ _ _ _ _ _ _ _ _ _ _ S).
Qed.
(** X3. [predict_impl] touches one file at most: either it returns 0,
    having written (or overwritten) the output CSV, a frame whose index
    is named [index], under the given name or the timestamped default;
    or it ends by exit or exception and leaves every file as it was. *)
Theorem predict_impl_writes_only_output latent_csv latent_key target_key
    output_csv net olt num_samples scale_factor gpu cpu (w w' : W) o :
  predict_impl latent_csv latent_key target_key output_csv net olt
    num_samples scale_factor gpu cpu w = (o, w') ->
  (exists out,
      o = Ret 0 /\ df_index_name out = Some "index"
      /\ w_files w'
         = <[resolved_output_csv output_csv (w_now w) := FCsv out]>
             (w_files w))
  \/ (is_ret o = false /\ w_files w' = w_files w).
Proof. apply predict_impl_files. Qed.
End FrameFacts.

Section FailureFacts.
Context {F Rng : Type} `{Float F} `{PredictLibs F Rng}.
Local Abbreviation W := (World F Rng).

Lemma bind_raise_l {A B} e (k : A -> M W B) (w : W) :
  bind (raise e) k w = (Raise e, w).
Proof. reflexivity. Qed.

Lemma last_console_snoc (c : list string) s : last (c ++ [s]) = Some s.
Proof. apply last_snoc. Qed.

(** X4. With no file at the network path [predict_impl] ends the
    process by [Console.quit] whatever the other arguments: nothing but
    the console changes, no data is loaded, and the last line written
    gives the missing path as the reason. *)
Theorem predict_impl_missing_network latent_csv latent_key target_key
    output_csv net olt num_samples scale_factor gpu cpu (w : W) :
  w_files w !! net = None ->
  exists w',
    predict_impl latent_csv latent_key target_key output_csv net olt
      num_samples scale_factor gpu cpu w = (Exit, w')
    /\ console_only w w'
    /\ last (w_console w')
       = Some (quit_text ["No pre-trained network found at: "; net] +:+ NL).
Proof.
  intros N.
  assert (exists w',
    predict_setup latent_csv latent_key target_key output_csv net olt
      num_samples scale_factor gpu cpu w = (Exit, w')
    /\ console_only w w'
    /\ last (w_console w')
       = Some (quit_text ["No pre-trained network found at: "; net] +:+ NL))
    as (w' & S & C & L).
  { unfold predict_setup.
    erewrite bind_ret_intro by reflexivity.
    erewrite bind_ret_intro by reflexivity.
    erewrite bind_ret_intro by reflexivity.
    destruct (bool_decide _).
    - erewrite bind_ret_intro by reflexivity.
      erewrite bind_ret_intro by reflexivity.
      cbn [w_files set_console world_console]. rewrite N.
      rewrite bool_decide_eq_false_2 by (intros [? ?]; discriminate).
      erewrite bind_exit by reflexivity.
      eexists. split; [reflexivity|]. split; [repeat split|].
      cbn [w_console get_console set_console world_console].
      apply last_console_snoc.
    - erewrite bind_ret_intro by reflexivity.
      erewrite bind_ret_intro by reflexivity.
      cbn [w_files set_console world_console]. rewrite N.
      rewrite bool_decide_eq_false_2 by (intros [? ?]; discriminate).
      erewrite bind_exit by reflexivity.
      eexists. split; [reflexivity|]. split; [repeat split|].
      cbn [w_console get_console set_console world_console].
      apply last_console_snoc. }
  exists w'. split; [|auto]. unfold predict_impl.
  apply bind_exit. exact S.
Qed.

Lemma quiet_bind_raise {A B} e (k : A -> M W B) : quiet (bind (raise e) k).
Proof. intros w o w' [= <- <-]. apply console_only_refl. Qed.

Lemma quiet_predict_rows_no_pass (r : Regressor F) K c total rows :
  Z.to_nat K = 0%nat ->
  forall idx p u, quiet (predict_rows r K c total rows idx p u : M W _).
Proof.
  intros Z0. induction rows as [|x rows IH]; intros idx p u;
    cbn [predict_rows].
  - apply quiet_ret.
  - rewrite Z0. cbn [draw_predictions].
    apply quiet_bind; [apply quiet_ret | intros ?].
    apply quiet_bind; [apply quiet_or_raise | intros ?].
    apply quiet_bind; [apply quiet_or_raise | intros ?].
    apply quiet_bind; [apply quiet_Console_progress | intros ?].
    apply IH.
Qed.

Ltac infer_quiet :=
  repeat first
    [ apply quiet_bind_raise
    | apply quiet_bind; [|intros ?]
    | apply quiet_ck_get | apply quiet_print | apply quiet_or_raise
    | apply quiet_ret ].

(** Without any latent value [predict_infer] does not return. *)
Lemma predict_infer_needs_latents (l : Locals F) (w w' : W) r :
  concat (l_np_latent l) = [] ->
  predict_infer l w <> (Ret r, w').
Proof.
  intros Z E. unfold predict_infer, np_amin, np_amax in E.
  rewrite Z in E. cbn [or_raise] in E.
  do 11 (bind_inv E).
  apply bind_ret_inv in E as (? & ? & R & _). discriminate R.
Qed.

(** X5. On a latent matrix without any element - no row, or rows without
    latent columns - the inference never starts: [np.amin] fails on the
    zero-size array, so [predict_impl] does not get past line 155, and
    up to there only the console has changed. *)
Theorem predict_infer_empty_latents (l : Locals F) (w w' : W) o :
  concat (l_np_latent l) = [] ->
  predict_infer l w = (o, w') ->
  is_ret o = false /\ console_only w w'.
Proof.
  intros Z E. split.
  - destruct o as [r| |e]; try reflexivity. exfalso.
    exact (predict_infer_needs_latents _ _ _ _ Z E).
  - unfold predict_infer, np_amin, np_amax in E.
    rewrite Z in E. cbn [or_raise] in E. revert E. generalize w o w'.
    change (quiet (
      print ["Model dictionary loaded network ||"] ;;;
      v <- ck_get (l_trained_network l) "epochs" ;;
      print [TAB +:+ "Epochs: "; ck_str v] ;;;
      v <- ck_get (l_trained_network l) "batch_size" ;;
      print [TAB +:+ "Batch size: "; ck_str v] ;;;
      v <- ck_get (l_trained_network l) "learning_rate" ;;
      print [TAB +:+ "Learning rate: "; ck_str v] ;;;
      v <- ck_get (l_trained_network l) "lambda_fit_loss" ;;
      print [TAB +:+ "Lambda fit loss: "; ck_str v] ;;;
      v <- ck_get (l_trained_network l) "elbo_kld" ;;
      print [TAB +:+ "ELBO k-samples: "; ck_str v] ;;;
      lo <- raise (ValueError "zero-size array") ;;
      hi <- raise (ValueError "zero-size array") ;;
      print ["X_norm [min,max]"; fstr lo; "/"; fstr hi] ;;;
      r <- predict_rows (l_regressor l) (l_k_samples l) (l_scaling_factor l)
             (length (l_np_latent l)) (l_np_latent l) 0%nat [] [] ;;
      print ["Total predicted rows: "; pretty (length (fst r))] ;;;
      ret r)).
    infer_quiet.
Qed.

(** X6. A negative sample count draws no forward pass at all: the
    generator is left as it was, and every prediction and every
    uncertainty is the scaled reduction of no value (the mean of nothing,
    [0/0]), one per row. *)
Theorem predict_infer_negative_samples (l : Locals F) (w w' : W) predicted
    uncertainty :
  l_k_samples l < 0 ->
  predict_infer l w = (Ret (predicted, uncertainty), w') ->
  w_rng w' = w_rng w
  /\ predicted
     = map (fun _ => np_scale (mk_ndarray [] [mean []])
                       (num_to_float (l_scaling_factor l)))
           (l_np_latent l)
  /\ uncertainty
     = map (fun _ => np_scale (mk_ndarray [] [std []])
                       (num_to_float (l_scaling_factor l)))
           (l_np_latent l).
Proof.
  intros N E.
  assert (Z.to_nat (l_k_samples l) = 0%nat) as Z0 by lia.
  split.
  - revert E. generalize (Ret (predicted, uncertainty)). revert w w'.
    assert (quiet (predict_infer l : M W _)) as Q.
    { unfold predict_infer.
      repeat first
        [ apply quiet_predict_rows_no_pass; exact Z0
        | apply quiet_bind; [|intros ?]
        | apply quiet_ck_get | apply quiet_print | apply quiet_or_raise
        | apply quiet_ret ]. }
    intros w w' o E. apply Q in E as (_ & _ & _ & R). exact R.
  - apply predict_infer_inv in E as (ms & ss & Fm & Fs & -> & -> & _).
    rewrite Z0 in Fm, Fs.
    revert ms ss Fm Fs. generalize (w_rng w).
    induction (l_np_latent l) as [|x rows IH]; intros g ms ss Fm Fs.
    + inversion Fm; inversion Fs; subst. auto.
    + cbn [row_passes forward_passes] in Fm, Fs.
      inversion Fm as [|? m ? ms' Em Fm']; subst.
      inversion Fs as [|? s ? ss' Es Fs']; subst.
      injection Em as <-. injection Es as <-.
      destruct (IH g ms' ss' Fm' Fs') as [E1 E2].
      cbn [map]. rewrite E1, E2. auto.
Qed.

End FailureFacts.

Section ExportEdgeFacts.
Context {F Rng : Type} `{Float F} `{PredictLibs F Rng}.
Local Abbreviation W := (World F Rng).

Ltac run_to_raise E :=
  unfold predict_infer, ck_get in E;
  repeat match goal with
         | L : _ !! _ = _ |- _ => rewrite L in E
         end;
  cbn [or_raise] in E;
  repeat (erewrite bind_ret_intro in E by reflexivity);
  rewrite bind_raise_l in E;
  injection E as <- <-.

(** X8. The checkpoint must carry the five training figures that are
    only printed: when one of [epochs], [batch_size], [learning_rate],
    [lambda_fit_loss], [elbo_kld] is missing, the run stops with a
    [KeyError] for a missing one of them, before any forward pass, and
    only the console has changed. *)
Theorem predict_infer_missing_metadata (l : Locals F) (w w' : W) o key :
  In key ["epochs"; "batch_size"; "learning_rate"; "lambda_fit_loss";
          "elbo_kld"] ->
  l_trained_network l !! key = None ->
  predict_infer l w = (o, w') ->
  (exists k,
      In k ["epochs"; "batch_size"; "learning_rate"; "lambda_fit_loss";
            "elbo_kld"]
      /\ l_trained_network l !! k = None /\ o = Raise (KeyError k))
  /\ console_only w w'.
Proof.
  intros I N E.
  destruct (l_trained_network l !! "epochs") as [v1|] eqn:E1.
  2:{ run_to_raise E. split; [|repeat split].
      exists "epochs". simpl. auto. }
  destruct (l_trained_network l !! "batch_size") as [v2|] eqn:E2.
  2:{ run_to_raise E. split; [|repeat split].
      exists "batch_size". simpl. auto. }
  destruct (l_trained_network l !! "learning_rate") as [v3|] eqn:E3.
  2:{ run_to_raise E. split; [|repeat split].
      exists "learning_rate". simpl. auto. }
  destruct (l_trained_network l !! "lambda_fit_loss") as [v4|] eqn:E4.
  2:{ run_to_raise E. split; [|repeat split].
      exists "lambda_fit_loss". simpl. auto 6. }
  destruct (l_trained_network l !! "elbo_kld") as [v5|] eqn:E5.
  2:{ run_to_raise E. split; [|repeat split].
      exists "elbo_kld". simpl. auto 7. }
  exfalso. simpl in I.
  destruct I as [<- | [<- | [<- | [<- | [<- | []]]]]]; congruence.
Qed.

(** One result cannot be framed: squeezing removes the axis of the rows
    with the others of length one. *)
Lemma single_result_rejected (r : Regressor F) K (x a : ndarray F) prefix key
    (f : DataFrame F) :
  shape x = row_shape r K ->
  np_squeeze [x] = Some a ->
  DataFrame_of_array a (result_columns prefix key (output_dim r)) = Ret f ->
  False.
Proof.
  intros S Q D. apply np_squeeze_shape in Q.
  apply DataFrame_of_array_rows in D.
  rewrite result_columns_length in D. rewrite S in Q. cbn [length] in Q.
  destruct K; cbn [row_shape] in Q; simpl in Q.
  - destruct D as [[D _] | (m & D & _)]; rewrite Q in D; discriminate.
  - destruct (output_dim r =? 1)%nat eqn:O; simpl in Q.
    + destruct D as [[D _] | (m & D & _)]; rewrite Q in D; discriminate.
    + apply Nat.eqb_neq in O.
      destruct D as [[D L] | (m & D & _)]; rewrite Q in D;
        [contradiction | discriminate].
Qed.

(** [predict_impl] does not return on a single clean row. *)
Lemma predict_impl_needs_two_rows latent_csv latent_key target_key
    output_csv net olt num_samples scale_factor gpu cpu (w w' : W) z df0 :
  forward_shape_ok ->
  w_files w !! latent_csv = Some (FCsv df0) ->
  nrows (dropna df0) = 1%nat ->
  predict_impl latent_csv latent_key target_key output_csv net olt
    num_samples scale_factor gpu cpu w <> (Ret z, w').
Proof.
  intros OK Lf N1 E.
  unfold predict_impl in E.
  bind_inv E as l wa S. bind_inv E as r wb I.
  destruct r as [p u]. cbn [fst snd] in E.
  pose proof (predict_setup_inv _ _ _ _ _ _ _ _ _ _ _ _ _ S)
    as (_ & _ & _ & _ & _ & (df1 & Lf' & Ld & _ & LX) & _ & _ & Do & _).
  rewrite Lf in Lf'. injection Lf' as <-.
  apply to_numpy_float_rows in LX as [LX _].
  apply predict_infer_inv in I as (ms & ss & Fm & Fs & -> & -> & _).
  destruct (scaled_results_shapes _ _ _ _ _
              (num_to_float (l_scaling_factor l)) _ OK Fm) as [Sp Lp].
  apply predict_export_inv in E as (out' & O & _).
  rewrite <- Do in O. unfold output_frame in O.
  destruct (np_squeeze _) as [pa|] eqn:Qp; [|discriminate].
  destruct (DataFrame_of_array pa _) as [pdf| |] eqn:Dp; try discriminate.
  rewrite LX, N1 in Lp.
  destruct (map _ ms) as [|x [|]] eqn:M; try discriminate Lp.
  inversion Sp as [|? ? Sx _]; subst.
  eapply single_result_rejected; eauto.
Qed.

(** X9. A CSV with a single clean row is never predicted: the forward
    passes are drawn, but [np.squeeze] drops the row axis of the one
    result with the axes of length one, the frame constructor rejects
    what is left, and [predict_impl] ends in an exception without writing
    anything. *)
Theorem predict_impl_single_row_fails latent_csv latent_key target_key
    output_csv net olt num_samples scale_factor gpu cpu (w w' : W) o df0 :
  forward_shape_ok ->
  w_files w !! latent_csv = Some (FCsv df0) ->
  nrows (dropna df0) = 1%nat ->
  predict_impl latent_csv latent_key target_key output_csv net olt
    num_samples scale_factor gpu cpu w = (o, w') ->
  is_ret o = false /\ w_files w' = w_files w.
Proof.
  intros OK Lf N1 E.
  destruct (predict_impl_files _ _ _ _ _ _ _ _ _ _ _ _ _ E)
    as [(out & -> & _) | R]; [exfalso | exact R].
  exact (predict_impl_needs_two_rows _ _ _ _ _ _ _ _ _ _ _ _ _ _
           OK Lf N1 E).
Qed.

Lemma output_frame_index (r : Regressor F) K df p u key ikey out :
  Forall (fun x => shape x = row_shape r K) p ->
  Forall (fun x => shape x = row_shape r K) u ->
  length p = nrows df -> length u = nrows df ->
  output_frame df p u (output_dim r) key ikey = Ret out ->
  df_index out = range_index (nrows df).
Proof.
  intros Sp Su Lp Lu E. unfold output_frame in E.
  destruct (np_squeeze p) as [pa|] eqn:Qp; [|discriminate].
  destruct (DataFrame_of_array pa _) as [pdf| |] eqn:Dp; try discriminate.
  destruct (np_squeeze u) as [ua|] eqn:Qu; [|discriminate].
  destruct (DataFrame_of_array ua _) as [udf| |] eqn:Du; try discriminate.
  destruct (reset_index_keep df) as [odf| |] eqn:R; try discriminate.
  destruct (re_compile ikey) as [search|] eqn:C; [|discriminate].
  injection E as <-.
  pose proof (result_frame_rows _ _ _ _ _ _ _ Sp Qp Dp) as Np.
  pose proof (result_frame_rows _ _ _ _ _ _ _ Su Qu Du) as Nu.
  unfold reset_index_keep in R.
  destruct (str_in _ (column_names df)); [discriminate|].
  injection R as <-.
  unfold drop_columns. cbn [df_index].
  rewrite !concat_after_reset. cbn [df_index].
  rewrite !nrows_mk_df, !range_index_length.
  rewrite Np, Nu, Lp, Lu. rewrite !Nat.max_id. reflexivity.
Qed.

(** X10. A successful run writes one output row per clean input row: the
    exported frame is indexed 0, 1, ... up to the number of rows of the
    loaded frame, under the index name [index], and there are at least
    two rows. *)
Theorem predict_impl_one_row_per_input latent_csv latent_key target_key
    output_csv net olt num_samples scale_factor gpu cpu (w w' : W) z :
  forward_shape_ok ->
  predict_impl latent_csv latent_key target_key output_csv net olt
    num_samples scale_factor gpu cpu w = (Ret z, w') ->
  exists df0 out,
    w_files w !! latent_csv = Some (FCsv df0)
    /\ w_files w' !! resolved_output_csv output_csv (w_now w)
       = Some (FCsv out)
    /\ df_index_name out = Some "index"
    /\ df_index out = range_index (nrows (dropna df0))
    /\ nrows out = nrows (dropna df0)
    /\ (2 <= nrows out)%nat.
Proof.
  intros OK E.
  assert (exists df0, w_files w !! latent_csv = Some (FCsv df0)
                      /\ nrows (dropna df0) <> 1%nat
                      /\ nrows (dropna df0) <> 0%nat) as (df0 & Lf & N1 & N0).
  { pose proof E as E'. unfold predict_impl in E'.
    bind_inv E' as l wa S. bind_inv E' as r wb I.
    pose proof (predict_setup_inv _ _ _ _ _ _ _ _ _ _ _ _ _ S)
      as (_ & _ & _ & _ & _ & (df0 & Lf & _ & _ & LX) & _).
    exists df0. split; [exact Lf|]. split.
    - intros N1.
      exact (predict_impl_needs_two_rows _ _ _ _ _ _ _ _ _ _ _ _ _ _
               OK Lf N1 E).
    - intros N0. apply to_numpy_float_rows in LX as [LX _].
      rewrite N0 in LX. destruct (l_np_latent l) eqn:X; [|discriminate].
      refine (predict_infer_needs_latents l wa wb r _ I).
      rewrite X. reflexivity. }
  unfold predict_impl in E.
  bind_inv E as l wa S. bind_inv E as r wb I.
  destruct r as [p u]. cbn [fst snd] in E.
  pose proof (predict_setup_inv _ _ _ _ _ _ _ _ _ _ _ _ _ S)
    as (Ec & _ & _ & _ & _ & (df1 & Lf' & Ld & _ & LX) & _ & _ & Do & _).
  rewrite Lf in Lf'. injection Lf' as <-.
  apply to_numpy_float_rows in LX as [LX _].
  apply predict_infer_inv in I as (ms & ss & Fm & Fs & -> & -> & _).
  destruct (scaled_results_shapes _ _ _ _ _
              (num_to_float (l_scaling_factor l)) _ OK Fm) as [Sp Lp].
  destruct (scaled_results_shapes _ _ _ _ _
              (num_to_float (l_scaling_factor l)) _ OK Fs) as [Su Lu].
  apply predict_export_inv in E as (out & O & Wf).
  rewrite <- Do in O. rewrite Ld in O.
  apply (output_frame_index _ (Z.to_nat (l_k_samples l))) in O;
    [| assumption | assumption | congruence | congruence].
  exists df0, (mk_df (Some "index") (df_index out) (df_columns out)).
  split; [exact Lf|].
  split; [rewrite <- Ec, Wf; apply lookup_insert_eq|].
  split; [reflexivity|]. cbn [df_index]. split; [exact O|].
  assert (nrows (mk_df (Some "index") (df_index out) (df_columns out))
          = nrows (dropna df0)) as Nr.
  { unfold nrows at 1. cbn [df_index]. rewrite O. apply range_index_length. }
  split; [exact Nr|]. rewrite Nr. lia.
Qed.
End ExportEdgeFacts.

Section ScriptEdgeFacts.
Context {F Rng : Type} `{Float F} `{Geotech.ScriptLibs F Rng}.
Local Abbreviation W := (World F Rng).
Local Abbreviation BayesianRegressor :=
  (Geotech.BayesianRegressor Geotech.Params).

(** X11. Asked for no sample, or for a negative number of them,
    [evaluate_regression] draws nothing and fails in [torch.stack] on the
    empty list of predictions; the generator is left as it was. *)
Theorem evaluate_regression_no_samples (regressor : BayesianRegressor)
    (X y : ndarray F) (samples : Z) (m : F) (g : Rng) :
  samples <= 0 ->
  Geotech.evaluate_regression regressor X y samples m g
  = (Raise (RuntimeError "stack expects a non-empty TensorList"), g).
Proof.
  intros L. unfold Geotech.evaluate_regression.
  replace (Z.to_nat samples) with 0%nat by lia. reflexivity.
Qed.

(** X14. In the training loop every mini-batch costs exactly one
    optimizer update and one count of the iteration counter: with a
    loader that yields [m] mini-batches in every epoch, a run of
    [epochs] epochs that completes has applied [epochs * m] updates and
    counted as many iterations. *)
Theorem train_epochs_counts_updates epochs m X_train y_train X_test y_test
    (st st' : Geotech.TrainState) it it' (w w' : W) :
  (forall g,
      length (fst (Geotech.dataloader_iter X_train y_train 16 g)) = m) ->
  Geotech.train_epochs epochs X_train y_train X_test y_test st it w
  = (Ret (st', it'), w') ->
  Geotech.ts_steps st' = (Geotech.ts_steps st + epochs * m)%nat
  /\ it' = (it + epochs * m)%nat.
Proof.
  intros Lm. revert st it w.
  induction epochs as [|n IH]; intros st it w E.
  - injection E as <- <- _. lia.
  - cbn [Geotech.train_epochs] in E.
    bind_inv E as batches wa S. apply with_rng_inv in S as (-> & _).
    bind_inv E as r wb T. destruct r as [st1 it1].
    apply train_batches_steps in T as [S1 S2].
    rewrite Lm in S1, S2.
    cbn [fst snd] in E. apply IH in E as [E1 E2]. lia.
Qed.
End ScriptEdgeFacts.

(* ================================================================== *)
(** ** The further properties at concrete inputs *)
(* ================================================================== *)

Section FurtherRuns.
Import Demo DemoOne.

(** The demo survey, written under the timestamped default name. *)
Lemma predict_impl_writes_only_output_witness :
  exists w' out,
    predict_impl "latents.csv" None None "" "net.pt" "gaussian" None None 0
      false world = (Ret 0, w')
    /\ w_files w'
       = <["20230307_090542_bnn_predictions.csv" := FCsv out]>
           (w_files world).
Proof.
  assert (fst (predict_impl "latents.csv" None None "" "net.pt" "gaussian"
                 None None 0 false world) = Ret 0) as R
    by (vm_compute; reflexivity).
  destruct (predict_impl "latents.csv" None None "" "net.pt" "gaussian"
              None None 0 false world) as [o w'] eqn:E.
  cbn [fst] in R. subst o.
  destruct (predict_impl_writes_only_output _ _ _ _ _ _ _ _ _ _ _ _ _ E)
    as [(out & _ & _ & Wf) | [R _]]; [|discriminate R].
  exists w', out. split; [reflexivity | exact Wf].
Defined.

(** No checkpoint under the given name. *)
Lemma predict_impl_missing_network_witness :
  w_files world !! "absent.pt" = None
  /\ exists w',
       predict_impl "latents.csv" None None "out.csv" "absent.pt" "gaussian"
         None None 0 false world = (Exit, w')
       /\ console_only world w'.
Proof.
  assert (w_files world !! "absent.pt" = None) as N
    by (vm_compute; reflexivity).
  split; [exact N|].
  destruct (predict_impl_missing_network "latents.csv" None None "out.csv"
              "absent.pt" "gaussian" None None 0 false world N)
    as (w' & E & C & _).
  exists w'. split; [exact E | exact C].
Defined.


(** Two rows without latent columns. *)
Lemma predict_infer_empty_latents_witness :
  concat (l_np_latent locals_empty) = []
  /\ is_ret (fst (predict_infer locals_empty world)) = false.
Proof.
  split; [reflexivity|].
  destruct (predict_infer locals_empty world) as [o w'] eqn:E.
  exact (proj1 (predict_infer_empty_latents locals_empty world w' o
                  eq_refl E)).
Defined.

(** Minus three samples for two rows. *)
Lemma predict_infer_negative_samples_witness :
  l_k_samples locals_negative < 0
  /\ exists predicted uncertainty w',
       predict_infer locals_negative world
       = (Ret (predicted, uncertainty), w')
       /\ w_rng w' = 0%nat
       /\ length predicted = 2%nat.
Proof.
  assert (l_k_samples locals_negative < 0) as N by reflexivity.
  split; [exact N|].
  assert (is_ret (fst (predict_infer locals_negative world)) = true) as R
    by (vm_compute; reflexivity).
  destruct (predict_infer locals_negative world) as [[[p u]| |e] w'] eqn:E;
    [| discriminate R | discriminate R].
  exists p, u, w'. split; [reflexivity|].
  destruct (predict_infer_negative_samples _ _ _ _ _ N E) as (G & -> & _).
  split; [exact G | reflexivity].
Defined.

(** The demo checkpoint without its learning rate. *)
Lemma predict_infer_missing_metadata_witness :
  l_trained_network locals_no_rate !! "learning_rate" = None
  /\ exists k, fst (predict_infer locals_no_rate world) = Raise (KeyError k).
Proof.
  assert (l_trained_network locals_no_rate !! "learning_rate" = None) as N
    by (vm_compute; reflexivity).
  split; [exact N|].
  destruct (predict_infer locals_no_rate world) as [o w'] eqn:E.
  destruct (predict_infer_missing_metadata locals_no_rate world w' o
              "learning_rate"
              (or_intror (or_intror (or_introl eq_refl))) N E)
    as [(k & _ & _ & ->) _].
  exists k. reflexivity.
Defined.

(** A survey of one location. *)
Lemma predict_impl_single_row_fails_witness :
  w_files world1 !! "one.csv" = Some (FCsv latents1)
  /\ nrows (dropna latents1) = 1%nat
  /\ is_ret (fst (predict_impl "one.csv" None None "out.csv" "net.pt"
                    "gaussian" None None 0 false world1)) = false.
Proof.
  assert (w_files world1 !! "one.csv" = Some (FCsv latents1)) as Lf
    by (vm_compute; reflexivity).
  assert (nrows (dropna latents1) = 1%nat) as N1
    by (vm_compute; reflexivity).
  split; [exact Lf|]. split; [exact N1|].
  destruct (predict_impl "one.csv" None None "out.csv" "net.pt" "gaussian"
              None None 0 false world1) as [o w'] eqn:E.
  exact (proj1 (predict_impl_single_row_fails _ _ _ _ _ _ _ _ _ _ _ _ _ _
                  demo_forward_shape_ok Lf N1 E)).
Defined.

(** The survey with a NaN in one of its three rows: two rows come out. *)
Lemma predict_impl_one_row_per_input_witness :
  exists w' out,
    predict_impl "nan.csv" None None "out.csv" "net.pt" "gaussian"
      None None 0 false world = (Ret 0, w')
    /\ w_files w' !! "out.csv" = Some (FCsv out)
    /\ df_index out = [CInt 0; CInt 1].
Proof.
  assert (fst (predict_impl "nan.csv" None None "out.csv" "net.pt"
                 "gaussian" None None 0 false world) = Ret 0) as R
    by (vm_compute; reflexivity).
  destruct (predict_impl "nan.csv" None None "out.csv" "net.pt" "gaussian"
              None None 0 false world) as [o w'] eqn:E.
  cbn [fst] in R. subst o.
  destruct (predict_impl_one_row_per_input _ _ _ _ _ _ _ _ _ _ _ _ _
              demo_forward_shape_ok E)
    as (df0 & out & Lf & Wf & _ & I & _).
  vm_compute in Lf. injection Lf as <-.
  exists w', out. split; [reflexivity|]. split; [exact Wf|].
  rewrite I. vm_compute. reflexivity.
Defined.
End FurtherRuns.

Section FurtherScriptRuns.
Import Demo GeoDemo.

(** No sample asked for. *)
Lemma evaluate_regression_no_samples_witness :
  0 <= 0
  /\ Geotech.evaluate_regression regressor X y 0 2%Q 5%nat
     = (Raise (RuntimeError "stack expects a non-empty TensorList"), 5%nat).
Proof.
  split; [apply Z.le_refl|].
  apply (@evaluate_regression_no_samples Q nat float_Q script_libs).
  apply Z.le_refl.
Defined.

Lemma geo_loader_one_batch g :
  length (fst (Geotech.dataloader_iter X y 16 g)) = 1%nat.
Proof. reflexivity. Defined.

(** Two epochs of one mini-batch each. *)
Lemma train_epochs_counts_updates_witness :
  exists st' it' w',
    Geotech.train_epochs 2 X y X y state 0 world = (Ret (st', it'), w')
    /\ Geotech.ts_steps st' = 2%nat
    /\ it' = 2%nat.
Proof.
  assert (is_ret (fst (Geotech.train_epochs 2 X y X y state 0 world))
          = true) as R by (vm_compute; reflexivity).
  destruct (Geotech.train_epochs 2 X y X y state 0 world)
    as [[[st' it']| |e] w'] eqn:E; [| discriminate R | discriminate R].
  exists st', it', w'. split; [reflexivity|].
  exact (train_epochs_counts_updates 2 1 _ _ _ _ _ _ _ _ _ _
           geo_loader_one_batch E).
Defined.
End FurtherScriptRuns.

Section KeyFacts.
Context {F Rng : Type} `{Float F} `{PredictLibs F Rng}.
Local Abbreviation W := (World F Rng).

(** The run of [predict_setup] under another latent key: the same, but
    for the key recorded. *)
Lemma predict_setup_latent_key latent_csv latent_key latent_key' target_key
    output_csv net olt num_samples scale_factor gpu cpu (w : W) :
  predict_setup latent_csv latent_key' target_key output_csv net olt
    num_samples scale_factor gpu cpu w
  = match predict_setup latent_csv latent_key target_key output_csv net olt
            num_samples scale_factor gpu cpu w with
    | (Ret l, w') =>
        (Ret (mk_locals (l_output_csv l) (l_k_samples l) (l_output_key l)
                (py_or str_truthy latent_key' "latent_")
                (l_scaling_factor l) (l_np_latent l) (l_n_latents l)
                (l_df l) (l_trained_network l) (l_output_size l)
                (l_regressor l)), w')
    | (Exit, w') => (Exit, w')
    | (Raise e, w') => (Raise e, w')
    end.
Proof.
  unfold predict_setup, bind, ret.
  repeat match goal with
         | _ => progress cbv beta iota
         | |- context [match ?m ?w0 with pair _ _ => _ end] =>
             lazymatch m with
             | context [match _ with _ => _ end] => fail
             | ret _ => fail
             | _ => idtac
             end;
             destruct (m w0) as [[?| |?] ?]
         | |- context [if ?b then _ else _] => destruct b
         | |- context [match ?p with pair _ _ => _ end] => is_var p; destruct p
         | |- context [match ?p with CkNum _ => _ | CkStateDict _ => _ end] =>
             is_var p; destruct p
         end.
  all: reflexivity.
Qed.

(** X15. The latent key takes no part in choosing the inputs of the
    network: the loader is called with the fixed prefix [latent_], so
    under any other latent key the setup leaves the same world, the same
    latent matrix, frame and regressor, and the inference that follows
    gives the same predictions; the key only names the columns dropped
    from the output. *)
Theorem latent_key_does_not_select_inputs latent_csv latent_key latent_key'
    target_key output_csv net olt num_samples scale_factor gpu cpu
    (w w' : W) l :
  predict_setup latent_csv latent_key target_key output_csv net olt
    num_samples scale_factor gpu cpu w = (Ret l, w') ->
  exists l2,
    predict_setup latent_csv latent_key' target_key output_csv net olt
      num_samples scale_factor gpu cpu w = (Ret l2, w')
    /\ l_input_key l2 = py_or str_truthy latent_key' "latent_"
    /\ l_np_latent l2 = l_np_latent l
    /\ l_n_latents l2 = l_n_latents l
    /\ l_df l2 = l_df l
    /\ l_regressor l2 = l_regressor l
    /\ predict_infer l2 w' = predict_infer l w'.
Proof.
  intros E.
  pose proof (predict_setup_latent_key latent_csv latent_key latent_key'
                target_key output_csv net olt num_samples scale_factor
                gpu cpu w) as K.
  rewrite E in K. eexists. split; [exact K|].
  split_and!; reflexivity.
Qed.
End KeyFacts.

Section KeyRuns.
Import Demo.

(** The demo survey under the latent key [_]. *)
Lemma latent_key_does_not_select_inputs_witness :
  exists l l2 w',
    predict_setup "latents.csv" None None "out.csv" "net.pt" "gaussian"
      None None 0 false world = (Ret l, w')
    /\ predict_setup "latents.csv" (Some "_") None "out.csv" "net.pt"
         "gaussian" None None 0 false world = (Ret l2, w')
    /\ l_input_key l2 = "_"
    /\ predict_infer l2 w' = predict_infer l w'.
Proof.
  assert (is_ret (fst (predict_setup "latents.csv" None None "out.csv"
                         "net.pt" "gaussian" None None 0 false world))
          = true) as R by (vm_compute; reflexivity).
  destruct (predict_setup "latents.csv" None None "out.csv" "net.pt"
              "gaussian" None None 0 false world)
    as [[l| |e] w'] eqn:E; [| discriminate R | discriminate R].
  destruct (latent_key_does_not_select_inputs _ _ (Some "_") _ _ _ _ _ _ _ _
              _ _ _ E) as (l2 & E2 & K & _ & _ & _ & _ & I).
  exists l, l2, w'. split; [reflexivity|]. split; [exact E2|].
  split; [exact K | exact I].
Defined.
End KeyRuns.
